(** * Reddit-Jams: the Reddit mining stage and its callers

    A shallow embedding of [reddit_api.py] ([initialize_reddit],
    [search_reddit_for_recommendations], [get_reddit_recommendations]), of
    [get_recommendations] of [main.py], which calls them, and of the two
    views that call that in turn ([endpoint.py], [fastapi_endpoint.py]);
    and the properties of the seed selection, the keyword filters and the
    error handling that the design document states about them or that the
    code shows.

    Conventions of the embedding:
    - a Python [str] is a [string]: the bytes of its UTF-8 encoding, so
      that the literals of the code, [+] and [in] are what they are in
      Python.  [str.lower] follows the Unicode tables, which are not
      written out here: it is a [Lowering], any function that lowers plain
      ASCII text letter by letter and obeys the two laws stated with the
      class.  Every statement holds for every such function; the samples
      are plain ASCII text;
    - a Python [int] is a [Z]; a [len] is a [nat];
    - the PRAW objects ([Reddit], [Subreddit], the search listing, a
      submission, its comment forest, a comment) are records of the answers
      the service gives.  Each of the calls [reddit.subreddit],
      [subreddit.search], the iteration of the listing, the fetch of a
      comment forest and the reading of a comment may raise.  Reading the
      attributes of a post is taken to succeed: for these functions a post
      that cannot be read is a listing that breaks at that post;
    - an exception [exn] is an instance of [Exception], which the handlers
      of the code ([except Exception]) catch, or it is none
      ([KeyboardInterrupt], [SystemExit], ...), and they let it through;
    - statements run in a state-and-exception monad whose state survives a
      raised exception, as what was appended to a Python list does;
    - [print] appends one entry to the output;
    - the functions of [spotify_api.py] and [ai_analysis.py], which
      [main.py] calls, are parameters: what they print, and what they
      return or raise. *)

From Stdlib Require Import List String Ascii ZArith Lia Bool Arith.
From Stdlib Require Import Permutation Sorted DecimalString.
From Stdlib Require PrimFloat.
Import ListNotations.
Local Open Scope string_scope.
Local Open Scope Z_scope.

Set Implicit Arguments.

(* ================================================================== *)
(** * Python built-ins                                                 *)
(* ================================================================== *)

(** ** Strings *)

(** [c.lower()] for an ASCII character. *)
Definition lower_char (c : ascii) : ascii :=
  let n := nat_of_ascii c in
  if (Nat.leb 65 n && Nat.leb n 90)%bool then ascii_of_nat (n + 32) else c.

(** [s.lower()] for plain ASCII text. *)
Fixpoint ascii_lower (s : string) : string :=
  match s with
  | EmptyString => EmptyString
  | String c rest => String (lower_char c) (ascii_lower rest)
  end.

(** The text holds ASCII characters only. *)
Fixpoint plain (s : string) : bool :=
  match s with
  | EmptyString => true
  | String c rest => (Nat.ltb (nat_of_ascii c) 128 && plain rest)%bool
  end.

(** [s.lower()].  Python lowers each character as the Unicode tables say,
    the result depending on the characters around it for the capital
    sigma only.  What is used of it:
    - plain ASCII text is lowered letter by letter;
    - a space is not a letter and separates words: the texts on either
      side of it are lowered as they are on their own;
    - a piece of text whose lowering is plain ASCII (so it holds no
      capital sigma) is lowered the same way wherever it stands. *)
Class Lowering := {
  lower : string -> string;
  lower_plain : forall s, plain s = true -> lower s = ascii_lower s;
  lower_words : forall s1 s2, lower (s1 ++ " " ++ s2) = lower s1 ++ " " ++ lower s2;
  lower_inside :
    forall before s after,
      plain (lower s) = true ->
      exists before' after', lower (before ++ s ++ after) = before' ++ lower s ++ after'
}.

Fixpoint ascii_lower_app (s1 s2 : string)
    : ascii_lower (s1 ++ s2) = ascii_lower s1 ++ ascii_lower s2 :=
  match s1 with
  | EmptyString => eq_refl
  | String c rest => f_equal (String (lower_char c)) (ascii_lower_app rest s2)
  end.

(** The lowering that leaves every character outside ASCII as it is. *)
Definition ascii_only : Lowering := {|
  lower := ascii_lower;
  lower_plain := fun s _ => eq_refl;
  lower_words := fun s1 s2 => ascii_lower_app s1 (" " ++ s2);
  lower_inside := fun before s after _ =>
    ex_intro _ (ascii_lower before)
      (ex_intro _ (ascii_lower after)
         (eq_trans (ascii_lower_app before (s ++ after))
            (f_equal (append (ascii_lower before)) (ascii_lower_app s after))))
|}.

(** The samples below are plain ASCII text; they are lowered by
    [ascii_only]. *)
#[local] Existing Instance ascii_only.

(** [text.startswith(kw)] *)
Fixpoint startswith (kw text : string) : bool :=
  match kw, text with
  | EmptyString, _ => true
  | String _ _, EmptyString => false
  | String a kw', String b text' => (Ascii.eqb a b && startswith kw' text')%bool
  end.

(** [kw in text]: [kw] occurs in [text] as a contiguous substring. *)
Fixpoint str_in (kw text : string) : bool :=
  (startswith kw text
   || match text with
      | EmptyString => false
      | String _ rest => str_in kw rest
      end)%bool.

(** [any(keyword in text for keyword in keywords)] *)
Definition any_keyword_in (keywords : list string) (text : string) : bool :=
  existsb (fun keyword => str_in keyword text) keywords.

(** [str(n)] for a length. *)
Definition str_of_nat (n : nat) : string := NilZero.string_of_uint (Nat.to_uint n).

(** [s * n] *)
Fixpoint str_mul (s : string) (n : nat) : string :=
  match n with
  | O => EmptyString
  | S k => s ++ str_mul s k
  end.

(** The mathematical reading of [kw in text]. *)
Definition Substring (kw text : string) : Prop :=
  exists before after, text = before ++ kw ++ after.

(** ** Lists *)

(** [l[:n]]: the first [n] elements when [n >= 0]; all but the last [-n]
    when [n < 0]. *)
Definition slice_to (A : Type) (n : Z) (l : list A) : list A :=
  if 0 <=? n then firstn (Z.to_nat n) l
  else firstn (List.length l - Z.to_nat (- n)) l.

(** [sorted(l, key=key, reverse=reverse)].  Python's sort is stable; with
    [reverse=True] it reverses the list, sorts it in ascending order and
    reverses the outcome, so that equal keys keep their original order.
    The ascending stable sort is written as an insertion sort: [x] goes in
    front of the first element whose key is not below its own. *)
Section PySorted.
Variable A : Type.
Variable key : A -> Z.

Fixpoint insert_asc (x : A) (l : list A) : list A :=
  match l with
  | [] => [x]
  | y :: rest => if key y <? key x then y :: insert_asc x rest else x :: y :: rest
  end.

Definition sort_asc (l : list A) : list A := fold_right insert_asc [] l.

Definition sorted (reverse : bool) (l : list A) : list A :=
  if reverse then rev (sort_asc (rev l)) else sort_asc l.
End PySorted.

(** [list(set(l))] lists every distinct element of [l] once, in an order
    that the language leaves to the hash table. *)
Class SetOrder := {
  list_of_set : list string -> list string;
  list_of_set_NoDup : forall l, NoDup (list_of_set l);
  list_of_set_In : forall l x, In x (list_of_set l) <-> In x l
}.

(** One such order: first occurrences are dropped, last ones kept. *)
Definition last_seen_order : SetOrder := {|
  list_of_set := nodup string_dec;
  list_of_set_NoDup := NoDup_nodup string_dec;
  list_of_set_In := fun l x => nodup_In string_dec l x
|}.

(* ================================================================== *)
(** * Exceptions, state and output                                     *)
(* ================================================================== *)

(** A raised exception: whether it is an instance of [Exception], and
    what [str(e)] gives.  [KeyboardInterrupt], [SystemExit] and
    [GeneratorExit] are instances of [BaseException] only. *)
Record exn : Type := { is_Exception : bool; str_of_exn : string }.

(** [Exception(msg)], or an instance of a subclass of [Exception]. *)
Definition Exception (msg : string) : exn :=
  {| is_Exception := true; str_of_exn := msg |}.

(** [KeyboardInterrupt()] *)
Definition KeyboardInterrupt : exn :=
  {| is_Exception := false; str_of_exn := "" |}.

(** What a call yields: a value, or a raised exception. *)
Inductive outcome (A : Type) : Type :=
| Ok (a : A)
| Raise (e : exn).
Arguments Ok {A} a.
Arguments Raise {A} e.

(** A statement over the mutable state [St].  The state comes back in both
    cases: what was appended before an exception stays appended. *)
Definition Py (St A : Type) : Type := St -> outcome A * St.

Section Monad.
Variable St : Type.

Definition ret (A : Type) (a : A) : Py St A := fun s => (Ok a, s).

Definition bind (A B : Type) (m : Py St A) (k : A -> Py St B) : Py St B :=
  fun s =>
    match m s with
    | (Ok a, s') => k a s'
    | (Raise e, s') => (Raise e, s')
    end.

(** The answer of an external call. *)
Definition call (A : Type) (answer : outcome A) : Py St A := fun s => (answer, s).

Definition modify (f : St -> St) : Py St unit := fun s => (Ok tt, f s).

(** [try: body  except Exception as e: handler e].  An exception that is
    no instance of [Exception] is not caught. *)
Definition try_except (A : Type) (body : Py St A) (handler : exn -> Py St A) : Py St A :=
  fun s =>
    match body s with
    | (Ok a, s') => (Ok a, s')
    | (Raise e, s') => if is_Exception e then handler e s' else (Raise e, s')
    end.
End Monad.
Arguments ret {St A} a.
Arguments bind {St A B} m k.
Arguments call {St A} answer.
Arguments modify {St} f.
Arguments try_except {St A} body handler.

Declare Scope py_scope.
Delimit Scope py_scope with py.
Notation "x <- m ;; k" := (bind m (fun x => k))
  (at level 100, m at next level, right associativity) : py_scope.
Notation "m ;; k" := (bind m (fun _ => k))
  (at level 100, right associativity) : py_scope.
Notation "'pass'" := (ret tt) : py_scope.

(** The state of a running function: its local variables and the lines
    printed so far. *)
Record World (L : Type) : Type := { locals : L; stdout : list string }.

Section Worlds.
Variable L : Type.

(** [print(line)] *)
Definition print (line : string) : Py (World L) unit :=
  modify (fun w => {| locals := locals w; stdout := (stdout w ++ [line])%list |}).

Definition get_locals : Py (World L) L := fun w => (Ok (locals w), w).

Definition modify_locals (f : L -> L) : Py (World L) unit :=
  modify (fun w => {| locals := f (locals w); stdout := stdout w |}).

(** A function call: the callee runs on fresh locals [init] and on the
    caller's output; the caller's locals are untouched, and an exception
    of the callee is one of the call. *)
Definition invoke (L' A : Type) (init : L') (callee : Py (World L') A) : Py (World L) A :=
  fun w =>
    let (r, w') := callee {| locals := init; stdout := stdout w |} in
    (r, {| locals := locals w; stdout := stdout w' |}).
End Worlds.
Arguments print {L} line.
Arguments get_locals {L}.
Arguments modify_locals {L} f.
Arguments invoke {L L' A} init callee.

(* ================================================================== *)
(** * Data                                                             *)
(* ================================================================== *)

(** A track dictionary of [tracks_data]; the keys this module reads. *)
Record Track : Type := {
  name : string;
  artists : list string;
  artist_names : string;
  popularity : Z
}.

(** A comment as PRAW hands it out. *)
Module Comment.
Record t : Type := { body : string; score : Z; author : option string }.
End Comment.

(** [post.comments]: [replace_more] and [list()] either fail, or give the
    flattened comments; reading one of them may fail in turn. *)
Definition CommentForest : Type := outcome (list (outcome Comment.t)).

(** A submission of the search listing. *)
Module Submission.
Record t : Type := {
  title : string;
  selftext : string;
  score : Z;
  permalink : string;
  comments : CommentForest
}.
End Submission.

(** The lazy listing that [subreddit.search] returns: iterating it yields
    posts until it is exhausted, or until a fetch raises. *)
Inductive Listing : Type :=
| Exhausted
| Yield (post : Submission.t) (rest : Listing)
| Broken (e : exn).

Module Subreddit.
Record t : Type := { search : string -> Z -> outcome Listing }.
End Subreddit.

Module Reddit.
Record t : Type := { subreddit : string -> outcome Subreddit.t }.
End Reddit.

(** The dictionary stored for a retained comment. *)
Module CommentData.
Record t : Type := { body : string; score : Z; author : string }.
End CommentData.

(** The [post_data] dictionary. *)
Module PostData.
Record t : Type := {
  title : string;
  body : string;
  score : Z;
  url : string;
  comments : list CommentData.t
}.
End PostData.

(* ================================================================== *)
(** * [search_reddit_for_recommendations]                              *)
(* ================================================================== *)

Local Open Scope py_scope.

Section Search.
Context {lw : Lowering}.

Definition post_keywords : list string :=
  ["recommend"; "similar"; "if you like"; "check out"; "you might like"; "fans of"].

Definition comment_keywords : list string :=
  ["recommend"; "similar"; "if you like"; "check out"; "you might like"; "try"].

Definition standalone_keywords : list string := ["recommend"; "similar"].

(** The lists the function mutates: [recommendations], and the list bound
    to [post_data['comments']] of the post at hand. *)
Record SearchLocals : Type := {
  recommendations : list PostData.t;
  post_data_comments : list CommentData.t
}.

(** [post_data = {..., 'comments': []}] *)
Definition new_post_data : Py (World SearchLocals) unit :=
  modify_locals (fun l => {| recommendations := recommendations l; post_data_comments := [] |}).

(** [post_data['comments'].append(c)] *)
Definition append_comment (c : CommentData.t) : Py (World SearchLocals) unit :=
  modify_locals (fun l =>
    {| recommendations := recommendations l;
       post_data_comments := (post_data_comments l ++ [c])%list |}).

(** The [post_data] dictionary of [post], its comment list being [cs]. *)
Definition post_data (post : Submission.t) (cs : list CommentData.t) : PostData.t :=
  {| PostData.title := Submission.title post;
     PostData.body := Submission.selftext post;
     PostData.score := Submission.score post;
     PostData.url := "https://reddit.com" ++ Submission.permalink post;
     PostData.comments := cs |}.

(** [recommendations.append(post_data)] *)
Definition append_post_data (post : Submission.t) : Py (World SearchLocals) unit :=
  modify_locals (fun l =>
    {| recommendations := (recommendations l ++ [post_data post (post_data_comments l)])%list;
       post_data_comments := post_data_comments l |}).

(** The dictionary built for a retained comment. *)
Definition comment_data (comment : Comment.t) : CommentData.t :=
  {| CommentData.body := Comment.body comment;
     CommentData.score := Comment.score comment;
     CommentData.author :=
       match Comment.author comment with
       | Some redditor => redditor
       | None => "[deleted]"
       end |}.

(** Truth value of a list. *)
Definition truthy (A : Type) (l : list A) : bool :=
  match l with [] => false | _ :: _ => true end.

(** Lines 75-76: the test that retains a comment. *)
Definition qualifies (comment : Comment.t) : bool :=
  let comment_text := lower (Comment.body comment) in
  any_keyword_in comment_keywords comment_text.

(** [for comment in ...: ...] (lines 74-81) *)
Fixpoint for_comments (cs : list (outcome Comment.t)) : Py (World SearchLocals) unit :=
  match cs with
  | [] => pass
  | c :: rest =>
      comment <- call c ;;
      (if qualifies comment
       then append_comment (comment_data comment)
       else pass) ;;
      for_comments rest
  end.

(** The statements under the inner [try] (lines 73-81). *)
Definition comments_block (max_comments : Z) (post : Submission.t) : Py (World SearchLocals) unit :=
  forest <- call (Submission.comments post) ;;
  for_comments (slice_to max_comments forest).

(** The inner [try] ... [except Exception: pass] (lines 72-83). *)
Definition get_comments (max_comments : Z) (post : Submission.t) : Py (World SearchLocals) unit :=
  try_except (comments_block max_comments post) (fun _ => pass).

(** Line 60: [f"{post.title} {post.selftext}".lower()] *)
Definition post_text (post : Submission.t) : string :=
  lower (Submission.title post ++ " " ++ Submission.selftext post).

(** Line 62: the test that makes a post a mining candidate. *)
Definition is_candidate (post : Submission.t) : bool :=
  any_keyword_in post_keywords (post_text post).

(** The body of [for post in search_results] (lines 60-86). *)
Definition post_body (max_comments : Z) (post : Submission.t) : Py (World SearchLocals) unit :=
  let text := post_text post in
  if is_candidate post then
    new_post_data ;;
    get_comments max_comments post ;;
    l <- get_locals ;;
    if (truthy (post_data_comments l) || any_keyword_in standalone_keywords text)%bool
    then append_post_data post
    else pass
  else pass.

(** [for post in search_results] (line 58) *)
Fixpoint for_posts (max_comments : Z) (search_results : Listing) : Py (World SearchLocals) unit :=
  match search_results with
  | Exhausted => pass
  | Broken e => call (Raise e)
  | Yield post rest => post_body max_comments post ;; for_posts max_comments rest
  end.

(** The function from its first statement to its [return]. *)
Definition search_body (reddit : Reddit.t) (query subreddit_name : string)
    (max_posts max_comments : Z) : Py (World SearchLocals) (list PostData.t) :=
  subreddit <- call (Reddit.subreddit reddit subreddit_name) ;;
  try_except
    (search_results <- call (Subreddit.search subreddit query max_posts) ;;
     for_posts max_comments search_results)
    (fun e => print ("   Error searching Reddit: " ++ str_of_exn e)) ;;
  l <- get_locals ;;
  ret (recommendations l).

Definition search_reddit_for_recommendations (L : Type) (reddit : Reddit.t)
    (query subreddit_name : string) (max_posts max_comments : Z)
    : Py (World L) (list PostData.t) :=
  invoke {| recommendations := []; post_data_comments := [] |}
         (search_body reddit query subreddit_name max_posts max_comments).

(** ** What a run leaves behind *)

(** An empty frame of the function, nothing printed. *)
Definition fresh : World SearchLocals :=
  {| locals := {| recommendations := []; post_data_comments := [] |}; stdout := [] |}.

(** The comment list of the [post_data] of [post] after the inner [try];
    a post that is no candidate gets no [post_data], and no comments. *)
Definition retained_comments (max_comments : Z) (post : Submission.t) : list CommentData.t :=
  if is_candidate post
  then post_data_comments (locals (snd ((new_post_data ;; get_comments max_comments post) fresh)))
  else [].

(** What one turn of the post loop appends to [recommendations]. *)
Definition post_entry (max_comments : Z) (post : Submission.t) : list PostData.t :=
  recommendations (locals (snd (post_body max_comments post fresh))).

(** The list a query returns (empty if the call raises). *)
Definition query_result (reddit : Reddit.t) (subreddit_name : string)
    (max_posts max_comments : Z) (query : string) : list PostData.t :=
  match fst (search_reddit_for_recommendations reddit query subreddit_name
               max_posts max_comments fresh) with
  | Ok results => results
  | Raise _ => []
  end.

(** The posts a listing yields before it ends or breaks. *)
Fixpoint processed (search_results : Listing) : list Submission.t :=
  match search_results with
  | Yield post rest => post :: processed rest
  | Exhausted | Broken _ => []
  end.

(** How the iteration of a listing ends. *)
Fixpoint listing_end (search_results : Listing) : outcome unit :=
  match search_results with
  | Exhausted => Ok tt
  | Broken e => Raise e
  | Yield _ rest => listing_end rest
  end.

(** The comments read before the first one whose reading raises. *)
Fixpoint readable (cs : list (outcome Comment.t)) : list Comment.t :=
  match cs with
  | Ok c :: rest => c :: readable rest
  | Raise _ :: _ | [] => []
  end.

(** How reading the comments ends. *)
Fixpoint reading_end (cs : list (outcome Comment.t)) : outcome unit :=
  match cs with
  | [] => Ok tt
  | Ok _ :: rest => reading_end rest
  | Raise e :: _ => Raise e
  end.

(** The line printed by the outer handler. *)
Definition error_report (e : exn) : string := "   Error searching Reddit: " ++ str_of_exn e.

End Search.

(* ================================================================== *)
(** * [get_reddit_recommendations]                                     *)
(* ================================================================== *)

(** The returned dictionary. *)
Module Result.
Record t : Type := {
  all_reddit_data : list PostData.t;
  top_tracks : list Track;
  all_artists : list string
}.
End Result.

(** Line 117:
    [sorted(tracks_data, key=lambda x: x['popularity'], reverse=True)[:num_top_tracks]] *)
Definition top_tracks (tracks_data : list Track) (num_top_tracks : Z) : list Track :=
  slice_to num_top_tracks (sorted popularity true tracks_data).

(** Line 118:
    [list(set([artist for track in tracks_data for artist in track['artists']]))[:num_top_artists]] *)
Definition all_artists `{SetOrder} (tracks_data : list Track) (num_top_artists : Z) : list string :=
  slice_to num_top_artists (list_of_set (flat_map artists tracks_data)).

Record GetLocals : Type := { all_reddit_data : list PostData.t }.

(** [all_reddit_data.extend(results)] *)
Definition extend (results : list PostData.t) : Py (World GetLocals) unit :=
  modify_locals (fun l => {| all_reddit_data := (all_reddit_data l ++ results)%list |}).

Definition newline : string := String "010"%char EmptyString.

(** [sum(len(post['comments']) for post in all_reddit_data)] *)
Definition total_comments (data : list PostData.t) : nat :=
  fold_left (fun acc post => (acc + List.length (PostData.comments post))%nat) data O.

Definition track_query (track : Track) : string :=
  name track ++ " " ++ artist_names track ++ " recommend".

Definition artist_query (artist : string) : string :=
  artist ++ " recommend similar".

Section GetRedditRecommendations.
Context {lw : Lowering}.
Variable reddit : Reddit.t.
Variable subreddit_name : string.
Variables max_reddit_posts_per_query max_comments_per_post : Z.

(** [for idx, track in enumerate(top_tracks, 1)] (lines 126-135) *)
Fixpoint for_top_tracks (total idx : nat) (tracks : list Track) : Py (World GetLocals) unit :=
  match tracks with
  | [] => pass
  | track :: rest =>
      print ("[" ++ str_of_nat idx ++ "/" ++ str_of_nat total ++ "] Searching: '"
             ++ name track ++ "'") ;;
      let query := track_query track in
      results <- search_reddit_for_recommendations reddit query subreddit_name
                   max_reddit_posts_per_query max_comments_per_post ;;
      (if truthy results then
         extend results ;;
         print ("         ✅ Found " ++ str_of_nat (List.length results)
                ++ " recommendation posts/threads")
       else
         print "         ℹ️  No recommendations found") ;;
      for_top_tracks total (S idx) rest
  end.

(** [for idx, artist in enumerate(all_artists, 1)] (lines 138-147) *)
Fixpoint for_all_artists (total idx : nat) (names : list string) : Py (World GetLocals) unit :=
  match names with
  | [] => pass
  | artist :: rest =>
      print ("[Artist " ++ str_of_nat idx ++ "/" ++ str_of_nat total ++ "] Searching: '"
             ++ artist ++ "'") ;;
      let query := artist_query artist in
      results <- search_reddit_for_recommendations reddit query subreddit_name
                   max_reddit_posts_per_query max_comments_per_post ;;
      (if truthy results then
         extend results ;;
         print ("         Found " ++ str_of_nat (List.length results)
                ++ " recommendation posts/threads")
       else
         print "         No recommendations found") ;;
      for_all_artists total (S idx) rest
  end.

Definition get_body `{SetOrder} (tracks_data : list Track)
    (num_top_tracks num_top_artists : Z) : Py (World GetLocals) Result.t :=
  print (str_mul "=" 80) ;;
  print "SEARCHING REDDIT FOR RECOMMENDATIONS" ;;
  print (str_mul "=" 80) ;;
  let top := top_tracks tracks_data num_top_tracks in
  let arts := all_artists tracks_data num_top_artists in
  print (newline ++ "Searching for recommendations based on:") ;;
  print ("   - Top " ++ str_of_nat (List.length top) ++ " tracks") ;;
  print ("   - Top " ++ str_of_nat (List.length arts) ++ " artists") ;;
  print "" ;;
  for_top_tracks (List.length top) 1 top ;;
  for_all_artists (List.length arts) 1 arts ;;
  l <- get_locals ;;
  print (newline ++ "Total Reddit data collected: "
         ++ str_of_nat (List.length (all_reddit_data l)) ++ " posts with recommendations") ;;
  print ("   Total comments: " ++ str_of_nat (total_comments (all_reddit_data l))) ;;
  ret {| Result.all_reddit_data := all_reddit_data l;
         Result.top_tracks := top;
         Result.all_artists := arts |}.

End GetRedditRecommendations.

Definition get_reddit_recommendations `{SetOrder} {lw : Lowering} (L : Type) (reddit : Reddit.t)
    (tracks_data : list Track) (subreddit_name : string)
    (max_reddit_posts_per_query max_comments_per_post num_top_tracks num_top_artists : Z)
    : Py (World L) Result.t :=
  invoke {| all_reddit_data := [] |}
         (get_body reddit subreddit_name max_reddit_posts_per_query max_comments_per_post
                   tracks_data num_top_tracks num_top_artists).

(* ================================================================== *)
(** * Vocabulary of the statements                                     *)
(* ================================================================== *)

Section Ranking.
Variable A : Type.
Variable key : A -> Z.

Definition has_key (k : Z) (a : A) : bool := key a =? k.

(** Every element is followed only by elements of a key not above its own. *)
Definition Descending (l : list A) : Prop :=
  StronglySorted (fun a b => key b <= key a) l.

Definition Ascending (l : list A) : Prop :=
  StronglySorted (fun a b => key a <= key b) l.

(** [out] is [l] sorted by descending key, elements of equal key being in
    the order they have in [l]. *)
Definition StableDescendingSort (l out : list A) : Prop :=
  Permutation l out /\
  Descending out /\
  forall k, filter (has_key k) out = filter (has_key k) l.
End Ranking.

(** [a] is an artist name of some track. *)
Definition artist_of (tracks_data : list Track) (a : string) : Prop :=
  exists track, In track tracks_data /\ In a (artists track).

(** The number of distinct artist names across the tracks. *)
Definition distinct_artists (tracks_data : list Track) : nat :=
  List.length (nodup string_dec (flat_map artists tracks_data)).

(** The comments the loop of line 74 goes through: the slice of the
    forest, or none when the forest cannot be fetched. *)
Definition examined_comments (max_comments : Z) (post : Submission.t)
    : list (outcome Comment.t) :=
  match Submission.comments post with
  | Ok forest => slice_to max_comments forest
  | Raise _ => []
  end.

(** The qualifying comments among those read. *)
Definition qualifying_comments {lw : Lowering} (max_comments : Z) (post : Submission.t)
    : list CommentData.t :=
  map comment_data (filter qualifies (readable (examined_comments max_comments post))).

(** The ending is an exception that [except Exception] does not catch. *)
Definition uncaught (A : Type) (ending : outcome A) : bool :=
  match ending with
  | Ok _ => false
  | Raise e => negb (is_Exception e)
  end.

(** What is left of an ending after [except Exception: pass]. *)
Definition excepted (ending : outcome unit) : outcome unit :=
  if uncaught ending then ending else Ok tt.

(** How the statements under the inner [try] (lines 73-81) end: with the
    exception of the fetch of the forest, or the way the reading of the
    comments of the slice ends. *)
Definition comments_end (max_comments : Z) (post : Submission.t) : outcome unit :=
  match Submission.comments post with
  | Ok forest => reading_end (slice_to max_comments forest)
  | Raise e => Raise e
  end.

(** How one turn of the post loop ends: for a candidate, with what the
    inner handler lets through. *)
Definition post_end {lw : Lowering} (max_comments : Z) (post : Submission.t) : outcome unit :=
  if is_candidate post then excepted (comments_end max_comments post) else Ok tt.

(** How the post loop ends: with the first exception that leaves a turn,
    and otherwise the way the listing ends. *)
Fixpoint posts_end {lw : Lowering} (max_comments : Z) (search_results : Listing)
    : outcome unit :=
  match search_results with
  | Exhausted => Ok tt
  | Broken e => Raise e
  | Yield post rest =>
      match post_end max_comments post with
      | Ok _ => posts_end max_comments rest
      | Raise e => Raise e
      end
  end.

(** How the statements under the outer [try] (lines 56-86) end. *)
Definition search_end {lw : Lowering} (subreddit : Subreddit.t) (query : string)
    (max_posts max_comments : Z) : outcome unit :=
  match Subreddit.search subreddit query max_posts with
  | Ok search_results => posts_end max_comments search_results
  | Raise e => Raise e
  end.

(** The search of [query] fails with [e]: the call raises, or the listing
    it returned raises while the loop iterates it. *)
Definition search_fails (subreddit : Subreddit.t) (query : string) (max_posts : Z)
    (e : exn) : Prop :=
  Subreddit.search subreddit query max_posts = Raise e \/
  exists search_results,
    Subreddit.search subreddit query max_posts = Ok search_results /\
    listing_end search_results = Raise e.

(** The lines the outer handler prints for the way a query ended. *)
Definition reports (ending : outcome unit) : list string :=
  match ending with
  | Ok _ => []
  | Raise e => [error_report e]
  end.

(** The world [w] after [lines] were printed. *)
Definition printed (L : Type) (w : World L) (lines : list string) : World L :=
  {| locals := locals w; stdout := (stdout w ++ lines)%list |}.

(** The queries of a run, in the order they are issued. *)
Definition queries (top : list Track) (arts : list string) : list string :=
  (map track_query top ++ map artist_query arts)%list.

(* ================================================================== *)
(** * Sample data                                                      *)
(* ================================================================== *)

Module Sample.
Definition boom : exn := Exception "503".

Definition creep : Track :=
  {| name := "Creep"; artists := ["Radiohead"]; artist_names := "Radiohead"; popularity := 80 |}.
Definition nude : Track :=
  {| name := "Nude"; artists := ["Radiohead"]; artist_names := "Radiohead"; popularity := 55 |}.
Definition teardrop : Track :=
  {| name := "Teardrop"; artists := ["Massive Attack"; "Elizabeth Fraser"];
     artist_names := "Massive Attack, Elizabeth Fraser"; popularity := 80 |}.
Definition playlist : list Track := [nude; creep; teardrop].

Definition try_this : Comment.t :=
  {| Comment.body := "You should TRY Portishead"; Comment.score := 7; Comment.author := Some "ann" |}.
Definition similar_to : Comment.t :=
  {| Comment.body := "Similar vibe: Mezzanine"; Comment.score := 4; Comment.author := None |}.
Definition thanks : Comment.t :=
  {| Comment.body := "thanks!"; Comment.score := 1; Comment.author := Some "cid" |}.

(** Only a weak term in the title; reading the second comment raises. *)
Definition check_out : Submission.t :=
  {| Submission.title := "Check out this band"; Submission.selftext := "";
     Submission.score := 12; Submission.permalink := "/r/music/comments/a1/";
     Submission.comments := Ok [Ok try_this; Raise boom; Ok similar_to] |}.

(** Only a weak term in the title, no qualifying comment. *)
Definition if_you_like : Submission.t :=
  {| Submission.title := "If you like Radiohead"; Submission.selftext := "what next?";
     Submission.score := 3; Submission.permalink := "/r/music/comments/b2/";
     Submission.comments := Ok [Ok thanks] |}.

(** A strong term in the title; its comments cannot be fetched. *)
Definition recommend_me : Submission.t :=
  {| Submission.title := "RECOMMEND me something"; Submission.selftext := "";
     Submission.score := 40; Submission.permalink := "/r/music/comments/c3/";
     Submission.comments := Raise boom |}.

(** No term of the lexicon at all. *)
Definition tour_dates : Submission.t :=
  {| Submission.title := "Tour dates announced"; Submission.selftext := "see link";
     Submission.score := 99; Submission.permalink := "/r/music/comments/d4/";
     Submission.comments := Ok [Ok try_this] |}.

(** Two qualifying comments, all readable. *)
Definition fans : Submission.t :=
  {| Submission.title := "For fans of trip hop"; Submission.selftext := "";
     Submission.score := 5; Submission.permalink := "/r/music/comments/e5/";
     Submission.comments := Ok [Ok try_this; Ok similar_to] |}.

Definition listing : Listing :=
  Yield check_out (Yield if_you_like (Yield recommend_me (Yield tour_dates Exhausted))).

(** The search for the query of [creep] fails; every other one answers
    with [listing]. *)
Definition music : Subreddit.t :=
  {| Subreddit.search := fun query _ =>
       if String.eqb query (track_query creep) then Raise boom else Ok listing |}.

Definition reddit : Reddit.t := {| Reddit.subreddit := fun _ => Ok music |}.

(** A subreddit whose listing yields one post and breaks on the next fetch. *)
Definition flaky_music : Subreddit.t :=
  {| Subreddit.search := fun _ _ => Ok (Yield fans (Broken boom)) |}.

Definition flaky : Reddit.t := {| Reddit.subreddit := fun _ => Ok flaky_music |}.

(** A client whose subreddit handle cannot be made. *)
Definition offline : Reddit.t := {| Reddit.subreddit := fun _ => Raise boom |}.

(** The user stops the program while a search is under way. *)
Definition stopped_music : Subreddit.t :=
  {| Subreddit.search := fun _ _ => Raise KeyboardInterrupt |}.

Definition stopped : Reddit.t := {| Reddit.subreddit := fun _ => Ok stopped_music |}.

(** A strong term in the title; the user stops the program while its
    comments are fetched. *)
Definition stop_here : Submission.t :=
  {| Submission.title := "Recommend me an album"; Submission.selftext := "";
     Submission.score := 2; Submission.permalink := "/r/music/comments/g7/";
     Submission.comments := Raise KeyboardInterrupt |}.

Definition quiet : World unit := {| locals := tt; stdout := [] |}.
End Sample.

(* ================================================================== *)
(** * Further vocabulary                                               *)
(* ================================================================== *)

(** The entry stored for a post that is kept. *)
Definition entry_of {lw : Lowering} (max_comments : Z) (post : Submission.t) : PostData.t :=
  post_data post (retained_comments max_comments post).

(** The test of line 85 on a candidate: a post that passes is kept. *)
Definition kept {lw : Lowering} (max_comments : Z) (post : Submission.t) : bool :=
  (is_candidate post
   && (truthy (retained_comments max_comments post)
       || any_keyword_in standalone_keywords (post_text post)))%bool.

(** The text of line 60, read back from a stored entry. *)
Definition entry_text {lw : Lowering} (entry : PostData.t) : string :=
  lower (PostData.title entry ++ " " ++ PostData.body entry).

(** [l] is an initial segment of [l']. *)
Definition Prefix (A : Type) (l l' : list A) : Prop :=
  exists more, l' = (l ++ more)%list.

(* ================================================================== *)
(** * Python values, as a JSON body parses to them                     *)
(* ================================================================== *)

Module PyFloat.
Import PrimFloat.
Definition t : Set := float.
(** [f == 0.0] *)
Definition is_zero (f : t) : bool := eqb f 0%float.
(** The float [0.7]. *)
Definition seven_tenths : t := 0x1.6666666666666p-1%float.
End PyFloat.

#[local] Unset Elimination Schemes.
Inductive val : Type :=
| PNone
| PBool (b : bool)
| PInt (z : Z)
| PFloat (f : PyFloat.t)
| PStr (s : string)
| PList (items : list val)
| PDict (entries : list (string * val)).
#[local] Set Elimination Schemes.

(** [bool(v)] *)
Definition truth (v : val) : bool :=
  match v with
  | PNone => false
  | PBool b => b
  | PInt z => negb (z =? 0)
  | PFloat f => negb (PyFloat.is_zero f)
  | PStr s => negb (String.eqb s "")
  | PList items => truthy items
  | PDict entries => truthy entries
  end.

(** The value under [key] in the entries of a dictionary. *)
Fixpoint lookup (key : string) (entries : list (string * val)) : option val :=
  match entries with
  | [] => None
  | (k, v) :: rest => if String.eqb k key then Some v else lookup key rest
  end.

(** [v == key] for a string [key] *)
Definition is_str (key : string) (v : val) : bool :=
  match v with
  | PStr s => String.eqb s key
  | _ => false
  end.

(** The wording of the interpreter's messages is not fixed here. *)
Class Interpreter := {
  not_iterable : val -> string;
  not_subscriptable : val -> string;
  no_attribute_get : val -> string;
  not_awaitable : string
}.

(** [str(KeyError(key))] *)
Definition key_error (key : string) : exn := Exception ("'" ++ key ++ "'").

Section Operators.
Context `{Interpreter}.

(** [key in v] *)
Definition contains (key : string) (v : val) : outcome bool :=
  match v with
  | PDict entries =>
      Ok (match lookup key entries with Some _ => true | None => false end)
  | PList items => Ok (existsb (is_str key) items)
  | PStr s => Ok (str_in key s)
  | PNone | PBool _ | PInt _ | PFloat _ => Raise (Exception (not_iterable v))
  end.

(** [v[key]] for a string [key] *)
Definition subscript (v : val) (key : string) : outcome val :=
  match v with
  | PDict entries =>
      match lookup key entries with
      | Some x => Ok x
      | None => Raise (key_error key)
      end
  | _ => Raise (Exception (not_subscriptable v))
  end.

(** [v.get(key, default)] *)
Definition dict_get (v : val) (key : string) (default : val) : outcome val :=
  match v with
  | PDict entries =>
      Ok (match lookup key entries with Some x => x | None => default end)
  | _ => Raise (Exception (no_attribute_get v))
  end.
End Operators.

(* ================================================================== *)
(** * The process: [sys.stdout] and the files written to               *)
(* ================================================================== *)

(** File objects are numbered in the order they are made; [written] holds
    every line written, with the file it went to. *)
Record Process : Type := {
  sys_stdout : nat;
  next_file : nat;
  written : list (nat * string)
}.

(** The lines a file holds. *)
Definition content (file : nat) (p : Process) : list string :=
  map snd (filter (fun entry => Nat.eqb (fst entry) file) (written p)).

(** [sys.stdout] *)
Definition get_stdout : Py Process nat := fun p => (Ok (sys_stdout p), p).

(** [sys.stdout = file] *)
Definition set_stdout (file : nat) : Py Process unit :=
  modify (fun p => {| sys_stdout := file; next_file := next_file p; written := written p |}).

(** [io.StringIO()] *)
Definition StringIO : Py Process nat :=
  fun p => (Ok (next_file p),
            {| sys_stdout := sys_stdout p; next_file := S (next_file p);
               written := written p |}).

(** The lines a callee prints go to whatever [sys.stdout] is. *)
Definition print_lines (lines : list string) : Py Process unit :=
  modify (fun p =>
    {| sys_stdout := sys_stdout p; next_file := next_file p;
       written := (written p ++ map (pair (sys_stdout p)) lines)%list |}).

(** [try: body  finally: cleanup] *)
Definition try_finally (St A : Type) (body : Py St A) (cleanup : Py St unit) : Py St A :=
  fun s =>
    let (r, s') := body s in
    match cleanup s' with
    | (Ok _, s'') => (r, s'')
    | (Raise e, s'') => (Raise e, s'')
    end.

(* ================================================================== *)
(** * [get_recommendations], as the endpoints see it                   *)
(* ================================================================== *)

(** The keyword arguments of [get_recommendations] that the endpoints
    pass, or leave to the defaults of its signature ([main.py], lines
    27-38). *)
Module Args.
Record t : Type := {
  playlist_url : val;
  subreddit_name : val;
  max_reddit_posts_per_query : val;
  max_comments_per_post : val;
  num_top_tracks : val;
  num_top_artists : val;
  gpt_model : val;
  gpt_temperature : val;
  gpt_max_tokens : val;
  num_recommendations : val
}.
End Args.

(** The dictionary [get_recommendations] returns ([main.py], lines
    174-187); [num_found] is a [len]. *)
Module Recs.
Record t : Type := {
  playlist_data : val;
  tracks_data : list val;
  reddit_data : list val;
  top_tracks : list val;
  top_artists : list val;
  gpt_recommendations : val;
  final_recommendations : list val;
  subreddit : val;
  num_requested : val;
  num_found : nat
}.
End Recs.

(** A run of [get_recommendations]: the lines it prints, and the
    dictionary it returns or the exception it raises.  It is a plain
    function ([def], not [async def]): what it returns is the dictionary
    itself. *)
Definition Pipeline : Type := Args.t -> list string * outcome Recs.t.

(** [get_recommendations(...)] called in a process. *)
Definition run_pipeline (get_recommendations : Pipeline) (args : Args.t) : Py Process Recs.t :=
  let (lines, result) := get_recommendations args in
  (print_lines lines ;; call result)%py.

(** [len(l)] as a value. *)
Definition len (A : Type) (l : list A) : val := PInt (Z.of_nat (List.length l)).

(* ================================================================== *)
(** * The Flask endpoint ([endpoint.py])                               *)
(* ================================================================== *)

Module Flask.
Section Handler.
Context `{Interpreter}.
Variable get_recommendations : Pipeline.

(** [jsonify(...)], with the status code: the response of the view. *)
Definition Response : Type := (val * nat)%type.

Definition playlist_url_required : Response :=
  (PDict [("error", PStr "playlist_url is required"); ("success", PBool false)], 400%nat).

Definition server_error (e : exn) : Response :=
  (PDict [("error", PStr (str_of_exn e)); ("success", PBool false)], 500%nat).

(** Lines 83-94. *)
Definition success (name : val) (result : Recs.t) : Response :=
  (PDict
     [("success", PBool true);
      ("playlist_name", name);
      ("recommendations", PList (Recs.final_recommendations result));
      ("metadata",
       PDict
         [("total_tracks_analyzed", len (Recs.tracks_data result));
          ("reddit_posts_found", len (Recs.reddit_data result));
          ("recommendations_requested", Recs.num_requested result);
          ("recommendations_found", PInt (Z.of_nat (Recs.num_found result)))])],
   200%nat).

(** Line 43: [not data or 'playlist_url' not in data] *)
Definition url_missing (data : val) : Py Process bool :=
  if negb (truth data) then ret true
  else (present <- call (contains "playlist_url" data) ;; ret (negb present))%py.

(** Lines 50-59. *)
Definition read_args (data : val) : Py Process Args.t :=
  (playlist_url <- call (subscript data "playlist_url") ;;
   subreddit_name <- call (dict_get data "subreddit_name" (PStr "music")) ;;
   max_reddit_posts_per_query <- call (dict_get data "max_reddit_posts_per_query" (PInt 20)) ;;
   max_comments_per_post <- call (dict_get data "max_comments_per_post" (PInt 30)) ;;
   num_top_tracks <- call (dict_get data "num_top_tracks" (PInt 5)) ;;
   num_top_artists <- call (dict_get data "num_top_artists" (PInt 3)) ;;
   gpt_model <- call (dict_get data "gpt_model" (PStr "gpt-4")) ;;
   gpt_temperature <- call (dict_get data "gpt_temperature" (PFloat PyFloat.seven_tenths)) ;;
   gpt_max_tokens <- call (dict_get data "gpt_max_tokens" (PInt 500)) ;;
   num_recommendations <- call (dict_get data "num_recommendations" (PInt 5)) ;;
   ret {| Args.playlist_url := playlist_url;
          Args.subreddit_name := subreddit_name;
          Args.max_reddit_posts_per_query := max_reddit_posts_per_query;
          Args.max_comments_per_post := max_comments_per_post;
          Args.num_top_tracks := num_top_tracks;
          Args.num_top_artists := num_top_artists;
          Args.gpt_model := gpt_model;
          Args.gpt_temperature := gpt_temperature;
          Args.gpt_max_tokens := gpt_max_tokens;
          Args.num_recommendations := num_recommendations |})%py.

(** The arguments read from the entries of a body that holds
    [playlist_url]: the value under a key that is there, null included,
    and the default for a key that is not. *)
Definition or_default (key : string) (entries : list (string * val)) (default : val) : val :=
  match lookup key entries with
  | Some v => v
  | None => default
  end.

Definition args_of (playlist_url : val) (entries : list (string * val)) : Args.t :=
  {| Args.playlist_url := playlist_url;
     Args.subreddit_name := or_default "subreddit_name" entries (PStr "music");
     Args.max_reddit_posts_per_query :=
       or_default "max_reddit_posts_per_query" entries (PInt 20);
     Args.max_comments_per_post := or_default "max_comments_per_post" entries (PInt 30);
     Args.num_top_tracks := or_default "num_top_tracks" entries (PInt 5);
     Args.num_top_artists := or_default "num_top_artists" entries (PInt 3);
     Args.gpt_model := or_default "gpt_model" entries (PStr "gpt-4");
     Args.gpt_temperature :=
       or_default "gpt_temperature" entries (PFloat PyFloat.seven_tenths);
     Args.gpt_max_tokens := or_default "gpt_max_tokens" entries (PInt 500);
     Args.num_recommendations := or_default "num_recommendations" entries (PInt 5) |}.

(** Lines 61-81: the call, with [sys.stdout] set to a new [StringIO]
    and set back in the [finally]. *)
Definition quietly (args : Args.t) : Py Process Recs.t :=
  (old_stdout <- get_stdout ;;
   buffer <- StringIO ;;
   set_stdout buffer ;;
   try_finally (run_pipeline get_recommendations args) (set_stdout old_stdout))%py.

(** The view function (lines 17-102); [request_json] is what
    [request.get_json()] gives. *)
Definition get_song_recommendations (request_json : outcome val) : Py Process Response :=
  try_except
    (data <- call request_json ;;
     missing <- url_missing data ;;
     if (missing : bool) then ret playlist_url_required
     else
       args <- read_args data ;;
       result <- quietly args ;;
       name <- call (subscript (Recs.playlist_data result) "name") ;;
       ret (success name result))%py
    (fun e => ret (server_error e)).
End Handler.
End Flask.

(* ================================================================== *)
(** * The FastAPI endpoint ([fastapi_endpoint.py])                     *)
(* ================================================================== *)

Module FastAPI.

(** The fields of a [RecommendationResponse]. *)
Record RecommendationResponse : Type := {
  success : val;
  playlist_name : val;
  recommendations : val;
  metadata : val;
  error : val
}.

(** What the path operation gives: a response, a raised
    [HTTPException], or an exception that its handler does not catch. *)
Inductive reply : Type :=
| Responds (response : RecommendationResponse)
| HTTPException (status_code : nat) (detail : string)
| Propagates (e : exn).

Section Handler.
Context `{Interpreter}.
Variable get_recommendations : Pipeline.

(** The constructor of the response model, which validates its fields
    and may raise. *)
Variable validate : RecommendationResponse -> outcome RecommendationResponse.

(** [get_recommendations(playlist_url=...)]: the other arguments are the
    defaults of the signature. *)
Definition default_args (playlist_url : string) : Args.t :=
  {| Args.playlist_url := PStr playlist_url;
     Args.subreddit_name := PStr "music";
     Args.max_reddit_posts_per_query := PInt 20;
     Args.max_comments_per_post := PInt 30;
     Args.num_top_tracks := PInt 5;
     Args.num_top_artists := PInt 3;
     Args.gpt_model := PStr "gpt-4";
     Args.gpt_temperature := PFloat PyFloat.seven_tenths;
     Args.gpt_max_tokens := PInt 500;
     Args.num_recommendations := PInt 5 |}.

(** [await d] for a dictionary [d]: a dictionary cannot be awaited, the
    expression raises [TypeError]. *)
Definition await_dict (d : Recs.t) : Py Process Recs.t :=
  call (Raise (Exception not_awaitable)).

(** Lines 51-61: the call is made, and what it returns awaited, with
    [sys.stdout] set to a new [StringIO] and set back in the [finally]. *)
Definition quietly (playlist_url : string) : Py Process Recs.t :=
  (old_stdout <- get_stdout ;;
   buffer <- StringIO ;;
   set_stdout buffer ;;
   try_finally
     (d <- run_pipeline get_recommendations (default_args playlist_url) ;; await_dict d)
     (set_stdout old_stdout))%py.

(** Lines 64-74. *)
Definition response (name : val) (result : Recs.t) : RecommendationResponse :=
  {| success := PBool true;
     playlist_name := name;
     recommendations := PList (Recs.final_recommendations result);
     metadata :=
       PDict
         [("total_tracks_analyzed", len (Recs.tracks_data result));
          ("reddit_posts_found", len (Recs.reddit_data result));
          ("recommendations_requested", Recs.num_requested result);
          ("recommendations_found", PInt (Z.of_nat (Recs.num_found result)))];
     error := PNone |}.

(** The path operation (lines 43-77), for a request that passed the
    validation of its model; [playlist_url] is [request.playlist_url]. *)
Definition get_song_recommendations (playlist_url : string) (p : Process) : reply * Process :=
  match
    (result <- quietly playlist_url ;;
     name <- call (subscript (Recs.playlist_data result) "name") ;;
     call (validate (response name result)))%py p
  with
  | (Ok r, p') => (Responds r, p')
  | (Raise e, p') =>
      if is_Exception e then (HTTPException 500 (str_of_exn e), p') else (Propagates e, p')
  end.
End Handler.
End FastAPI.


(* ================================================================== *)
(** * [initialize_reddit] ([reddit_api.py]) and [get_recommendations]
      ([main.py])                                                      *)
(* ================================================================== *)

(** The client object [praw.Reddit(...)] makes: what this program reads
    of it is [read_only], and the calls modelled by [Reddit.t]. *)
Module Client.
Record t : Type := { read_only : bool; api : Reddit.t }.
End Client.

(** [str(b)] *)
Definition str_of_bool (b : bool) : string := if b then "True" else "False".

(** [str(z)] *)
Definition str_of_Z (z : Z) : string := NilZero.string_of_int (Z.to_int z).

(** [x or y] for credentials: a string, or [None]. *)
Definition py_or (x y : option string) : option string :=
  match x with
  | Some s => if String.eqb s "" then y else Some s
  | None => y
  end.

(** A call of a function that is not modelled: the lines it prints, and
    what it returns or raises. *)
Definition Ext (A : Type) : Type := (list string * outcome A)%type.

Definition ext (L A : Type) (e : Ext A) : Py (World L) A :=
  fun w => (snd e, printed w (fst e)).

(** A track of [final_recommendations]; the keys [main.py] prints. *)
Module FinalTrack.
Record t : Type := {
  name : string;
  artist : string;
  album : string;
  release_date : string;
  duration_readable : string;
  popularity : Z;
  external_url : string;
  album_art : option string;
  preview_url : option string;
  uri : string
}.
End FinalTrack.

(** [bool(x)] for a string or [None]. *)
Definition given (x : option string) : bool :=
  match x with
  | Some s => negb (String.eqb s "")
  | None => false
  end.

(** [f"{x}"] for a string or [None]. *)
Definition str_of_option (x : option string) : string :=
  match x with
  | Some s => s
  | None => "None"
  end.

Section InitializeReddit.
(** [praw.Reddit(client_id=..., client_secret=..., username=...,
    password=..., user_agent=...)] *)
Variable praw_Reddit :
  option string -> option string -> option string -> option string -> option string ->
  outcome Client.t.

(** [reddit_api.py], lines 10-33. *)
Definition initialize_reddit (L : Type)
    (client_id client_secret username password user_agent : option string)
    : Py (World L) Client.t :=
  (reddit <- call (praw_Reddit client_id client_secret username password user_agent) ;;
   print ("Reddit API initialized (Read-only: " ++ str_of_bool (Client.read_only reddit)
          ++ ")") ;;
   ret reddit)%py.
End InitializeReddit.

Module Main.

(** The arguments of [get_recommendations] (lines 13-39). *)
Record Params : Type := {
  playlist_url : string;
  spotify_client_id : option string;
  spotify_client_secret : option string;
  reddit_client_id : option string;
  reddit_client_secret : option string;
  reddit_username : option string;
  reddit_password : option string;
  reddit_user_agent : option string;
  subreddit_name : string;
  max_reddit_posts_per_query : Z;
  max_comments_per_post : Z;
  num_top_tracks : Z;
  num_top_artists : Z;
  openai_api_key : option string;
  gpt_model : string;
  gpt_temperature : PyFloat.t;
  gpt_max_tokens : Z;
  num_recommendations : Z
}.

(** The returned dictionary (lines 174-187). *)
Record Output (Info Gpt : Type) : Type := {
  playlist_data : Info;
  tracks_data : list Track;
  reddit_data : list PostData.t;
  top_tracks : list Track;
  top_artists : list string;
  gpt_recommendations : Gpt;
  final_recommendations : list FinalTrack.t;
  subreddit : string;
  num_requested : Z;
  num_found : nat
}.

Section GetRecommendations.
Context `{SetOrder}.
Context {lw : Lowering}.
(** The environment once [load_dotenv()] has run. *)
Variable getenv : string -> option string.
(** [str(f)] for a float. *)
Variable str_of_float : PyFloat.t -> string.
(** The clients, the playlist information and the answer of the model:
    objects of [spotify_api.py] and [ai_analysis.py]. *)
Variables Spotify OpenAI Info Gpt : Type.
Variable initialize_spotify : option string -> option string -> Ext Spotify.
Variable praw_Reddit :
  option string -> option string -> option string -> option string -> option string ->
  outcome Client.t.
Variable initialize_openai : option string -> Ext OpenAI.
(** [get_playlist_data(sp, playlist_url)]: its ['playlist_info'] and its
    ['tracks_data']. *)
Variable get_playlist_data : Spotify -> string -> Ext (Info * list Track).
Variable analyze_and_recommend :
  OpenAI -> Info -> list PostData.t -> list Track -> string -> Z ->
  string -> PyFloat.t -> Z -> Ext Gpt.
Variable search_spotify_recommendations : Spotify -> Gpt -> Ext (list FinalTrack.t).

(** [for idx, track in enumerate(final_recommendations, 1)] (lines 155-167) *)
Fixpoint for_final (L : Type) (idx : nat) (tracks : list FinalTrack.t) : Py (World L) unit :=
  match tracks with
  | [] => pass
  | track :: rest =>
      print (newline ++ str_of_nat idx ++ ". " ++ FinalTrack.name track) ;;
      print ("   Artist: " ++ FinalTrack.artist track) ;;
      print ("   Album: " ++ FinalTrack.album track) ;;
      print ("   Release: " ++ FinalTrack.release_date track) ;;
      print ("   Duration: " ++ FinalTrack.duration_readable track) ;;
      print ("   Popularity: " ++ str_of_Z (FinalTrack.popularity track) ++ "/100") ;;
      print ("   Listen: " ++ FinalTrack.external_url track) ;;
      (if given (FinalTrack.album_art track)
       then print ("   Album Art: " ++ str_of_option (FinalTrack.album_art track))
       else pass) ;;
      (if given (FinalTrack.preview_url track)
       then print ("   Preview: " ++ str_of_option (FinalTrack.preview_url track))
       else pass) ;;
      print ("   URI: " ++ FinalTrack.uri track) ;;
      for_final (S idx) rest
  end%py.

(** [main.py], lines 13-187. *)
Definition get_recommendations (L : Type) (a : Params) : Py (World L) (Output Info Gpt) :=
  (let spotify_client_id := py_or (spotify_client_id a) (getenv "SPOTIFY_CLIENT_ID") in
   let spotify_client_secret :=
     py_or (spotify_client_secret a) (getenv "SPOTIFY_CLIENT_SECRET") in
   let reddit_client_id := py_or (reddit_client_id a) (getenv "REDDIT_CLIENT_ID") in
   let reddit_client_secret :=
     py_or (reddit_client_secret a) (getenv "REDDIT_CLIENT_SECRET") in
   let reddit_username := py_or (reddit_username a) (getenv "REDDIT_USERNAME") in
   let reddit_password := py_or (reddit_password a) (getenv "REDDIT_PASSWORD") in
   let reddit_user_agent := py_or (reddit_user_agent a) (getenv "REDDIT_USER_AGENT") in
   let openai_api_key := py_or (openai_api_key a) (getenv "OPENAI_API_KEY") in
   print (str_mul "=" 80) ;;
   print "SONG RECOMMENDATION SYSTEM" ;;
   print (str_mul "=" 80) ;;
   print (newline ++ "Configuration:") ;;
   print ("  Playlist URL: " ++ playlist_url a) ;;
   print ("  Subreddit: r/" ++ subreddit_name a) ;;
   print ("  Max Reddit posts per query: " ++ str_of_Z (max_reddit_posts_per_query a)) ;;
   print ("  Max comments per post: " ++ str_of_Z (max_comments_per_post a)) ;;
   print ("  Number of top tracks: " ++ str_of_Z (num_top_tracks a)) ;;
   print ("  Number of top artists: " ++ str_of_Z (num_top_artists a)) ;;
   print ("  GPT Model: " ++ gpt_model a) ;;
   print ("  GPT Temperature: " ++ str_of_float (gpt_temperature a)) ;;
   print ("  GPT Max Tokens: " ++ str_of_Z (gpt_max_tokens a)) ;;
   print ("  Recommendations to generate: " ++ str_of_Z (num_recommendations a)) ;;
   print (str_mul "=" 80) ;;
   print (newline ++ "Initializing APIs...") ;;
   sp <- ext (initialize_spotify spotify_client_id spotify_client_secret) ;;
   reddit <- initialize_reddit praw_Reddit reddit_client_id reddit_client_secret
               reddit_username reddit_password reddit_user_agent ;;
   openai_client <- ext (initialize_openai openai_api_key) ;;
   print "" ;;
   playlist_result <- ext (get_playlist_data sp (playlist_url a)) ;;
   let playlist_data := fst playlist_result in
   let tracks_data := snd playlist_result in
   print "" ;;
   reddit_result <- get_reddit_recommendations (Client.api reddit) tracks_data
                      (subreddit_name a) (max_reddit_posts_per_query a)
                      (max_comments_per_post a) (num_top_tracks a) (num_top_artists a) ;;
   let all_reddit_data := Result.all_reddit_data reddit_result in
   let top_tracks := Result.top_tracks reddit_result in
   let all_artists := Result.all_artists reddit_result in
   print "" ;;
   gpt_recommendations <-
     ext (analyze_and_recommend openai_client playlist_data all_reddit_data top_tracks
            (subreddit_name a) (num_recommendations a) (gpt_model a)
            (gpt_temperature a) (gpt_max_tokens a)) ;;
   print "" ;;
   final_recommendations <-
     ext (search_spotify_recommendations sp gpt_recommendations) ;;
   print "" ;;
   print (newline ++ str_mul "=" 80) ;;
   print "FINAL SONG RECOMMENDATIONS" ;;
   print (str_mul "=" 80) ;;
   (if truthy final_recommendations
    then for_final 1 final_recommendations
    else print "No recommendations found.") ;;
   print (newline ++ str_mul "=" 80) ;;
   ret {| playlist_data := playlist_data;
          tracks_data := tracks_data;
          reddit_data := all_reddit_data;
          top_tracks := top_tracks;
          top_artists := all_artists;
          gpt_recommendations := gpt_recommendations;
          final_recommendations := final_recommendations;
          subreddit := subreddit_name a;
          num_requested := num_recommendations a;
          num_found := List.length final_recommendations |})%py.
End GetRecommendations.
End Main.

(** The process [p] after a callee ran with [sys.stdout] set to a new
    [StringIO] and printed [lines]: a file was made, the lines went to it,
    and [sys.stdout] is what it was. *)
Definition captured (p : Process) (lines : list string) : Process :=
  {| sys_stdout := sys_stdout p;
     next_file := S (next_file p);
     written := (written p ++ map (pair (next_file p)) lines)%list |}.

Module Demo.
(** One wording of the messages. *)
Definition cpython : Interpreter :=
  {| not_iterable := fun _ => "argument of this type is not iterable";
     not_subscriptable := fun _ => "object is not subscriptable";
     no_attribute_get := fun _ => "object has no attribute 'get'";
     not_awaitable := "object dict can't be used in 'await' expression" |}.

Definition url : val := PStr "https://open.spotify.com/playlist/3XyDvjoxiae0oWpfJ4kga9".

(** A body that sets one option to null and leaves the others out. *)
Definition body : list (string * val) :=
  [("playlist_url", url); ("num_top_tracks", PNone)].

Definition recs : Recs.t :=
  {| Recs.playlist_data := PDict [("name", PStr "Late night")];
     Recs.tracks_data := [PDict []; PDict []];
     Recs.reddit_data := [PDict []];
     Recs.top_tracks := [PDict []];
     Recs.top_artists := [PStr "Radiohead"];
     Recs.gpt_recommendations := PStr "1. Teardrop - Massive Attack";
     Recs.final_recommendations := [PDict [("name", PStr "Teardrop")]];
     Recs.subreddit := PStr "music";
     Recs.num_requested := PInt 5;
     Recs.num_found := 1 |}.

Definition works : Pipeline := fun _ => (["SONG RECOMMENDATION SYSTEM"], Ok recs).

Definition fails : Pipeline :=
  fun _ => (["SONG RECOMMENDATION SYSTEM"], Raise (Exception "Invalid playlist")).

(** The user stops the program while [get_recommendations] runs. *)
Definition stopped : Pipeline :=
  fun _ => (["SONG RECOMMENDATION SYSTEM"], Raise KeyboardInterrupt).

(** [sys.stdout] is the console, file 0; no other file was made. *)
Definition console : Process := {| sys_stdout := 0; next_file := 1; written := [] |}.
End Demo.

(** A statement that returns [a], or raises [e], from every state. *)
Definition Returns (L A : Type) (m : Py (World L) A) (a : A) : Prop :=
  forall w, exists w', m w = (Ok a, w').

Definition Raises (L A : Type) (m : Py (World L) A) (e : exn) : Prop :=
  forall w, exists w', m w = (Raise e, w').

Module MainDemo.
Definition params : Main.Params :=
  {| Main.playlist_url := "https://open.spotify.com/playlist/3XyDvjoxiae0oWpfJ4kga9";
     Main.spotify_client_id := Some "id";
     Main.spotify_client_secret := None;
     Main.reddit_client_id := None;
     Main.reddit_client_secret := None;
     Main.reddit_username := None;
     Main.reddit_password := None;
     Main.reddit_user_agent := None;
     Main.subreddit_name := "music";
     Main.max_reddit_posts_per_query := 20;
     Main.max_comments_per_post := 30;
     Main.num_top_tracks := 2;
     Main.num_top_artists := 0;
     Main.openai_api_key := Some "";
     Main.gpt_model := "gpt-4";
     Main.gpt_temperature := PyFloat.seven_tenths;
     Main.gpt_max_tokens := 500;
     Main.num_recommendations := 5 |}.

Definition getenv (key : string) : option string := Some ("env:" ++ key).
Definition str_of_float (f : PyFloat.t) : string := "0.7".

Definition initialize_spotify (id secret : option string) : Ext unit :=
  (["Spotify API initialized"], Ok tt).
Definition initialize_openai (key : option string) : Ext unit :=
  (["OpenAI API initialized"], Ok tt).
Definition get_playlist_data (sp : unit) (playlist_url : string) : Ext (string * list Track) :=
  ([], Ok ("Late night", Sample.playlist)).
Definition playlist_not_found (sp : unit) (playlist_url : string)
    : Ext (string * list Track) :=
  ([], Raise (Exception "Invalid playlist")).
(** The answer tells how many Reddit posts the model was given. *)
Definition analyze_and_recommend (client : unit) (info : string) (data : list PostData.t)
    (top : list Track) (subreddit : string) (n : Z) (model : string)
    (temperature : PyFloat.t) (max_tokens : Z) : Ext nat :=
  ([], Ok (List.length data)).
Definition search_spotify_recommendations (sp : unit) (gpt : nat) : Ext (list FinalTrack.t) :=
  ([], Ok []).

(** A client whose every search raises. *)
Definition silent : Reddit.t :=
  {| Reddit.subreddit := fun _ =>
       Ok {| Subreddit.search := fun _ _ => Raise Sample.boom |} |}.

Definition praw (api : Reddit.t)
    (client_id client_secret username password user_agent : option string)
    : outcome Client.t :=
  Ok {| Client.read_only := false; Client.api := api |}.
End MainDemo.

(* ================================================================== *)
(** * Facts about the built-ins                                        *)
(* ================================================================== *)

Unset Implicit Arguments.

Section StringFacts.

Lemma startswith_spec (kw text : string) :
  startswith kw text = true <-> exists after, text = kw ++ after.
Proof.
  revert text; induction kw as [|a kw IH]; intros text; simpl.
  - split; [intros _; now exists text | reflexivity].
  - destruct text as [|b text].
    + split; [discriminate | intros [after H]; discriminate].
    + rewrite andb_true_iff, Ascii.eqb_eq, IH. split.
      * intros [-> [after ->]]. now exists after.
      * intros [after H]. injection H as -> ->. split; [reflexivity | now exists after].
Qed.

Lemma str_in_spec (kw text : string) :
  str_in kw text = true <-> Substring kw text.
Proof.
  unfold Substring. induction text as [|c text IH].
  - simpl. rewrite orb_false_r, startswith_spec. split.
    + intros [after H]. now exists "", after.
    + intros [before [after H]]. destruct before; [now exists after | discriminate].
  - change (str_in kw (String c text))
      with (startswith kw (String c text) || str_in kw text)%bool.
    rewrite orb_true_iff, startswith_spec, IH. split.
    + intros [[after H] | [before [after H]]].
      * now exists "", after.
      * exists (String c before), after. simpl. now rewrite H.
    + intros [before [after H]]. destruct before as [|b before].
      * left. now exists after.
      * right. simpl in H. injection H as _ H. now exists before, after.
Qed.

Lemma any_keyword_in_spec (keywords : list string) (text : string) :
  any_keyword_in keywords text = true <->
  exists kw, In kw keywords /\ Substring kw text.
Proof.
  unfold any_keyword_in. rewrite existsb_exists.
  split; intros [kw [Hin H]]; exists kw; split; trivial; now apply str_in_spec.
Qed.

(** The standalone terms are terms of the post lexicon. *)
Lemma standalone_is_candidate (text : string) :
  any_keyword_in standalone_keywords text = true ->
  any_keyword_in post_keywords text = true.
Proof.
  rewrite !any_keyword_in_spec. intros [kw [Hin H]]. exists kw. split; trivial.
  simpl in *. tauto.
Qed.

End StringFacts.

Section SliceFacts.
Context {A : Type}.

Lemma slice_to_nonneg (n : Z) (l : list A) :
  0 <= n -> slice_to n l = firstn (Z.to_nat n) l.
Proof. intros H. unfold slice_to. now rewrite (proj2 (Z.leb_le 0 n) H). Qed.

Lemma slice_to_neg (n : Z) (l : list A) :
  n < 0 -> slice_to n l = firstn (List.length l - Z.to_nat (- n)) l.
Proof. intros H. unfold slice_to. now rewrite (proj2 (Z.leb_gt 0 n) H). Qed.

(** A slice is a prefix, whatever the sign of the bound. *)
Lemma slice_to_prefix (n : Z) (l : list A) :
  exists dropped, l = (slice_to n l ++ dropped)%list.
Proof.
  unfold slice_to. destruct (0 <=? n);
    eexists; symmetry; apply firstn_skipn.
Qed.

Lemma slice_to_length (n : Z) (l : list A) :
  0 <= n -> Z.of_nat (List.length (slice_to n l)) <= n.
Proof.
  intros H. rewrite slice_to_nonneg by trivial.
  pose proof (firstn_le_length (Z.to_nat n) l). lia.
Qed.

Lemma slice_to_all (n : Z) (l : list A) :
  Z.of_nat (List.length l) <= n -> slice_to n l = l.
Proof.
  intros H. rewrite slice_to_nonneg by lia. apply firstn_all2. lia.
Qed.

(** The slice is shorter than the list exactly when the list is not
    empty and has more than [n] elements. *)
Lemma slice_to_shorter (n : Z) (l : list A) :
  (List.length (slice_to n l) < List.length l)%nat <->
  n < Z.of_nat (List.length l) /\ l <> [].
Proof.
  destruct (Z.le_gt_cases 0 n) as [Hn | Hn].
  - rewrite slice_to_nonneg, length_firstn by trivial. split.
    + intros H. split; [lia |]. intros ->. simpl in H. lia.
    + intros [H _]. lia.
  - rewrite slice_to_neg, length_firstn by trivial. split.
    + intros H. split; [lia |]. intros ->. cbn [List.length] in H. lia.
    + intros [_ H]. destruct l; [congruence | cbn [List.length]; lia].
Qed.

End SliceFacts.

Section SortFacts.
Context {A : Type}.
Variable key : A -> Z.

Lemma insert_asc_perm (x : A) (l : list A) :
  Permutation (x :: l) (insert_asc key x l).
Proof.
  induction l as [|y l IH]; simpl; [apply Permutation_refl |].
  destruct (key y <? key x).
  - eapply perm_trans; [apply perm_swap | now apply perm_skip].
  - apply Permutation_refl.
Qed.

Lemma sort_asc_perm (l : list A) : Permutation l (sort_asc key l).
Proof.
  induction l as [|x l IH]; simpl; [constructor |].
  eapply perm_trans; [apply perm_skip, IH | apply insert_asc_perm].
Qed.

Lemma insert_asc_sorted (x : A) (l : list A) :
  Ascending key l -> Ascending key (insert_asc key x l).
Proof.
  unfold Ascending. induction l as [|y l IH]; intros Hs; simpl.
  - repeat constructor.
  - apply StronglySorted_inv in Hs as [Hs Hy].
    destruct (key y <? key x) eqn:E.
    + apply Z.ltb_lt in E. constructor; [now apply IH |].
      eapply Permutation_Forall; [apply insert_asc_perm |].
      constructor; [lia | exact Hy].
    + apply Z.ltb_ge in E. constructor; [now constructor |].
      constructor; [exact E |].
      eapply Forall_impl; [| exact Hy]. simpl. intros; lia.
Qed.

Lemma sort_asc_sorted (l : list A) : Ascending key (sort_asc key l).
Proof.
  induction l as [|x l IH]; simpl; [constructor | now apply insert_asc_sorted].
Qed.

(** Inserting moves [x] only past elements of a smaller key. *)
Lemma insert_asc_filter (k : Z) (x : A) (l : list A) :
  filter (has_key key k) (insert_asc key x l) = filter (has_key key k) (x :: l).
Proof.
  induction l as [|y l IH]; [reflexivity |].
  simpl insert_asc. destruct (key y <? key x) eqn:E; [| reflexivity].
  apply Z.ltb_lt in E. simpl in *. rewrite IH. unfold has_key.
  destruct (key y =? k) eqn:Ey; destruct (key x =? k) eqn:Ex; trivial.
  apply Z.eqb_eq in Ey, Ex. lia.
Qed.

Lemma sort_asc_stable (k : Z) (l : list A) :
  filter (has_key key k) (sort_asc key l) = filter (has_key key k) l.
Proof.
  induction l as [|x l IH]; [reflexivity |].
  simpl sort_asc. rewrite insert_asc_filter. simpl. now rewrite IH.
Qed.

Lemma StronglySorted_app_last (R : A -> A -> Prop) (l : list A) (x : A) :
  StronglySorted R l -> Forall (fun y => R y x) l -> StronglySorted R (l ++ [x]).
Proof.
  induction l as [|y l IH]; intros Hs Hx; simpl.
  - repeat constructor.
  - apply StronglySorted_inv in Hs as [Hs Hy].
    inversion Hx as [|? ? Hyx Hlx]; subst.
    constructor; [now apply IH |].
    apply Forall_app. split; [exact Hy | now constructor].
Qed.

Lemma Ascending_rev (l : list A) : Ascending key l -> Descending key (rev l).
Proof.
  unfold Ascending, Descending. induction l as [|x l IH]; intros Hs; simpl.
  - constructor.
  - apply StronglySorted_inv in Hs as [Hs Hx].
    apply StronglySorted_app_last; [now apply IH |].
    apply Forall_rev. exact Hx.
Qed.

(** [sorted(l, key=key, reverse=True)] is the stable descending sort. *)
Lemma sorted_reverse_spec (l : list A) :
  StableDescendingSort key l (sorted key true l).
Proof.
  unfold sorted. repeat split.
  - eapply perm_trans; [apply Permutation_rev |].
    eapply perm_trans; [apply sort_asc_perm | apply Permutation_rev].
  - apply Ascending_rev, sort_asc_sorted.
  - intros k. rewrite filter_rev, sort_asc_stable, filter_rev. apply rev_involutive.
Qed.

(** There is one stable descending sort of a list. *)
Lemma StableDescendingSort_unique (l out1 out2 : list A) :
  StableDescendingSort key l out1 -> StableDescendingSort key l out2 -> out1 = out2.
Proof.
  intros (P1 & S1 & F1) (P2 & S2 & F2).
  assert (P : Permutation out1 out2)
    by (eapply perm_trans; [apply Permutation_sym, P1 | exact P2]).
  assert (F : forall k, filter (has_key key k) out1 = filter (has_key key k) out2)
    by (intros k; now rewrite F1, F2).
  clear P1 P2 F1 F2. revert out2 S2 P F.
  unfold Descending in *.
  induction out1 as [|a t1 IH]; intros out2 S2 P F.
  - apply Permutation_nil in P. now subst.
  - destruct out2 as [|b t2].
    + apply Permutation_sym, Permutation_nil in P. discriminate.
    + apply StronglySorted_inv in S1 as [S1 Ha].
      apply StronglySorted_inv in S2 as [S2 Hb].
      assert (Hab : key a = key b).
      { assert (In a (b :: t2)) as Ia
          by (eapply Permutation_in; [exact P | now left]).
        assert (In b (a :: t1)) as Ib
          by (eapply Permutation_in; [apply Permutation_sym, P | now left]).
        rewrite Forall_forall in Ha, Hb.
        destruct Ia as [-> | Ia]; trivial.
        destruct Ib as [-> | Ib]; trivial.
        specialize (Ha _ Ib). specialize (Hb _ Ia). lia. }
      assert (a = b) as ->.
      { specialize (F (key a)). simpl in F. unfold has_key in F.
        rewrite <- Hab, Z.eqb_refl in F. now injection F. }
      f_equal. apply IH; trivial.
      * now apply Permutation_cons_inv in P.
      * intros k. specialize (F k). simpl in F.
        destruct (has_key key k b); [now injection F | exact F].
Qed.

End SortFacts.

(* ================================================================== *)
(** * Seed selection (lines 117 and 118)                               *)
(* ================================================================== *)

Lemma top_tracks_prefix (tracks_data : list Track) (num_top_tracks : Z) :
  exists dropped,
    sorted popularity true tracks_data
    = (top_tracks tracks_data num_top_tracks ++ dropped)%list.
Proof. apply slice_to_prefix. Qed.

Example top_tracks_of_playlist :
  top_tracks Sample.playlist 2 = [Sample.creep; Sample.teardrop].
Proof. reflexivity. Qed.

(** C1.  For every list of tracks and every non-negative [num_top_tracks],
    the seed tracks of line 117 are the input tracks sorted by descending
    popularity, tracks of equal popularity keeping their playlist order,
    cut down to the first [num_top_tracks] of them; there are at most
    [num_top_tracks] seed tracks. *)
Theorem C1_top_tracks_stable_descending_prefix
    (tracks_data : list Track) (num_top_tracks : Z) :
  0 <= num_top_tracks ->
  exists ranked,
    StableDescendingSort popularity tracks_data ranked /\
    top_tracks tracks_data num_top_tracks = firstn (Z.to_nat num_top_tracks) ranked /\
    Z.of_nat (List.length (top_tracks tracks_data num_top_tracks)) <= num_top_tracks.
Proof.
  intros Hn. exists (sorted popularity true tracks_data). split; [| split].
  - apply sorted_reverse_spec.
  - unfold top_tracks. now apply slice_to_nonneg.
  - unfold top_tracks. now apply slice_to_length.
Qed.

Lemma C1_witness :
  0 <= 2 /\
  exists ranked,
    StableDescendingSort popularity Sample.playlist ranked /\
    top_tracks Sample.playlist 2 = firstn (Z.to_nat 2) ranked /\
    Z.of_nat (List.length (top_tracks Sample.playlist 2)) <= 2.
Proof.
  split; [lia |].
  apply (C1_top_tracks_stable_descending_prefix Sample.playlist 2). lia.
Defined.

(** C6, as the design document has it, fails: with three tracks and the
    default of five seed tracks, every track of the playlist is a seed. *)
Lemma C6_counterexample :
  ~ (forall (tracks_data : list Track) (num_top_tracks : Z),
       exists track,
         In track tracks_data /\ ~ In track (top_tracks tracks_data num_top_tracks)).
Proof.
  intros H. destruct (H Sample.playlist 5) as [track [Hin Hout]].
  apply Hout. change (top_tracks Sample.playlist 5)
    with [Sample.creep; Sample.teardrop; Sample.nude].
  simpl in *. tauto.
Qed.

(** C6, amended.  The seed tracks are tracks of the playlist, none taken
    more often than the playlist has it; some track is left out exactly
    when the playlist is not empty and [num_top_tracks] is below its
    length, and otherwise the seed list holds every track. *)
Theorem C6_top_tracks_sub_multiset (tracks_data : list Track) (num_top_tracks : Z) :
  exists left_out,
    Permutation tracks_data (top_tracks tracks_data num_top_tracks ++ left_out) /\
    (left_out <> [] <->
     num_top_tracks < Z.of_nat (List.length tracks_data) /\ tracks_data <> []).
Proof.
  destruct (top_tracks_prefix tracks_data num_top_tracks) as [left_out E].
  destruct (sorted_reverse_spec popularity tracks_data) as (P & _ & _).
  exists left_out. split; [now rewrite <- E |].
  pose proof (slice_to_shorter num_top_tracks (sorted popularity true tracks_data)) as S.
  fold (top_tracks tracks_data num_top_tracks) in S.
  pose proof (Permutation_length P) as Len. rewrite <- Len in S.
  assert (Hnil : sorted popularity true tracks_data <> [] <-> tracks_data <> []).
  { split; intros Hne Heq; apply Hne.
    - subst. apply Permutation_nil in P. exact P.
    - rewrite Heq in P. apply Permutation_sym, Permutation_nil in P. exact P. }
  rewrite <- Hnil, <- S.
  assert (Hl : List.length tracks_data
               = (List.length (top_tracks tracks_data num_top_tracks)
                  + List.length left_out)%nat)
    by (rewrite Len, E; apply length_app).
  destruct left_out; simpl in Hl; split; intros; try congruence; lia.
Qed.

Lemma artist_of_flat_map (tracks_data : list Track) (a : string) :
  In a (flat_map artists tracks_data) <-> artist_of tracks_data a.
Proof. apply in_flat_map. Qed.

Lemma distinct_artists_any_order (so : SetOrder) (tracks_data : list Track) :
  List.length (list_of_set (flat_map artists tracks_data)) = distinct_artists tracks_data.
Proof.
  apply Permutation_length, NoDup_Permutation.
  - apply list_of_set_NoDup.
  - apply NoDup_nodup.
  - intros a. now rewrite list_of_set_In, nodup_In.
Qed.

(** C7.  For every list of tracks, every non-negative [num_top_artists]
    and every order in which a set lists its elements, the seed artists of
    line 118 hold no name twice, hold only artist names of the tracks, are
    at most [num_top_artists], and are all the distinct artist names when
    [num_top_artists] is at least their number. *)
Theorem C7_all_artists_distinct_names
    (so : SetOrder) (tracks_data : list Track) (num_top_artists : Z) :
  0 <= num_top_artists ->
  NoDup (all_artists tracks_data num_top_artists) /\
  (forall a, In a (all_artists tracks_data num_top_artists) -> artist_of tracks_data a) /\
  Z.of_nat (List.length (all_artists tracks_data num_top_artists)) <= num_top_artists /\
  (Z.of_nat (distinct_artists tracks_data) <= num_top_artists ->
   forall a, In a (all_artists tracks_data num_top_artists) <-> artist_of tracks_data a).
Proof.
  intros Hn. unfold all_artists.
  set (names := list_of_set (flat_map artists tracks_data)).
  destruct (slice_to_prefix num_top_artists names) as [dropped E].
  assert (Hsub : forall a, In a (slice_to num_top_artists names) -> artist_of tracks_data a).
  { intros a Ha. apply artist_of_flat_map, list_of_set_In. fold names.
    rewrite E. apply in_or_app. now left. }
  repeat split.
  - pose proof (list_of_set_NoDup (flat_map artists tracks_data)) as N. fold names in N.
    rewrite E in N. eapply NoDup_app_remove_r. exact N.
  - exact Hsub.
  - now apply slice_to_length.
  - apply Hsub.
  - intros Ha. rewrite slice_to_all.
    + now apply list_of_set_In, artist_of_flat_map.
    + unfold names. now rewrite distinct_artists_any_order.
Qed.

Lemma C7_witness :
  0 <= 3 /\
  NoDup (@all_artists last_seen_order Sample.playlist 3) /\
  (forall a, In a (@all_artists last_seen_order Sample.playlist 3) ->
             artist_of Sample.playlist a) /\
  Z.of_nat (List.length (@all_artists last_seen_order Sample.playlist 3)) <= 3 /\
  (Z.of_nat (distinct_artists Sample.playlist) <= 3 ->
   forall a, In a (@all_artists last_seen_order Sample.playlist 3) <->
             artist_of Sample.playlist a).
Proof.
  split; [lia |].
  apply (C7_all_artists_distinct_names last_seen_order Sample.playlist 3). lia.
Defined.

(* ================================================================== *)
(** * What [search_reddit_for_recommendations] computes                *)
(* ================================================================== *)

Section EndingFacts.

Lemma excepted_calm (ending : outcome unit) :
  uncaught ending = false -> excepted ending = Ok tt.
Proof. intros U. unfold excepted. rewrite U. reflexivity. Qed.

(** What [except Exception: pass] lets through is no [Exception]. *)
Lemma excepted_raises (ending : outcome unit) (e : exn) :
  excepted ending = Raise e -> ending = Raise e /\ is_Exception e = false.
Proof.
  unfold excepted. destruct ending as [[] | e']; cbn; [discriminate |].
  destruct (is_Exception e') eqn:E; cbn; [discriminate |].
  intros H. injection H as <-. now split.
Qed.

Lemma uncaught_Raise {A : Type} (ending : outcome A) :
  uncaught ending = true -> exists e, ending = Raise e /\ is_Exception e = false.
Proof.
  destruct ending as [a | e]; cbn; [discriminate |].
  intros H. exists e. split; trivial. now destruct (is_Exception e).
Qed.

Lemma printed_nil {L : Type} (w : World L) : printed w [] = w.
Proof. destruct w. unfold printed. cbn. now rewrite app_nil_r. Qed.

End EndingFacts.

Section SearchRuns.
Context {lw : Lowering}.
Variable max_comments : Z.

Lemma for_comments_run (cs : list (outcome Comment.t)) (w : World SearchLocals) :
  for_comments cs w =
  (reading_end cs,
   {| locals :=
        {| recommendations := recommendations (locals w);
           post_data_comments :=
             (post_data_comments (locals w)
              ++ map comment_data (filter qualifies (readable cs)))%list |};
      stdout := stdout w |}).
Proof.
  revert w. induction cs as [|c cs IH]; intros [[recs pdc] out].
  - simpl. now rewrite app_nil_r.
  - destruct c as [c | e]; simpl; unfold bind, call; simpl.
    + destruct (qualifies c); simpl; rewrite IH; simpl.
      * now rewrite <- app_assoc.
      * reflexivity.
    + now rewrite app_nil_r.
Qed.

Lemma comments_block_run (post : Submission.t) (w : World SearchLocals) :
  comments_block max_comments post w =
  match Submission.comments post with
  | Ok forest => for_comments (slice_to max_comments forest) w
  | Raise e => (Raise e, w)
  end.
Proof.
  unfold comments_block, bind, call. now destruct (Submission.comments post).
Qed.

(** The statements under the inner [try] end the way [comments_end] says,
    whatever the state. *)
Lemma comments_block_end (post : Submission.t) (w : World SearchLocals) :
  fst (comments_block max_comments post w) = comments_end max_comments post.
Proof.
  rewrite comments_block_run. unfold comments_end.
  destruct (Submission.comments post) as [forest | e]; [| reflexivity].
  now rewrite for_comments_run.
Qed.

(** The inner [try] appends the qualifying comments, and raises only what
    its handler lets through. *)
Lemma get_comments_run (post : Submission.t) (w : World SearchLocals) :
  get_comments max_comments post w =
  (excepted (comments_end max_comments post),
   {| locals :=
        {| recommendations := recommendations (locals w);
           post_data_comments :=
             (post_data_comments (locals w)
              ++ qualifying_comments max_comments post)%list |};
      stdout := stdout w |}).
Proof.
  unfold get_comments, try_except, qualifying_comments, examined_comments, comments_end,
    excepted.
  rewrite comments_block_run. destruct (Submission.comments post) as [forest | e].
  - rewrite for_comments_run. destruct (reading_end _) as [[] | e]; cbn; [reflexivity |].
    now destruct (is_Exception e).
  - destruct w as [[recs pdc] out]. cbn. rewrite app_nil_r. now destruct (is_Exception e).
Qed.

Lemma retained_comments_eq (post : Submission.t) :
  retained_comments max_comments post =
  if is_candidate post then qualifying_comments max_comments post else [].
Proof.
  unfold retained_comments. destruct (is_candidate post); trivial.
  unfold bind, new_post_data, modify_locals, modify. simpl.
  now rewrite get_comments_run.
Qed.

(** One turn of the post loop prints nothing.  For a candidate it leaves
    the qualifying comments in the comment list of the new [post_data];
    unless an exception leaves the inner [try], it appends the
    [post_data] when a comment was retained or a standalone term occurs in
    the text. *)
Lemma post_body_closed (post : Submission.t) (w : World SearchLocals) :
  post_body max_comments post w =
  (post_end max_comments post,
   {| locals :=
        {| recommendations :=
             (recommendations (locals w)
              ++ if (is_candidate post
                     && negb (uncaught (comments_end max_comments post)))%bool then
                   if (truthy (qualifying_comments max_comments post)
                       || any_keyword_in standalone_keywords (post_text post))%bool
                   then [post_data post (qualifying_comments max_comments post)]
                   else []
                 else [])%list;
           post_data_comments :=
             if is_candidate post
             then qualifying_comments max_comments post
             else post_data_comments (locals w) |};
      stdout := stdout w |}).
Proof.
  unfold post_body, post_end. destruct (is_candidate post); cbn [andb].
  - unfold bind at 1. unfold new_post_data, modify_locals, modify.
    unfold bind at 1. rewrite get_comments_run. unfold excepted.
    destruct (uncaught (comments_end max_comments post)) eqn:U; cbn [negb].
    + apply uncaught_Raise in U as [e [-> _]]. cbn. now rewrite app_nil_r.
    + unfold bind, get_locals. cbn [locals stdout post_data_comments recommendations app].
      destruct (truthy _ || _)%bool; cbn; now rewrite ?app_nil_r.
  - destruct w as [[recs pdc] out]. cbn. now rewrite app_nil_r.
Qed.

Lemma post_entry_eq (post : Submission.t) :
  post_entry max_comments post =
  if (is_candidate post && negb (uncaught (comments_end max_comments post)))%bool then
    if (truthy (retained_comments max_comments post)
        || any_keyword_in standalone_keywords (post_text post))%bool
    then [post_data post (retained_comments max_comments post)]
    else []
  else [].
Proof.
  rewrite retained_comments_eq. unfold post_entry.
  rewrite post_body_closed. cbn [snd locals recommendations fresh app].
  now destruct (is_candidate post).
Qed.

(** A turn ends well, or with an exception that is no [Exception]. *)
Lemma post_end_raises (post : Submission.t) (e : exn) :
  post_end max_comments post = Raise e -> is_Exception e = false.
Proof.
  unfold post_end. destruct (is_candidate post); [| discriminate].
  intros H. now apply excepted_raises in H.
Qed.

Lemma post_end_Ok (post : Submission.t) :
  post_end max_comments post = Ok tt ->
  (is_candidate post && negb (uncaught (comments_end max_comments post)))%bool
  = is_candidate post.
Proof.
  unfold post_end, excepted. destruct (is_candidate post); cbn [andb]; trivial.
  destruct (uncaught (comments_end max_comments post)) eqn:U; trivial.
  intros H. rewrite H in U. discriminate U.
Qed.

(** What a turn that ends well appends. *)
Lemma post_entry_calm (post : Submission.t) :
  post_end max_comments post = Ok tt ->
  post_entry max_comments post =
  if is_candidate post then
    if (truthy (retained_comments max_comments post)
        || any_keyword_in standalone_keywords (post_text post))%bool
    then [post_data post (retained_comments max_comments post)]
    else []
  else [].
Proof. intros H. now rewrite post_entry_eq, (post_end_Ok _ H). Qed.

Lemma post_body_run (post : Submission.t) (w : World SearchLocals) :
  exists cs,
    post_body max_comments post w =
    (post_end max_comments post,
     {| locals :=
          {| recommendations :=
               (recommendations (locals w) ++ post_entry max_comments post)%list;
             post_data_comments := cs |};
        stdout := stdout w |}).
Proof.
  rewrite post_entry_eq, retained_comments_eq, post_body_closed.
  destruct (is_candidate post); eexists; reflexivity.
Qed.

(** The post loop prints nothing and ends the way [posts_end] says; when
    no exception escapes a turn or the listing, it has gone through every
    post the listing yields. *)
Lemma for_posts_run (search_results : Listing) (w : World SearchLocals) :
  exists rs cs,
    for_posts max_comments search_results w =
    (posts_end max_comments search_results,
     {| locals := {| recommendations := rs; post_data_comments := cs |};
        stdout := stdout w |}) /\
    (uncaught (posts_end max_comments search_results) = false ->
     rs = (recommendations (locals w)
           ++ flat_map (post_entry max_comments) (processed search_results))%list).
Proof.
  revert w. induction search_results as [| post rest IH | e]; intros w.
  - destruct w as [[recs pdc] out]. exists recs, pdc. split; [reflexivity |].
    intros _. cbn. now rewrite app_nil_r.
  - cbn [for_posts posts_end processed flat_map]. unfold bind.
    destruct (post_body_run post w) as [cs ->].
    destruct (post_end max_comments post) as [[] | e] eqn:E.
    + match goal with |- context [for_posts _ rest ?w0] =>
        destruct (IH w0) as (rs & cs' & -> & Hrs) end.
      exists rs, cs'. split; [reflexivity |].
      intros U. rewrite (Hrs U). cbn. now rewrite <- app_assoc.
    + do 2 eexists. split; [reflexivity |].
      intros U. cbn in U. rewrite (post_end_raises _ _ E) in U. discriminate U.
  - destruct w as [[recs pdc] out]. exists recs, pdc. split; [reflexivity |].
    intros _. cbn. now rewrite app_nil_r.
Qed.

(** When nothing escapes, every turn ended well and the loop ends the
    way the listing does. *)
Lemma posts_end_calm (search_results : Listing) :
  uncaught (posts_end max_comments search_results) = false ->
  posts_end max_comments search_results = listing_end search_results /\
  forall post, In post (processed search_results) -> post_end max_comments post = Ok tt.
Proof.
  induction search_results as [| post rest IH | e]; cbn [posts_end listing_end processed];
    intros U.
  - split; [reflexivity | contradiction].
  - destruct (post_end max_comments post) as [[] | e] eqn:E.
    + destruct (IH U) as [H1 H2]. split; [exact H1 |].
      intros p [<- | Hin]; [exact E | now apply H2].
    + cbn in U. rewrite (post_end_raises _ _ E) in U. discriminate U.
  - split; [reflexivity | contradiction].
Qed.

End SearchRuns.

Section SearchOutcome.
Context {lw : Lowering} {L : Type}.
Variable reddit : Reddit.t.
Variables query subreddit_name : string.
Variables max_posts max_comments : Z.

Abbreviation search_run :=
  (search_reddit_for_recommendations (L := L) reddit query subreddit_name
     max_posts max_comments).

(** Making the subreddit handle is outside the [try]: its exception is
    one of the function. *)
Lemma search_subreddit_raises (e : exn) (w : World L) :
  Reddit.subreddit reddit subreddit_name = Raise e ->
  search_run w = (Raise e, printed w []).
Proof.
  intros H. unfold search_reddit_for_recommendations, invoke, search_body, bind, call.
  rewrite H. unfold printed. simpl. now rewrite app_nil_r.
Qed.

(** The search call raises an [Exception]: it is reported. *)
Lemma search_call_raises (subreddit : Subreddit.t) (e : exn) (w : World L) :
  Reddit.subreddit reddit subreddit_name = Ok subreddit ->
  Subreddit.search subreddit query max_posts = Raise e ->
  is_Exception e = true ->
  search_run w = (Ok [], printed w [error_report e]).
Proof.
  intros Hs Hq He.
  unfold search_reddit_for_recommendations, invoke, search_body, bind, call, try_except.
  rewrite Hs, Hq, He. reflexivity.
Qed.

(** The search call raises something else: it leaves the function. *)
Lemma search_call_escapes (subreddit : Subreddit.t) (e : exn) (w : World L) :
  Reddit.subreddit reddit subreddit_name = Ok subreddit ->
  Subreddit.search subreddit query max_posts = Raise e ->
  is_Exception e = false ->
  search_run w = (Raise e, printed w []).
Proof.
  intros Hs Hq He.
  unfold search_reddit_for_recommendations, invoke, search_body, bind, call, try_except.
  rewrite Hs, Hq, He. unfold printed. cbn. now rewrite app_nil_r.
Qed.

Lemma search_call_answers (subreddit : Subreddit.t) (search_results : Listing) (w : World L) :
  Reddit.subreddit reddit subreddit_name = Ok subreddit ->
  Subreddit.search subreddit query max_posts = Ok search_results ->
  uncaught (posts_end max_comments search_results) = false ->
  search_run w
  = (Ok (flat_map (post_entry max_comments) (processed search_results)),
     printed w (reports (listing_end search_results))).
Proof.
  intros Hs Hq U.
  unfold search_reddit_for_recommendations, invoke, search_body.
  unfold bind at 1. unfold call at 1. rewrite Hs.
  unfold bind at 1. unfold try_except. unfold bind at 1. unfold call at 1. rewrite Hq.
  match goal with |- context [for_posts ?m ?l ?w0] =>
    destruct (for_posts_run m l w0) as (rs & cs & -> & Hrs) end.
  rewrite (Hrs U). destruct (posts_end_calm _ _ U) as [Hend _]. rewrite Hend in U |- *.
  unfold printed. destruct (listing_end search_results) as [[] | e]; cbn.
  - now rewrite app_nil_r.
  - cbn in U. destruct (is_Exception e); [reflexivity | discriminate U].
Qed.

Lemma search_loop_escapes (subreddit : Subreddit.t) (search_results : Listing) (e : exn)
    (w : World L) :
  Reddit.subreddit reddit subreddit_name = Ok subreddit ->
  Subreddit.search subreddit query max_posts = Ok search_results ->
  posts_end max_comments search_results = Raise e ->
  is_Exception e = false ->
  search_run w = (Raise e, printed w []).
Proof.
  intros Hs Hq Hend He.
  unfold search_reddit_for_recommendations, invoke, search_body.
  unfold bind at 1. unfold call at 1. rewrite Hs.
  unfold bind at 1. unfold try_except. unfold bind at 1. unfold call at 1. rewrite Hq.
  match goal with |- context [for_posts ?m ?l ?w0] =>
    destruct (for_posts_run m l w0) as (rs & cs & -> & _) end.
  rewrite Hend, He. unfold printed. cbn. now rewrite app_nil_r.
Qed.

(** With a handle, a search that nothing escapes from returns. *)
Lemma search_calm (subreddit : Subreddit.t) (w : World L) :
  Reddit.subreddit reddit subreddit_name = Ok subreddit ->
  uncaught (search_end subreddit query max_posts max_comments) = false ->
  search_run w
  = (Ok match Subreddit.search subreddit query max_posts with
        | Ok search_results => flat_map (post_entry max_comments) (processed search_results)
        | Raise _ => []
        end,
     printed w (reports (search_end subreddit query max_posts max_comments))).
Proof.
  intros Hs U. unfold search_end in *.
  destruct (Subreddit.search subreddit query max_posts) as [search_results | e] eqn:Hq.
  - rewrite (search_call_answers _ _ w Hs Hq U).
    now destruct (posts_end_calm _ _ U) as [-> _].
  - apply (search_call_raises _ _ w Hs Hq). cbn in U. now destruct (is_Exception e).
Qed.

(** With a handle, what escapes from the [try] leaves the function. *)
Lemma search_escapes (subreddit : Subreddit.t) (e : exn) (w : World L) :
  Reddit.subreddit reddit subreddit_name = Ok subreddit ->
  search_end subreddit query max_posts max_comments = Raise e ->
  is_Exception e = false ->
  search_run w = (Raise e, printed w []).
Proof.
  intros Hs Hend He. unfold search_end in Hend.
  destruct (Subreddit.search subreddit query max_posts) as [search_results | e'] eqn:Hq.
  - now apply (search_loop_escapes subreddit search_results).
  - injection Hend as ->. now apply (search_call_escapes subreddit).
Qed.

End SearchOutcome.

(* ================================================================== *)
(** * What [get_reddit_recommendations] computes                       *)
(* ================================================================== *)

Section GetRuns.
Context {lw : Lowering}.
Variable reddit : Reddit.t.
Variable subreddit_name : string.
Variables max_posts max_comments : Z.

Abbreviation mine := (query_result reddit subreddit_name max_posts max_comments).
Abbreviation search_for query :=
  (search_reddit_for_recommendations reddit query subreddit_name max_posts max_comments).

(** A query ends the same way in every state, and changes nothing but
    the output. *)
Lemma search_any_world {L : Type} (query : string) (w : World L) :
  exists lines, search_for query w = (fst (search_for query fresh), printed w lines).
Proof.
  destruct (Reddit.subreddit reddit subreddit_name) as [subreddit | e] eqn:Hs.
  - destruct (uncaught (search_end subreddit query max_posts max_comments)) eqn:U.
    + apply uncaught_Raise in U as [e [Hend He]].
      rewrite (search_escapes _ _ _ _ _ _ _ fresh Hs Hend He).
      rewrite (search_escapes _ _ _ _ _ _ _ w Hs Hend He). eexists; reflexivity.
    + rewrite (search_calm _ _ _ _ _ _ fresh Hs U).
      rewrite (search_calm _ _ _ _ _ _ w Hs U). eexists; reflexivity.
  - rewrite (search_subreddit_raises _ _ _ _ _ _ fresh Hs).
    rewrite (search_subreddit_raises _ _ _ _ _ _ w Hs). eexists; reflexivity.
Qed.

Lemma mine_of_run (query : string) (results : list PostData.t) :
  fst (search_for query fresh) = Ok results -> mine query = results.
Proof. intros H. unfold query_result. now rewrite H. Qed.

(** The result of a query, case by case. *)
Lemma query_result_eq (query : string) :
  mine query =
  match Reddit.subreddit reddit subreddit_name with
  | Ok subreddit =>
      match Subreddit.search subreddit query max_posts with
      | Ok search_results =>
          if uncaught (posts_end max_comments search_results) then []
          else flat_map (post_entry max_comments) (processed search_results)
      | Raise _ => []
      end
  | Raise _ => []
  end.
Proof.
  unfold query_result.
  destruct (Reddit.subreddit reddit subreddit_name) as [subreddit | e] eqn:Hs.
  - destruct (Subreddit.search subreddit query max_posts) as [search_results | e] eqn:Hq.
    + destruct (uncaught (posts_end max_comments search_results)) eqn:U.
      * apply uncaught_Raise in U as [e [Hend He]].
        now rewrite (search_loop_escapes _ _ _ _ _ _ _ _ fresh Hs Hq Hend He).
      * now rewrite (search_call_answers _ _ _ _ _ _ _ fresh Hs Hq U).
    + destruct (is_Exception e) eqn:He.
      * now rewrite (search_call_raises _ _ _ _ _ _ _ fresh Hs Hq He).
      * now rewrite (search_call_escapes _ _ _ _ _ _ _ fresh Hs Hq He).
  - now rewrite (search_subreddit_raises _ _ _ _ _ _ fresh Hs).
Qed.

(** With a subreddit handle, a query that nothing escapes from returns
    its result. *)
Lemma search_answers (subreddit : Subreddit.t) (query : string) :
  Reddit.subreddit reddit subreddit_name = Ok subreddit ->
  uncaught (search_end subreddit query max_posts max_comments) = false ->
  fst (search_for query fresh) = Ok (mine query).
Proof.
  intros Hs U. unfold query_result.
  now rewrite (search_calm _ _ _ _ _ _ fresh Hs U).
Qed.

Lemma search_returns {L : Type} (subreddit : Subreddit.t) (query : string) (w : World L) :
  Reddit.subreddit reddit subreddit_name = Ok subreddit ->
  uncaught (search_end subreddit query max_posts max_comments) = false ->
  exists lines, search_for query w = (Ok (mine query), printed w lines).
Proof.
  intros Hs U. destruct (search_any_world query w) as [lines ->].
  rewrite (search_answers subreddit query Hs U). eexists; reflexivity.
Qed.

(** With a subreddit handle, a query raises only what escapes from its
    [try]. *)
Lemma search_raises_origin (subreddit : Subreddit.t) (query : string) (e : exn) :
  Reddit.subreddit reddit subreddit_name = Ok subreddit ->
  fst (search_for query fresh) = Raise e ->
  search_end subreddit query max_posts max_comments = Raise e /\ is_Exception e = false.
Proof.
  intros Hs Hrun.
  destruct (uncaught (search_end subreddit query max_posts max_comments)) eqn:U.
  - apply uncaught_Raise in U as [e' [Hend He]].
    rewrite (search_escapes _ _ _ _ _ _ _ fresh Hs Hend He) in Hrun.
    injection Hrun as <-. now split.
  - rewrite (search_calm _ _ _ _ _ _ fresh Hs U) in Hrun. discriminate Hrun.
Qed.

(** The loop over the seed tracks.  Either each of its queries returns:
    then it ends well, and has added their results, in order; or it ends
    with the exception that one of its queries raises. *)
Lemma for_top_tracks_run (total idx : nat) (tracks : list Track) (w : World GetLocals) :
  exists r data out,
    for_top_tracks reddit subreddit_name max_posts max_comments total idx tracks w =
    (r, {| locals := {| all_reddit_data := data |}; stdout := out |}) /\
    (r = Ok tt /\
     data = (all_reddit_data (locals w) ++ flat_map mine (map track_query tracks))%list /\
     (forall q, In q (map track_query tracks) -> fst (search_for q fresh) = Ok (mine q))
     \/
     exists e q,
       r = Raise e /\ In q (map track_query tracks) /\ fst (search_for q fresh) = Raise e).
Proof.
  revert idx w. induction tracks as [|track rest IH]; intros idx [[data] out].
  - exists (Ok tt), data, out. cbn. rewrite app_nil_r. split; [reflexivity |].
    left. repeat split. contradiction.
  - cbn [for_top_tracks map flat_map]. unfold bind at 1. unfold print at 1. unfold modify at 1.
    unfold bind at 1.
    match goal with |- context [search_for ?q ?w0] =>
      destruct (search_any_world q w0) as [lines ->] end.
    destruct (fst (search_for (track_query track) fresh)) as [results | e] eqn:E.
    + pose proof (mine_of_run _ _ E) as Hmine. rewrite Hmine. unfold bind at 1.
      assert (Hstep :
        forall w0 : World GetLocals,
          all_reddit_data (locals w0) = (data ++ results)%list ->
          exists r data' out',
            for_top_tracks reddit subreddit_name max_posts max_comments total (S idx) rest w0 =
            (r, {| locals := {| all_reddit_data := data' |}; stdout := out' |}) /\
            (r = Ok tt /\
             data' = (data ++ results ++ flat_map mine (map track_query rest))%list /\
             (forall q, In q (track_query track :: map track_query rest) ->
                        fst (search_for q fresh) = Ok (mine q))
             \/
             exists e q,
               r = Raise e /\ In q (track_query track :: map track_query rest) /\
               fst (search_for q fresh) = Raise e)).
      { intros w0 Hw0.
        destruct (IH (S idx) w0) as (r & data' & out' & Hrun & Hcases).
        exists r, data', out'. split; [exact Hrun |].
        destruct Hcases as [(Hr & Hdata & Hall) | (e & q & Hr & Hin & Hq)].
        - left. split; [exact Hr |]. split.
          + now rewrite Hdata, Hw0, <- app_assoc.
          + intros q [<- | Hin]; [now rewrite Hmine | now apply Hall].
        - right. exists e, q. split; [exact Hr |]. split; [now right | exact Hq]. }
      destruct results as [|entry entries]; cbn [truthy].
      * unfold print at 1, modify at 1.
        match goal with |- context [for_top_tracks _ _ _ _ ?t ?i ?l ?w0] =>
          destruct (Hstep w0) as (r & data' & out' & -> & Hcases) end.
        { cbn. now rewrite app_nil_r. }
        exists r, data', out'. split; [reflexivity | exact Hcases].
      * unfold bind at 1. unfold extend, print, modify_locals, modify.
        cbn [locals stdout all_reddit_data printed].
        match goal with |- context [for_top_tracks _ _ _ _ ?t ?i ?l ?w0] =>
          destruct (Hstep w0) as (r & data' & out' & -> & Hcases) end.
        { reflexivity. }
        exists r, data', out'. split; [reflexivity | exact Hcases].
    + do 3 eexists. split; [reflexivity |]. right.
      exists e, (track_query track). split; [reflexivity |]. split; [now left | exact E].
Qed.

(** The loop over the seed artists, likewise. *)
Lemma for_all_artists_run (total idx : nat) (names : list string) (w : World GetLocals) :
  exists r data out,
    for_all_artists reddit subreddit_name max_posts max_comments total idx names w =
    (r, {| locals := {| all_reddit_data := data |}; stdout := out |}) /\
    (r = Ok tt /\
     data = (all_reddit_data (locals w) ++ flat_map mine (map artist_query names))%list /\
     (forall q, In q (map artist_query names) -> fst (search_for q fresh) = Ok (mine q))
     \/
     exists e q,
       r = Raise e /\ In q (map artist_query names) /\ fst (search_for q fresh) = Raise e).
Proof.
  revert idx w. induction names as [|artist rest IH]; intros idx [[data] out].
  - exists (Ok tt), data, out. cbn. rewrite app_nil_r. split; [reflexivity |].
    left. repeat split. contradiction.
  - cbn [for_all_artists map flat_map]. unfold bind at 1. unfold print at 1.
    unfold modify at 1. unfold bind at 1.
    match goal with |- context [search_for ?q ?w0] =>
      destruct (search_any_world q w0) as [lines ->] end.
    destruct (fst (search_for (artist_query artist) fresh)) as [results | e] eqn:E.
    + pose proof (mine_of_run _ _ E) as Hmine. rewrite Hmine. unfold bind at 1.
      assert (Hstep :
        forall w0 : World GetLocals,
          all_reddit_data (locals w0) = (data ++ results)%list ->
          exists r data' out',
            for_all_artists reddit subreddit_name max_posts max_comments total (S idx) rest w0 =
            (r, {| locals := {| all_reddit_data := data' |}; stdout := out' |}) /\
            (r = Ok tt /\
             data' = (data ++ results ++ flat_map mine (map artist_query rest))%list /\
             (forall q, In q (artist_query artist :: map artist_query rest) ->
                        fst (search_for q fresh) = Ok (mine q))
             \/
             exists e q,
               r = Raise e /\ In q (artist_query artist :: map artist_query rest) /\
               fst (search_for q fresh) = Raise e)).
      { intros w0 Hw0.
        destruct (IH (S idx) w0) as (r & data' & out' & Hrun & Hcases).
        exists r, data', out'. split; [exact Hrun |].
        destruct Hcases as [(Hr & Hdata & Hall) | (e & q & Hr & Hin & Hq)].
        - left. split; [exact Hr |]. split.
          + now rewrite Hdata, Hw0, <- app_assoc.
          + intros q [<- | Hin]; [now rewrite Hmine | now apply Hall].
        - right. exists e, q. split; [exact Hr |]. split; [now right | exact Hq]. }
      destruct results as [|entry entries]; cbn [truthy].
      * unfold print at 1, modify at 1.
        match goal with |- context [for_all_artists _ _ _ _ ?t ?i ?l ?w0] =>
          destruct (Hstep w0) as (r & data' & out' & -> & Hcases) end.
        { cbn. now rewrite app_nil_r. }
        exists r, data', out'. split; [reflexivity | exact Hcases].
      * unfold bind at 1. unfold extend, print, modify_locals, modify.
        cbn [locals stdout all_reddit_data printed].
        match goal with |- context [for_all_artists _ _ _ _ ?t ?i ?l ?w0] =>
          destruct (Hstep w0) as (r & data' & out' & -> & Hcases) end.
        { reflexivity. }
        exists r, data', out'. split; [reflexivity | exact Hcases].
    + do 3 eexists. split; [reflexivity |]. right.
      exists e, (artist_query artist). split; [reflexivity |]. split; [now left | exact E].
Qed.

(** Without a handle the first query of either loop raises. *)
Lemma for_top_tracks_raises (e : exn)
    (total idx : nat) (track : Track) (rest : list Track) (w : World GetLocals) :
  Reddit.subreddit reddit subreddit_name = Raise e ->
  exists w',
    for_top_tracks reddit subreddit_name max_posts max_comments total idx (track :: rest) w
    = (Raise e, w').
Proof.
  intros Hs. simpl. unfold bind at 1. unfold print at 1. unfold modify at 1.
  unfold bind at 1. rewrite (search_subreddit_raises _ _ _ _ _ _ _ Hs).
  eexists; reflexivity.
Qed.

Lemma for_all_artists_raises (e : exn)
    (total idx : nat) (artist : string) (rest : list string) (w : World GetLocals) :
  Reddit.subreddit reddit subreddit_name = Raise e ->
  exists w',
    for_all_artists reddit subreddit_name max_posts max_comments total idx (artist :: rest) w
    = (Raise e, w').
Proof.
  intros Hs. simpl. unfold bind at 1. unfold print at 1. unfold modify at 1.
  unfold bind at 1. rewrite (search_subreddit_raises _ _ _ _ _ _ _ Hs).
  eexists; reflexivity.
Qed.

End GetRuns.

Section GetOutcome.
Context {lw : Lowering} {L : Type}.
Variable so : SetOrder.
Variable reddit : Reddit.t.
Variable subreddit_name : string.
Variables max_posts max_comments : Z.
Variable tracks_data : list Track.
Variables num_top_tracks num_top_artists : Z.

Abbreviation mine := (query_result reddit subreddit_name max_posts max_comments).
Abbreviation search_for query :=
  (search_reddit_for_recommendations reddit query subreddit_name max_posts max_comments).
Abbreviation run :=
  (get_reddit_recommendations (L := L) reddit tracks_data subreddit_name
     max_posts max_comments num_top_tracks num_top_artists).
Abbreviation top := (top_tracks tracks_data num_top_tracks).
Abbreviation arts := (all_artists tracks_data num_top_artists).

(** A run.  Either each of its queries returns: then the function
    returns, and its data are the results of the track queries followed
    by those of the artist queries; or the function raises the exception
    that one of its queries raises. *)
Lemma get_run (w : World L) :
  exists r w',
    run w = (r, w') /\
    (r = Ok {| Result.all_reddit_data :=
                 (flat_map mine (map track_query top)
                  ++ flat_map mine (map artist_query arts))%list;
               Result.top_tracks := top;
               Result.all_artists := arts |} /\
     (forall q, In q (queries top arts) -> fst (search_for q fresh) = Ok (mine q))
     \/
     exists e q,
       r = Raise e /\ In q (queries top arts) /\ fst (search_for q fresh) = Raise e).
Proof.
  unfold get_reddit_recommendations, invoke, get_body.
  unfold bind, print, modify. cbn [locals stdout all_reddit_data].
  match goal with |- context [for_top_tracks _ _ _ _ ?t ?i ?l ?w0] =>
    destruct (for_top_tracks_run reddit subreddit_name max_posts max_comments t i l w0)
      as (r1 & d1 & o1 & -> & [(-> & Hd1 & Hall1) | (e1 & q1 & -> & Hin1 & Hq1)]) end.
  - cbn [locals stdout all_reddit_data].
    match goal with |- context [for_all_artists _ _ _ _ ?t ?i ?l ?w0] =>
      destruct (for_all_artists_run reddit subreddit_name max_posts max_comments t i l w0)
        as (r2 & d2 & o2 & -> & [(-> & Hd2 & Hall2) | (e2 & q2 & -> & Hin2 & Hq2)]) end.
    + cbn [locals stdout all_reddit_data get_locals ret] in *. do 2 eexists.
      split; [reflexivity |]. left. split.
      * rewrite Hd2, Hd1. reflexivity.
      * intros q Hin. unfold queries in Hin. apply in_app_or in Hin as [Hin | Hin];
          [now apply Hall1 | now apply Hall2].
    + do 2 eexists. split; [reflexivity |]. right. exists e2, q2.
      split; [reflexivity |]. split; [| exact Hq2]. unfold queries. apply in_or_app. now right.
  - do 2 eexists. split; [reflexivity |]. right. exists e1, q1.
    split; [reflexivity |]. split; [| exact Hq1]. unfold queries. apply in_or_app. now left.
Qed.

(** With a subreddit handle, and when nothing escapes from a query, the
    function returns, and its data are the results of the track queries
    followed by those of the artist queries. *)
Lemma get_returns (subreddit : Subreddit.t) (w : World L) :
  Reddit.subreddit reddit subreddit_name = Ok subreddit ->
  (forall q, In q (queries top arts) ->
             uncaught (search_end subreddit q max_posts max_comments) = false) ->
  exists w',
    run w =
    (Ok {| Result.all_reddit_data :=
             (flat_map mine (map track_query top)
              ++ flat_map mine (map artist_query arts))%list;
           Result.top_tracks := top;
           Result.all_artists := arts |},
     w').
Proof.
  intros Hs Hcalm.
  destruct (get_run w) as (r & w' & Hrun & [(-> & _) | (e & q & _ & Hin & Hq)]).
  - now exists w'.
  - rewrite (search_answers _ _ _ _ subreddit q Hs (Hcalm q Hin)) in Hq. discriminate Hq.
Qed.

(** With a subreddit handle, when an exception escapes from one of the
    queries, the function raises: what it raises ended one of its
    queries, and is no [Exception]. *)
Lemma get_escapes (subreddit : Subreddit.t) (query : string) (w : World L) :
  Reddit.subreddit reddit subreddit_name = Ok subreddit ->
  In query (queries top arts) ->
  uncaught (search_end subreddit query max_posts max_comments) = true ->
  exists e q w',
    run w = (Raise e, w') /\
    is_Exception e = false /\
    In q (queries top arts) /\
    search_end subreddit q max_posts max_comments = Raise e.
Proof.
  intros Hs Hin U.
  destruct (get_run w) as (r & w' & Hrun & [(_ & Hall) | (e & q & -> & Hq & Hraise)]).
  - apply uncaught_Raise in U as [e [Hend He]]. specialize (Hall query Hin).
    rewrite (search_escapes _ _ _ _ _ _ _ fresh Hs Hend He) in Hall. discriminate Hall.
  - destruct (search_raises_origin _ _ _ _ subreddit q e Hs Hraise) as [Hend He].
    now exists e, q, w'.
Qed.

(** Without seeds no query is issued, and the function returns. *)
Lemma get_without_seeds (w : World L) :
  top = [] -> arts = [] ->
  exists w',
    run w =
    (Ok {| Result.all_reddit_data := [];
           Result.top_tracks := [];
           Result.all_artists := [] |},
     w').
Proof.
  intros Ht Ha. unfold get_reddit_recommendations, invoke, get_body.
  rewrite Ht, Ha. cbn. eexists; reflexivity.
Qed.

(** Without a subreddit handle the first query raises, and so does the
    function. *)
Lemma get_raises (e : exn) (w : World L) :
  Reddit.subreddit reddit subreddit_name = Raise e ->
  queries top arts <> [] ->
  exists w', run w = (Raise e, w').
Proof.
  intros Hs Hq. unfold get_reddit_recommendations, invoke, get_body.
  unfold bind, print, modify. cbn [locals stdout all_reddit_data].
  destruct top as [|track rest] eqn:Ht.
  - destruct arts as [|artist rest] eqn:Ha; [now elim Hq |].
    cbn [for_top_tracks ret locals stdout all_reddit_data].
    match goal with |- context [for_all_artists _ _ _ _ ?t ?i ?l ?w0] =>
      destruct (for_all_artists_raises reddit subreddit_name max_posts max_comments
                  e t i artist rest w0 Hs) as [w' ->] end.
    eexists; reflexivity.
  - match goal with |- context [for_top_tracks _ _ _ _ ?t ?i ?l ?w0] =>
      destruct (for_top_tracks_raises reddit subreddit_name max_posts max_comments
                  e t i track rest w0 Hs) as [w' ->] end.
    eexists; reflexivity.
Qed.

(** Whenever the function returns, its data are the concatenation of the
    results of its queries. *)
Lemma get_result (res : Result.t) (w w' : World L) :
  run w = (Ok res, w') ->
  res = {| Result.all_reddit_data := flat_map mine (queries top arts);
           Result.top_tracks := top;
           Result.all_artists := arts |}.
Proof.
  intros Hrun. unfold queries. rewrite flat_map_app.
  destruct (get_run w) as (r & w1 & Hrun1 & [(-> & _) | (e & q & -> & _)]);
    rewrite Hrun1 in Hrun; [now injection Hrun as <- | discriminate Hrun].
Qed.

End GetOutcome.

(* ================================================================== *)
(** * The keyword filters                                              *)
(* ================================================================== *)

Section FilterFacts.
Context {lw : Lowering}.

Lemma post_data_inj (post post' : Submission.t) (cs cs' : list CommentData.t) :
  post_data post cs = post_data post' cs' ->
  post_text post = post_text post' /\ cs = cs'.
Proof.
  unfold post_data, post_text. intros H. injection H as Ht Hb _ _ Hc.
  now rewrite Ht, Hb, Hc.
Qed.

(** Every entry of a query's result is the [post_data] of a candidate that
    the listing yielded, with the comments retained for it. *)
Lemma entry_origin (max_comments : Z) (search_results : Listing) (entry : PostData.t) :
  In entry (flat_map (post_entry max_comments) (processed search_results)) ->
  exists post,
    In post (processed search_results) /\
    is_candidate post = true /\
    (truthy (retained_comments max_comments post)
     || any_keyword_in standalone_keywords (post_text post))%bool = true /\
    entry = post_data post (retained_comments max_comments post).
Proof.
  rewrite in_flat_map. intros [post [Hin Hentry]]. exists post.
  rewrite post_entry_eq in Hentry.
  destruct (is_candidate post); cbn [andb] in Hentry; [| contradiction].
  destruct (uncaught (comments_end max_comments post)); cbn [negb] in Hentry;
    [contradiction |].
  destruct (truthy _ || _)%bool; [| contradiction].
  destruct Hentry as [<- | []]. repeat split; trivial.
Qed.

(** A list that the function returns was built from a listing. *)
Lemma returned_entries
    (L : Type) (reddit : Reddit.t) (query subreddit_name : string)
    (max_posts max_comments : Z) (w w' : World L)
    (results : list PostData.t) (entry : PostData.t) :
  search_reddit_for_recommendations reddit query subreddit_name max_posts max_comments w
  = (Ok results, w') ->
  In entry results ->
  exists subreddit search_results,
    Reddit.subreddit reddit subreddit_name = Ok subreddit /\
    Subreddit.search subreddit query max_posts = Ok search_results /\
    In entry (flat_map (post_entry max_comments) (processed search_results)).
Proof.
  intros Hrun Hentry.
  destruct (Reddit.subreddit reddit subreddit_name) as [subreddit | e] eqn:Hs.
  - destruct (uncaught (search_end subreddit query max_posts max_comments)) eqn:U.
    + apply uncaught_Raise in U as [e [Hend He]].
      rewrite (search_escapes _ _ _ _ _ _ _ w Hs Hend He) in Hrun. discriminate Hrun.
    + rewrite (search_calm _ _ _ _ _ _ w Hs U) in Hrun. injection Hrun as <- _.
      destruct (Subreddit.search subreddit query max_posts) as [search_results | e] eqn:Hq;
        [| contradiction].
      now exists subreddit, search_results.
  - rewrite (search_subreddit_raises _ _ _ _ _ _ w Hs) in Hrun. discriminate Hrun.
Qed.

End FilterFacts.

(** C2.  In a run that returns (the subreddit handle is made, the search
    call answers, and no exception that is not an [Exception] cuts the
    loop short), a post that the loop has gone through and that has no
    retained comment is in the returned list exactly when its lower-cased
    title and body contain "recommend" or "similar". *)
Theorem C2_post_without_comments_kept_iff_standalone
    (lw : Lowering) (L : Type) (reddit : Reddit.t) (query subreddit_name : string)
    (max_posts max_comments : Z) (subreddit : Subreddit.t)
    (search_results : Listing) (post : Submission.t) (w : World L) :
  Reddit.subreddit reddit subreddit_name = Ok subreddit ->
  Subreddit.search subreddit query max_posts = Ok search_results ->
  uncaught (posts_end max_comments search_results) = false ->
  In post (processed search_results) ->
  retained_comments max_comments post = [] ->
  exists results w',
    search_reddit_for_recommendations reddit query subreddit_name max_posts max_comments w
    = (Ok results, w') /\
    (In (post_data post []) results <->
     exists kw, In kw ["recommend"; "similar"] /\ Substring kw (post_text post)).
Proof.
  intros Hs Hq U Hin Hnone.
  rewrite (search_call_answers _ _ _ _ _ _ _ w Hs Hq U).
  do 2 eexists. split; [reflexivity |].
  change ["recommend"; "similar"] with standalone_keywords.
  rewrite <- any_keyword_in_spec. split.
  - intros Hentry. apply entry_origin in Hentry as (post' & _ & _ & Hkept & Heq).
    apply post_data_inj in Heq as [Htext Hcs].
    rewrite <- Hcs in Hkept. simpl in Hkept. now rewrite Htext.
  - intros Hkw. apply in_flat_map. exists post. split; trivial.
    rewrite post_entry_calm by (now apply (posts_end_calm _ _ U)).
    rewrite (standalone_is_candidate _ Hkw : is_candidate post = true).
    rewrite Hnone, Hkw. simpl. now left.
Qed.

Lemma C2_witness :
  Reddit.subreddit Sample.reddit "music" = Ok Sample.music /\
  Subreddit.search Sample.music "q" 20 = Ok Sample.listing /\
  uncaught (posts_end 30 Sample.listing) = false /\
  In Sample.if_you_like (processed Sample.listing) /\
  retained_comments 30 Sample.if_you_like = [] /\
  exists results w',
    search_reddit_for_recommendations Sample.reddit "q" "music" 20 30 Sample.quiet
    = (Ok results, w') /\
    (In (post_data Sample.if_you_like []) results <->
     exists kw, In kw ["recommend"; "similar"]
                /\ Substring kw (post_text Sample.if_you_like)).
Proof.
  assert (H1 : Reddit.subreddit Sample.reddit "music" = Ok Sample.music) by reflexivity.
  assert (H2 : Subreddit.search Sample.music "q" 20 = Ok Sample.listing) by reflexivity.
  assert (HU : uncaught (posts_end 30 Sample.listing) = false) by reflexivity.
  assert (H3 : In Sample.if_you_like (processed Sample.listing))
    by (simpl; right; left; reflexivity).
  assert (H4 : retained_comments 30 Sample.if_you_like = []) by reflexivity.
  repeat (split; [assumption |]).
  exact (C2_post_without_comments_kept_iff_standalone
           ascii_only unit Sample.reddit "q" "music" 20 30 Sample.music Sample.listing
           Sample.if_you_like Sample.quiet H1 H2 HU H3 H4).
Defined.

(** C3.  A post is a mining candidate exactly when its lower-cased title
    and body contain a term of the post lexicon.  A post that is none is
    passed over without any effect, and no [post_data] of it is ever in a
    returned list.  A post that is one is processed: after its turn the
    comment list of its [post_data] holds its qualifying comments, and,
    unless an exception that is no [Exception] leaves the turn, the
    [post_data] is appended when a comment was retained or a standalone
    term occurs in the text; so in a run that returns, a post the listing
    yielded is in the returned list, with its qualifying comments,
    exactly when it is a candidate that has a qualifying comment or names
    a standalone term.  And every entry of a returned list comes from a
    candidate that the listing yielded. *)
Theorem C3_candidates_are_lexicon_matches
    (lw : Lowering) (L : Type) (reddit : Reddit.t) (query subreddit_name : string)
    (max_posts max_comments : Z) (w : World L) :
  (forall post,
     is_candidate post = true <->
     exists kw,
       In kw ["recommend"; "similar"; "if you like"; "check out"; "you might like"; "fans of"]
       /\ Substring kw (post_text post)) /\
  (forall post ws, is_candidate post = false -> post_body max_comments post ws = (Ok tt, ws)) /\
  (forall post ws,
     is_candidate post = true ->
     post_data_comments (locals (snd (post_body max_comments post ws)))
     = qualifying_comments max_comments post /\
     (uncaught (comments_end max_comments post) = false ->
      fst (post_body max_comments post ws) = Ok tt /\
      recommendations (locals (snd (post_body max_comments post ws)))
      = (recommendations (locals ws)
         ++ if (truthy (qualifying_comments max_comments post)
                || any_keyword_in standalone_keywords (post_text post))%bool
            then [post_data post (qualifying_comments max_comments post)]
            else [])%list)) /\
  (forall subreddit search_results,
     Reddit.subreddit reddit subreddit_name = Ok subreddit ->
     Subreddit.search subreddit query max_posts = Ok search_results ->
     uncaught (posts_end max_comments search_results) = false ->
     exists results w',
       search_reddit_for_recommendations reddit query subreddit_name max_posts max_comments w
       = (Ok results, w') /\
       forall post,
         In post (processed search_results) ->
         (In (post_data post (qualifying_comments max_comments post)) results <->
          is_candidate post = true /\
          (qualifying_comments max_comments post <> [] \/
           exists kw, In kw ["recommend"; "similar"] /\ Substring kw (post_text post)))) /\
  (forall results w',
     search_reddit_for_recommendations reddit query subreddit_name max_posts max_comments w
     = (Ok results, w') ->
     (forall entry,
        In entry results ->
        exists subreddit search_results post,
          Reddit.subreddit reddit subreddit_name = Ok subreddit /\
          Subreddit.search subreddit query max_posts = Ok search_results /\
          In post (processed search_results) /\
          is_candidate post = true /\
          entry = post_data post (retained_comments max_comments post)) /\
     (forall post cs, is_candidate post = false -> ~ In (post_data post cs) results)).
Proof.
  split; [| split; [| split; [| split]]].
  - intros post. apply any_keyword_in_spec.
  - intros post [[recs cs] out] Hno. rewrite post_body_closed. unfold post_end.
    rewrite Hno. cbn. now rewrite app_nil_r.
  - intros post ws Hcand. rewrite post_body_closed, Hcand.
    cbn [fst snd locals post_data_comments recommendations andb].
    split; [reflexivity |]. intros U. rewrite U. cbn [negb]. unfold post_end.
    rewrite Hcand, (excepted_calm _ U). now split.
  - intros subreddit search_results Hs Hq U.
    rewrite (search_call_answers _ _ _ _ _ _ _ w Hs Hq U).
    do 2 eexists. split; [reflexivity |]. intros post Hin.
    change ["recommend"; "similar"] with standalone_keywords.
    rewrite <- any_keyword_in_spec. split.
    + intros Hentry. apply entry_origin in Hentry as (post' & _ & Hcand & Hkept & Heq).
      apply post_data_inj in Heq as [Htext Hcs].
      split; [unfold is_candidate in *; now rewrite Htext |].
      rewrite Htext, Hcs. apply orb_true_iff in Hkept as [Hc | Hk]; [left | now right].
      now destruct (retained_comments max_comments post').
    + intros [Hcand Hkept]. apply in_flat_map. exists post. split; trivial.
      rewrite post_entry_calm by (now apply (posts_end_calm _ _ U)).
      rewrite retained_comments_eq, Hcand.
      replace (truthy (qualifying_comments max_comments post)
               || any_keyword_in standalone_keywords (post_text post))%bool with true;
        [now left |].
      symmetry. apply orb_true_iff. destruct Hkept as [Hc | Hk]; [left | now right].
      now destruct (qualifying_comments max_comments post).
  - intros results w' Hrun. split.
    + intros entry Hentry.
      destruct (returned_entries _ _ _ _ _ _ _ _ _ _ Hrun Hentry)
        as (subreddit & search_results & Hs & Hq & Hflat).
      apply entry_origin in Hflat as (post & Hin & Hcand & _ & Heq).
      now exists subreddit, search_results, post.
    + intros post cs Hno Hentry.
      destruct (returned_entries _ _ _ _ _ _ _ _ _ _ Hrun Hentry)
        as (subreddit & search_results & _ & _ & Hflat).
      apply entry_origin in Hflat as (post' & _ & Hcand & _ & Heq).
      apply post_data_inj in Heq as [Htext _].
      unfold is_candidate in *. rewrite Htext in Hno. congruence.
Qed.

Lemma C3_witness :
  is_candidate Sample.tour_dates = false /\
  post_body 30 Sample.tour_dates fresh = (Ok tt, fresh) /\
  is_candidate Sample.check_out = true /\
  post_data_comments (locals (snd (post_body 30 Sample.check_out fresh)))
  = qualifying_comments 30 Sample.check_out /\
  Reddit.subreddit Sample.reddit "music" = Ok Sample.music /\
  Subreddit.search Sample.music "q" 20 = Ok Sample.listing /\
  uncaught (posts_end 30 Sample.listing) = false /\
  exists results w',
    search_reddit_for_recommendations Sample.reddit "q" "music" 20 30 Sample.quiet
    = (Ok results, w') /\
    forall post,
      In post (processed Sample.listing) ->
      (In (post_data post (qualifying_comments 30 post)) results <->
       is_candidate post = true /\
       (qualifying_comments 30 post <> [] \/
        exists kw, In kw ["recommend"; "similar"] /\ Substring kw (post_text post))).
Proof.
  assert (Hno : is_candidate Sample.tour_dates = false) by reflexivity.
  assert (Hyes : is_candidate Sample.check_out = true) by reflexivity.
  assert (Hs : Reddit.subreddit Sample.reddit "music" = Ok Sample.music) by reflexivity.
  assert (Hq : Subreddit.search Sample.music "q" 20 = Ok Sample.listing) by reflexivity.
  assert (HU : uncaught (posts_end 30 Sample.listing) = false) by reflexivity.
  pose proof (C3_candidates_are_lexicon_matches
                ascii_only unit Sample.reddit "q" "music" 20 30 Sample.quiet)
    as (_ & Hskip & Hcand & Hruns & _).
  split; [exact Hno |]. split; [exact (Hskip Sample.tour_dates fresh Hno) |].
  split; [exact Hyes |]. split; [exact (proj1 (Hcand Sample.check_out fresh Hyes)) |].
  repeat (split; [assumption |]).
  exact (Hruns Sample.music Sample.listing Hs Hq HU).
Defined.

Example candidates_of_listing :
  search_reddit_for_recommendations Sample.reddit "q" "music" 20 30 Sample.quiet
  = (Ok [post_data Sample.check_out [comment_data Sample.try_this];
         post_data Sample.recommend_me []],
     Sample.quiet).
Proof. reflexivity. Qed.

(** A negative bound is a slice from the end: with [max_comments = -1]
    all comments but the last are gone through. *)
Example negative_bound_retains :
  retained_comments (-1) Sample.fans = [comment_data Sample.try_this].
Proof. reflexivity. Qed.

(** C8.  For every mining candidate, the loop goes through at most
    [max_comments] comments, [max_comments] being a count, that is not
    negative; the retained comments are the qualifying ones among those
    read, in their order; and a comment that the loop has read is
    retained exactly when its lower-cased body contains a term of the
    comment lexicon. *)
Theorem C8_comments_examined_and_retained
    (lw : Lowering) (max_comments : Z) (post : Submission.t) :
  is_candidate post = true ->
  (0 <= max_comments ->
   Z.of_nat (List.length (examined_comments max_comments post)) <= max_comments) /\
  retained_comments max_comments post
  = map comment_data (filter qualifies (readable (examined_comments max_comments post))) /\
  (forall comment,
     In comment (readable (examined_comments max_comments post)) ->
     (In (comment_data comment) (retained_comments max_comments post) <->
      exists kw,
        In kw ["recommend"; "similar"; "if you like"; "check out"; "you might like"; "try"]
        /\ Substring kw (lower (Comment.body comment)))).
Proof.
  intros Hcand.
  assert (Hret : retained_comments max_comments post
                 = map comment_data
                     (filter qualifies (readable (examined_comments max_comments post))))
    by (now rewrite retained_comments_eq, Hcand).
  split; [| split; [exact Hret |]].
  - intros Hn. unfold examined_comments.
    destruct (Submission.comments post) as [forest | e].
    + now apply slice_to_length.
    + exact Hn.
  - intros comment Hread. rewrite Hret.
    change ["recommend"; "similar"; "if you like"; "check out"; "you might like"; "try"]
      with comment_keywords.
    rewrite <- any_keyword_in_spec. fold (qualifies comment).
    rewrite in_map_iff. split.
    + intros [comment' [Heq Hin]]. apply filter_In in Hin as [_ Hq].
      unfold qualifies in *.
      replace (Comment.body comment) with (Comment.body comment'); trivial.
      change (CommentData.body (comment_data comment')
              = CommentData.body (comment_data comment)).
      now rewrite Heq.
    + intros Hq. exists comment. split; trivial. apply filter_In. now split.
Qed.

Lemma C8_witness :
  is_candidate Sample.fans = true /\
  (0 <= 1 -> Z.of_nat (List.length (examined_comments 1 Sample.fans)) <= 1) /\
  retained_comments 1 Sample.fans
  = map comment_data (filter qualifies (readable (examined_comments 1 Sample.fans))) /\
  (forall comment,
     In comment (readable (examined_comments 1 Sample.fans)) ->
     (In (comment_data comment) (retained_comments 1 Sample.fans) <->
      exists kw,
        In kw ["recommend"; "similar"; "if you like"; "check out"; "you might like"; "try"]
        /\ Substring kw (lower (Comment.body comment)))).
Proof.
  assert (H1 : is_candidate Sample.fans = true) by reflexivity.
  split; [exact H1 |].
  exact (C8_comments_examined_and_retained ascii_only 1 Sample.fans H1).
Defined.

(* ================================================================== *)
(** * The error handling                                               *)
(* ================================================================== *)

(** C9, as the design document has it, fails: the second comment of
    [Sample.check_out] cannot be read, yet the first, already appended,
    stays in the comment list. *)
Lemma C9_counterexample :
  ~ (forall (max_comments : Z) (post : Submission.t) (e : exn) (w : World SearchLocals),
       is_candidate post = true ->
       fst (comments_block max_comments post w) = Raise e ->
       retained_comments max_comments post = []).
Proof.
  intros H.
  specialize (H 30 Sample.check_out Sample.boom fresh eq_refl eq_refl).
  discriminate H.
Qed.

(** C9, amended.  When the statements under the inner [try] raise an
    [Exception] for a candidate, the exception is swallowed; either it is
    the fetch of the forest that failed, and the post has no retained
    comment, or it is the reading of a comment, and the post keeps the
    qualifying comments read before that one; and the loop goes on
    through the remaining posts of the listing. *)
Theorem C9_comment_failure_is_swallowed
    (lw : Lowering) (max_comments : Z) (post : Submission.t) (rest : Listing) (e : exn)
    (w : World SearchLocals) :
  is_candidate post = true ->
  fst (comments_block max_comments post w) = Raise e ->
  is_Exception e = true ->
  fst (get_comments max_comments post w) = Ok tt /\
  fst (post_body max_comments post w) = Ok tt /\
  (Submission.comments post = Raise e /\ retained_comments max_comments post = []
   \/
   exists forest,
     Submission.comments post = Ok forest /\
     reading_end (slice_to max_comments forest) = Raise e /\
     retained_comments max_comments post
     = map comment_data (filter qualifies (readable (slice_to max_comments forest)))) /\
  (uncaught (posts_end max_comments rest) = false ->
   exists cs,
     for_posts max_comments (Yield post rest) w =
     (listing_end rest,
      {| locals :=
           {| recommendations :=
                (recommendations (locals w)
                 ++ post_entry max_comments post
                 ++ flat_map (post_entry max_comments) (processed rest))%list;
              post_data_comments := cs |};
         stdout := stdout w |})).
Proof.
  intros Hcand Hraise He. rewrite comments_block_end in Hraise.
  assert (U : uncaught (comments_end max_comments post) = false)
    by (rewrite Hraise; cbn; now rewrite He).
  assert (Hturn : post_end max_comments post = Ok tt)
    by (unfold post_end; rewrite Hcand; now apply excepted_calm).
  split; [| split; [| split]].
  - rewrite get_comments_run. now apply excepted_calm.
  - now rewrite post_body_closed.
  - rewrite retained_comments_eq, Hcand. unfold qualifying_comments, examined_comments.
    unfold comments_end in Hraise.
    destruct (Submission.comments post) as [forest | e'].
    + right. exists forest. now repeat split.
    + left. injection Hraise as ->. now split.
  - intros Urest.
    destruct (for_posts_run max_comments (Yield post rest) w) as (rs & cs & Hrun & Hrs).
    exists cs. rewrite Hrun. cbn [posts_end processed flat_map] in *. rewrite Hturn in *.
    rewrite (Hrs Urest). now destruct (posts_end_calm _ _ Urest) as [-> _].
Qed.

Lemma C9_witness :
  is_candidate Sample.check_out = true /\
  fst (comments_block 30 Sample.check_out fresh) = Raise Sample.boom /\
  is_Exception Sample.boom = true /\
  fst (get_comments 30 Sample.check_out fresh) = Ok tt /\
  fst (post_body 30 Sample.check_out fresh) = Ok tt /\
  (Submission.comments Sample.check_out = Raise Sample.boom
   /\ retained_comments 30 Sample.check_out = []
   \/
   exists forest,
     Submission.comments Sample.check_out = Ok forest /\
     reading_end (slice_to 30 forest) = Raise Sample.boom /\
     retained_comments 30 Sample.check_out
     = map comment_data (filter qualifies (readable (slice_to 30 forest)))) /\
  (uncaught (posts_end 30 (Yield Sample.recommend_me Exhausted)) = false ->
   exists cs,
     for_posts 30 (Yield Sample.check_out (Yield Sample.recommend_me Exhausted)) fresh =
     (listing_end (Yield Sample.recommend_me Exhausted),
      {| locals :=
           {| recommendations :=
                (recommendations (locals fresh)
                 ++ post_entry 30 Sample.check_out
                 ++ flat_map (post_entry 30)
                      (processed (Yield Sample.recommend_me Exhausted)))%list;
              post_data_comments := cs |};
         stdout := stdout fresh |})).
Proof.
  assert (H1 : is_candidate Sample.check_out = true) by reflexivity.
  assert (H2 : fst (comments_block 30 Sample.check_out fresh) = Raise Sample.boom)
    by reflexivity.
  assert (H3 : is_Exception Sample.boom = true) by reflexivity.
  repeat (split; [assumption |]).
  exact (C9_comment_failure_is_swallowed ascii_only 30 Sample.check_out
           (Yield Sample.recommend_me Exhausted) Sample.boom fresh H1 H2 H3).
Defined.

(** A failure of the fetch leaves a post that names a standalone term in
    the list, with no comment. *)
Example fetch_failure_keeps_post :
  post_entry 30 Sample.recommend_me = [post_data Sample.recommend_me []].
Proof. reflexivity. Qed.

(** The handle of line 51 is made outside the [try]: an exception of that
    call is one of the function. *)
Example handle_failure_propagates :
  search_reddit_for_recommendations Sample.offline "q" "music" 20 30 Sample.quiet
  = (Raise Sample.boom, Sample.quiet).
Proof. reflexivity. Qed.

(** The handlers catch instances of [Exception]: a [KeyboardInterrupt]
    raised by the search call, or while the comments of a post are
    fetched, leaves the function. *)
Example interrupt_propagates :
  search_reddit_for_recommendations Sample.stopped "q" "music" 20 30 Sample.quiet
  = (Raise KeyboardInterrupt, Sample.quiet) /\
  search_reddit_for_recommendations
    {| Reddit.subreddit := fun _ =>
         Ok {| Subreddit.search := fun _ _ =>
                 Ok (Yield Sample.fans (Yield Sample.stop_here Exhausted)) |} |}
    "q" "music" 20 30 Sample.quiet
  = (Raise KeyboardInterrupt, Sample.quiet).
Proof. split; reflexivity. Qed.

(** C10, as stated for every behaviour of the service, fails: the client
    [Sample.offline] cannot make the subreddit handle, and the exception
    of that call, which is made before the [try], leaves the function. *)
Lemma C10_counterexample :
  ~ (forall (reddit : Reddit.t) (query subreddit_name : string)
            (max_posts max_comments : Z) (w : World unit),
       exists results w',
         search_reddit_for_recommendations reddit query subreddit_name
           max_posts max_comments w
         = (Ok results, w')).
Proof.
  intros H. destruct (H Sample.offline "q" "music" 20 30 Sample.quiet) as (results & w' & Hrun).
  discriminate Hrun.
Qed.

(** C10, amended.  An exception of [reddit.subreddit] leaves the function.
    Once the handle is made, whatever the search call, the iteration of
    the listing and the fetching and reading of comments do, the function
    returns a list and changes nothing but the output, unless one of them
    raises an exception that is not an instance of [Exception]: that one
    no handler catches, and it leaves the function. *)
Theorem C10_search_raises_only_what_escapes
    (lw : Lowering) (L : Type) (reddit : Reddit.t) (query subreddit_name : string)
    (max_posts max_comments : Z) (w : World L) :
  (forall e,
     Reddit.subreddit reddit subreddit_name = Raise e ->
     search_reddit_for_recommendations reddit query subreddit_name max_posts max_comments w
     = (Raise e, w)) /\
  (forall subreddit,
     Reddit.subreddit reddit subreddit_name = Ok subreddit ->
     (uncaught (search_end subreddit query max_posts max_comments) = false ->
      exists results lines,
        search_reddit_for_recommendations reddit query subreddit_name
          max_posts max_comments w
        = (Ok results, printed w lines)) /\
     (forall e,
        search_end subreddit query max_posts max_comments = Raise e ->
        is_Exception e = false ->
        search_reddit_for_recommendations reddit query subreddit_name
          max_posts max_comments w
        = (Raise e, w))).
Proof.
  split.
  - intros e Hs. rewrite (search_subreddit_raises _ _ _ _ _ _ w Hs). now rewrite printed_nil.
  - intros subreddit Hs. split.
    + intros U. rewrite (search_calm _ _ _ _ _ _ w Hs U). do 2 eexists; reflexivity.
    + intros e Hend He. rewrite (search_escapes _ _ _ _ _ _ _ w Hs Hend He).
      now rewrite printed_nil.
Qed.

Lemma C10_witness :
  Reddit.subreddit Sample.reddit "music" = Ok Sample.music /\
  uncaught (search_end Sample.music (track_query Sample.creep) 20 30) = false /\
  exists results lines,
    search_reddit_for_recommendations Sample.reddit (track_query Sample.creep) "music" 20 30
      Sample.quiet
    = (Ok results, printed Sample.quiet lines).
Proof.
  assert (H : Reddit.subreddit Sample.reddit "music" = Ok Sample.music) by reflexivity.
  assert (U : uncaught (search_end Sample.music (track_query Sample.creep) 20 30) = false)
    by reflexivity.
  split; [exact H |]. split; [exact U |].
  exact (proj1 (proj2 (C10_search_raises_only_what_escapes ascii_only unit Sample.reddit
                         (track_query Sample.creep) "music" 20 30 Sample.quiet)
                  Sample.music H) U).
Defined.

(** When nothing escapes, a search that fails with [e] makes the
    statements under the outer [try] end with [e], an [Exception]. *)
Lemma search_fails_end {lw : Lowering}
    (subreddit : Subreddit.t) (query : string) (max_posts max_comments : Z) (e : exn) :
  search_fails subreddit query max_posts e ->
  uncaught (search_end subreddit query max_posts max_comments) = false ->
  search_end subreddit query max_posts max_comments = Raise e /\ is_Exception e = true.
Proof.
  unfold search_fails, search_end. intros [Hq | [search_results [Hq Hend]]] U; rewrite Hq in *.
  - split; trivial. cbn in U. now destruct (is_Exception e).
  - destruct (posts_end_calm _ _ U) as [Hcalm _]. rewrite Hcalm, Hend in *.
    split; trivial. cbn in U. now destruct (is_Exception e).
Qed.

(** A failed search is reported, and the posts accepted before the
    failure are returned. *)
Lemma search_failure_run
    {lw : Lowering} (L : Type) (reddit : Reddit.t) (query subreddit_name : string)
    (max_posts max_comments : Z) (subreddit : Subreddit.t) (e : exn) (w : World L) :
  Reddit.subreddit reddit subreddit_name = Ok subreddit ->
  search_fails subreddit query max_posts e ->
  uncaught (search_end subreddit query max_posts max_comments) = false ->
  search_reddit_for_recommendations reddit query subreddit_name max_posts max_comments w
  = (Ok (query_result reddit subreddit_name max_posts max_comments query),
     printed w [error_report e]).
Proof.
  intros Hs Hfail U.
  destruct (search_fails_end _ _ _ _ _ Hfail U) as [Hend _].
  rewrite (search_calm _ _ _ _ _ _ w Hs U), Hend. cbn [reports].
  unfold query_result. now rewrite (search_calm _ _ _ _ _ _ fresh Hs U).
Qed.

(** C4, as the design document has it, fails: the listing of
    [Sample.flaky] raises after it has yielded a post, and that post is
    returned. *)
Lemma C4_counterexample :
  ~ (forall (reddit : Reddit.t) (query subreddit_name : string)
            (max_posts max_comments : Z) (subreddit : Subreddit.t) (e : exn)
            (w : World unit),
       Reddit.subreddit reddit subreddit_name = Ok subreddit ->
       search_fails subreddit query max_posts e ->
       fst (search_reddit_for_recommendations reddit query subreddit_name
              max_posts max_comments w)
       = Ok []).
Proof.
  intros H.
  specialize (H Sample.flaky "q" "music" 20 30 Sample.flaky_music
                Sample.boom Sample.quiet eq_refl).
  assert (Hfail : search_fails Sample.flaky_music "q" 20 Sample.boom)
    by (right; eexists; split; reflexivity).
  specialize (H Hfail). discriminate H.
Qed.

Example flaky_listing_returns_post :
  search_reddit_for_recommendations Sample.flaky "q" "music" 20 30 Sample.quiet
  = (Ok [post_data Sample.fans [comment_data Sample.try_this; comment_data Sample.similar_to]],
     printed Sample.quiet ["   Error searching Reddit: 503"]).
Proof. reflexivity. Qed.

(** C4, amended.  When the search of a query fails, and what is raised
    is an [Exception], which the handler catches, the function prints the
    error instead of raising it and returns the posts accepted before the
    failure: none when the call raises or the listing breaks on its first
    fetch, and otherwise the entries of the posts the listing had
    yielded; and a run of [get_reddit_recommendations] that issues this
    query among others returns, its data being the results of the queries
    before it, what this query returned, and the results of the queries
    after it. *)
Theorem C4_search_failure_is_reported
    (lw : Lowering) (L : Type) (reddit : Reddit.t) (query subreddit_name : string)
    (max_posts max_comments : Z) (subreddit : Subreddit.t) (e : exn) :
  Reddit.subreddit reddit subreddit_name = Ok subreddit ->
  search_fails subreddit query max_posts e ->
  uncaught (search_end subreddit query max_posts max_comments) = false ->
  (forall w : World L,
     search_reddit_for_recommendations reddit query subreddit_name max_posts max_comments w
     = (Ok (query_result reddit subreddit_name max_posts max_comments query),
        printed w ["   Error searching Reddit: " ++ str_of_exn e])) /\
  (Subreddit.search subreddit query max_posts = Raise e \/
   Subreddit.search subreddit query max_posts = Ok (Broken e) ->
   query_result reddit subreddit_name max_posts max_comments query = []) /\
  (forall search_results,
     Subreddit.search subreddit query max_posts = Ok search_results ->
     query_result reddit subreddit_name max_posts max_comments query
     = flat_map (post_entry max_comments) (processed search_results)) /\
  (forall (so : SetOrder) (tracks_data : list Track) (num_top_tracks num_top_artists : Z)
          (before after : list string) (w : World L),
     queries (top_tracks tracks_data num_top_tracks) (all_artists tracks_data num_top_artists)
     = (before ++ query :: after)%list ->
     (forall q, In q (before ++ after)%list ->
                uncaught (search_end subreddit q max_posts max_comments) = false) ->
     exists res w',
       get_reddit_recommendations reddit tracks_data subreddit_name
         max_posts max_comments num_top_tracks num_top_artists w
       = (Ok res, w') /\
       Result.all_reddit_data res
       = (flat_map (query_result reddit subreddit_name max_posts max_comments) before
          ++ query_result reddit subreddit_name max_posts max_comments query
          ++ flat_map (query_result reddit subreddit_name max_posts max_comments) after)%list).
Proof.
  intros Hs Hfail U. split; [| split; [| split]].
  - intros w. apply (search_failure_run L _ _ _ _ _ subreddit e w Hs Hfail U).
  - intros [Hq | Hq]; rewrite query_result_eq, Hs, Hq; [reflexivity |].
    cbn. now destruct (negb (is_Exception e)).
  - intros search_results Hq. rewrite query_result_eq, Hs, Hq.
    unfold search_end in U. rewrite Hq in U. now rewrite U.
  - intros so tracks_data num_top_tracks num_top_artists before after w Hsplit Hcalm.
    destruct (get_returns so reddit subreddit_name max_posts max_comments
                tracks_data num_top_tracks num_top_artists subreddit w Hs) as [w' Hrun].
    { intros q Hin. rewrite Hsplit in Hin. apply in_app_or in Hin as [Hin | [<- | Hin]];
        [apply Hcalm, in_or_app; now left | exact U | apply Hcalm, in_or_app; now right]. }
    do 2 eexists. split; [exact Hrun |].
    cbn [Result.all_reddit_data]. rewrite <- flat_map_app.
    fold (queries (top_tracks tracks_data num_top_tracks)
                  (all_artists tracks_data num_top_artists)).
    now rewrite Hsplit, flat_map_app.
Qed.

Lemma C4_witness :
  Reddit.subreddit Sample.reddit "music" = Ok Sample.music /\
  search_fails Sample.music (track_query Sample.creep) 20 Sample.boom /\
  uncaught (search_end Sample.music (track_query Sample.creep) 20 30) = false /\
  (forall w : World unit,
     search_reddit_for_recommendations Sample.reddit (track_query Sample.creep) "music" 20 30 w
     = (Ok [], printed w ["   Error searching Reddit: 503"])) /\
  exists res w',
    get_reddit_recommendations (H := last_seen_order) Sample.reddit Sample.playlist
      "music" 20 30 2 1 Sample.quiet
    = (Ok res, w') /\
    Result.all_reddit_data res
    = (flat_map (query_result Sample.reddit "music" 20 30) []
       ++ query_result Sample.reddit "music" 20 30 (track_query Sample.creep)
       ++ flat_map (query_result Sample.reddit "music" 20 30)
            [track_query Sample.teardrop; artist_query "Radiohead"])%list.
Proof.
  assert (H1 : Reddit.subreddit Sample.reddit "music" = Ok Sample.music) by reflexivity.
  assert (H2 : search_fails Sample.music (track_query Sample.creep) 20 Sample.boom)
    by (left; reflexivity).
  assert (H3 : uncaught (search_end Sample.music (track_query Sample.creep) 20 30) = false)
    by reflexivity.
  split; [exact H1 |]. split; [exact H2 |]. split; [exact H3 |].
  pose proof (C4_search_failure_is_reported ascii_only unit Sample.reddit
                (track_query Sample.creep) "music" 20 30 Sample.music Sample.boom H1 H2 H3)
    as (Hcall & _ & _ & Hrun).
  split; [exact Hcall |].
  apply (Hrun last_seen_order Sample.playlist 2 1 []
           [track_query Sample.teardrop; artist_query "Radiohead"] Sample.quiet).
  - reflexivity.
  - intros q [<- | [<- | []]]; reflexivity.
Defined.

(** Nothing escapes from a search of [Sample.music]. *)
Lemma sample_music_calm (query : string) (max_posts : Z) :
  uncaught (search_end Sample.music query max_posts 30) = false.
Proof.
  unfold search_end. cbn [Subreddit.search Sample.music].
  now destruct (String.eqb query (track_query Sample.creep)).
Qed.

(** C5.  With a subreddit handle, and when no exception that is not an
    [Exception] cuts a query short, [get_reddit_recommendations] returns;
    and whenever it returns, its [all_reddit_data] is the results of the
    queries of the seed tracks, in their order, followed by the results
    of the queries of the seed artists, in theirs, nothing being moved,
    added or removed. *)
Theorem C5_all_reddit_data_is_concatenation
    (lw : Lowering) (L : Type) (so : SetOrder) (reddit : Reddit.t) (subreddit_name : string)
    (max_posts max_comments : Z) (tracks_data : list Track)
    (num_top_tracks num_top_artists : Z) (w : World L) :
  (forall subreddit,
     Reddit.subreddit reddit subreddit_name = Ok subreddit ->
     (forall query,
        In query (queries (top_tracks tracks_data num_top_tracks)
                          (all_artists tracks_data num_top_artists)) ->
        uncaught (search_end subreddit query max_posts max_comments) = false) ->
     exists res w',
       get_reddit_recommendations reddit tracks_data subreddit_name
         max_posts max_comments num_top_tracks num_top_artists w
       = (Ok res, w')) /\
  (forall res w',
     get_reddit_recommendations reddit tracks_data subreddit_name
       max_posts max_comments num_top_tracks num_top_artists w
     = (Ok res, w') ->
     Result.top_tracks res = top_tracks tracks_data num_top_tracks /\
     Result.all_artists res = all_artists tracks_data num_top_artists /\
     Result.all_reddit_data res
     = (flat_map (fun track =>
                    query_result reddit subreddit_name max_posts max_comments
                      (track_query track))
                 (Result.top_tracks res)
        ++ flat_map (fun artist =>
                       query_result reddit subreddit_name max_posts max_comments
                         (artist_query artist))
                    (Result.all_artists res))%list).
Proof.
  split.
  - intros subreddit Hs Hcalm.
    destruct (get_returns so reddit subreddit_name max_posts max_comments
                tracks_data num_top_tracks num_top_artists subreddit w Hs Hcalm)
      as [w' Hrun].
    do 2 eexists. exact Hrun.
  - intros res w' Hrun. apply get_result in Hrun. subst res.
    cbn [Result.top_tracks Result.all_artists Result.all_reddit_data].
    repeat split. unfold queries. now rewrite flat_map_app, !flat_map_concat_map, !map_map.
Qed.

Lemma C5_witness :
  (exists res w',
     get_reddit_recommendations (H := last_seen_order) Sample.reddit Sample.playlist
       "music" 20 30 2 1 Sample.quiet
     = (Ok res, w')) /\
  Reddit.subreddit Sample.reddit "music" = Ok Sample.music /\
  (forall query,
     In query (queries (top_tracks Sample.playlist 2)
                       (@all_artists last_seen_order Sample.playlist 1)) ->
     uncaught (search_end Sample.music query 20 30) = false).
Proof.
  assert (H : Reddit.subreddit Sample.reddit "music" = Ok Sample.music) by reflexivity.
  assert (Hcalm : forall query,
            In query (queries (top_tracks Sample.playlist 2)
                              (@all_artists last_seen_order Sample.playlist 1)) ->
            uncaught (search_end Sample.music query 20 30) = false)
    by (intros query _; apply sample_music_calm).
  split; [| split; [exact H | exact Hcalm]].
  exact (proj1 (C5_all_reddit_data_is_concatenation ascii_only unit last_seen_order
                  Sample.reddit "music" 20 30 Sample.playlist 2 1 Sample.quiet)
           Sample.music H Hcalm).
Defined.


(* ================================================================== *)
(** * More about the seed selection                                    *)
(* ================================================================== *)

Section RankingFacts.
Context {A : Type}.
Variable key : A -> Z.

Lemma Descending_app (l1 l2 : list A) :
  Descending key (l1 ++ l2) ->
  Descending key l1 /\
  forall x y, In x l1 -> In y l2 -> key y <= key x.
Proof.
  unfold Descending. induction l1 as [|a l1 IH]; simpl; intros Hs.
  - split; [constructor | contradiction].
  - apply StronglySorted_inv in Hs as [Hs Ha].
    destruct (IH Hs) as [Hl1 Hcross].
    apply Forall_app in Ha as [Ha1 Ha2]. split.
    + now constructor.
    + intros x y [<- | Hx] Hy.
      * rewrite Forall_forall in Ha2. now apply Ha2.
      * now apply Hcross.
Qed.

(** Sorting a list that is in descending order changes nothing. *)
Lemma sorted_reverse_fixed (l : list A) :
  Descending key l -> sorted key true l = l.
Proof.
  intros Hd. apply (StableDescendingSort_unique key l).
  - apply sorted_reverse_spec.
  - repeat split; trivial.
Qed.

End RankingFacts.

Lemma top_tracks_descending (tracks_data : list Track) (num_top_tracks : Z) :
  Descending popularity (top_tracks tracks_data num_top_tracks).
Proof.
  destruct (top_tracks_prefix tracks_data num_top_tracks) as [dropped E].
  destruct (sorted_reverse_spec popularity tracks_data) as (_ & Hd & _).
  rewrite E in Hd. now apply Descending_app in Hd.
Qed.

(** X1.  Whatever the bound, no track that is left out is more popular
    than a seed track: the tracks of the playlist are the seed tracks and
    the tracks left out, and the popularity of a track left out is at most
    that of any seed track. *)
Theorem top_tracks_dominate (tracks_data : list Track) (num_top_tracks : Z) :
  exists left_out,
    Permutation tracks_data (top_tracks tracks_data num_top_tracks ++ left_out) /\
    forall seed other,
      In seed (top_tracks tracks_data num_top_tracks) ->
      In other left_out ->
      popularity other <= popularity seed.
Proof.
  destruct (top_tracks_prefix tracks_data num_top_tracks) as [left_out E].
  destruct (sorted_reverse_spec popularity tracks_data) as (P & Hd & _).
  exists left_out. split; [now rewrite <- E |].
  rewrite E in Hd. now apply Descending_app in Hd.
Qed.

(** X2.  The number of seeds.  For a bound [n >= 0] there are [min n len]
    seed tracks, [len] being the number of tracks, and [min n d] seed
    artists, [d] being the number of distinct artist names; a negative
    bound [n] does not give an empty selection but drops [-n] elements
    from the end, leaving [max 0 (len + n)] tracks and [max 0 (d + n)]
    artists. *)
Theorem seed_counts (so : SetOrder) (tracks_data : list Track) (n : Z) :
  Z.of_nat (List.length (top_tracks tracks_data n))
  = (if 0 <=? n then Z.min n (Z.of_nat (List.length tracks_data))
     else Z.max 0 (Z.of_nat (List.length tracks_data) + n)) /\
  Z.of_nat (List.length (all_artists tracks_data n))
  = (if 0 <=? n then Z.min n (Z.of_nat (distinct_artists tracks_data))
     else Z.max 0 (Z.of_nat (distinct_artists tracks_data) + n)).
Proof.
  destruct (sorted_reverse_spec popularity tracks_data) as (P & _ & _).
  apply Permutation_length in P.
  pose proof (distinct_artists_any_order so tracks_data) as D.
  unfold top_tracks, all_artists, slice_to.
  destruct (0 <=? n) eqn:E; rewrite !length_firstn, <- P, D.
  - apply Z.leb_le in E. split; lia.
  - apply Z.leb_gt in E. split; lia.
Qed.

(** X3.  Selecting seeds among seeds: for bounds [n, m >= 0], the [m] top
    tracks of the [n] top tracks of a playlist are its [min n m] top
    tracks; in particular selecting twice with the same bound changes
    nothing. *)
Theorem top_tracks_of_top_tracks (tracks_data : list Track) (n m : Z) :
  0 <= n -> 0 <= m ->
  top_tracks (top_tracks tracks_data n) m = top_tracks tracks_data (Z.min n m).
Proof.
  intros Hn Hm. unfold top_tracks at 1.
  rewrite (sorted_reverse_fixed popularity _ (top_tracks_descending tracks_data n)).
  unfold top_tracks. rewrite !slice_to_nonneg by lia.
  rewrite firstn_firstn. f_equal. lia.
Qed.

Lemma top_tracks_of_top_tracks_witness :
  0 <= 2 /\ 0 <= 5 /\
  top_tracks (top_tracks Sample.playlist 2) 5 = top_tracks Sample.playlist (Z.min 2 5).
Proof.
  assert (H2 : 0 <= 2) by lia. assert (H5 : 0 <= 5) by lia.
  repeat (split; [assumption |]).
  exact (top_tracks_of_top_tracks Sample.playlist 2 5 H2 H5).
Defined.


(* ================================================================== *)
(** * More about [get_reddit_recommendations]                          *)
(* ================================================================== *)

Lemma list_of_set_nil (so : SetOrder) : list_of_set [] = [].
Proof.
  destruct (list_of_set []) as [|x l] eqn:E; trivial.
  assert (H : In x (list_of_set [])) by (rewrite E; now left).
  apply (proj1 (list_of_set_In [] x)) in H. destruct H.
Qed.

(** X4.  Nothing to search for.  With an empty playlist, or with both
    bounds at zero, the function issues no query: it returns empty data,
    no seed track and no seed artist, whatever the Reddit client would
    have answered, a client that cannot make a subreddit handle included. *)
Theorem no_seeds_no_queries
    (lw : Lowering) (L : Type) (so : SetOrder) (reddit : Reddit.t) (subreddit_name : string)
    (max_posts max_comments : Z) (tracks_data : list Track)
    (num_top_tracks num_top_artists : Z) (w : World L) :
  tracks_data = [] \/ (num_top_tracks = 0 /\ num_top_artists = 0) ->
  exists w',
    get_reddit_recommendations reddit tracks_data subreddit_name
      max_posts max_comments num_top_tracks num_top_artists w
    = (Ok {| Result.all_reddit_data := [];
             Result.top_tracks := [];
             Result.all_artists := [] |},
       w').
Proof.
  intros H. apply get_without_seeds.
  - destruct H as [-> | [-> _]]; unfold top_tracks, slice_to; simpl.
    + destruct (0 <=? num_top_tracks); now rewrite ?firstn_nil.
    + reflexivity.
  - destruct H as [-> | [_ ->]]; unfold all_artists, slice_to; simpl.
    + rewrite list_of_set_nil. destruct (0 <=? num_top_artists); now rewrite ?firstn_nil.
    + reflexivity.
Qed.

Lemma no_seeds_no_queries_witness :
  (Sample.playlist = [] \/ (0 = 0 /\ 0 = 0)) /\
  exists w',
    get_reddit_recommendations (H := last_seen_order) Sample.offline Sample.playlist
      "music" 20 30 0 0 Sample.quiet
    = (Ok {| Result.all_reddit_data := [];
             Result.top_tracks := [];
             Result.all_artists := [] |},
       w').
Proof.
  assert (H : Sample.playlist = [] \/ (0 = 0 /\ 0 = 0)) by (right; split; reflexivity).
  split; [exact H |].
  exact (no_seeds_no_queries ascii_only unit last_seen_order Sample.offline "music" 20 30
           Sample.playlist 0 0 Sample.quiet H).
Defined.

(** X5.  The function has no handler of its own.  When the subreddit
    handle cannot be made and there is at least one seed track or seed
    artist, the exception of the first query leaves the function, and no
    result is returned. *)
Theorem handle_failure_aborts_run
    (lw : Lowering) (L : Type) (so : SetOrder) (reddit : Reddit.t) (subreddit_name : string)
    (max_posts max_comments : Z) (tracks_data : list Track)
    (num_top_tracks num_top_artists : Z) (e : exn) (w : World L) :
  Reddit.subreddit reddit subreddit_name = Raise e ->
  top_tracks tracks_data num_top_tracks <> [] \/
  all_artists tracks_data num_top_artists <> [] ->
  exists w',
    get_reddit_recommendations reddit tracks_data subreddit_name
      max_posts max_comments num_top_tracks num_top_artists w
    = (Raise e, w').
Proof.
  intros Hs Hseed. apply get_raises; trivial.
  unfold queries. intros Hq. apply app_eq_nil in Hq as [Ht Ha].
  apply map_eq_nil in Ht, Ha. tauto.
Qed.

Lemma handle_failure_aborts_run_witness :
  Reddit.subreddit Sample.offline "music" = Raise Sample.boom /\
  (top_tracks Sample.playlist 1 <> [] \/
   @all_artists last_seen_order Sample.playlist 0 <> []) /\
  exists w',
    get_reddit_recommendations (H := last_seen_order) Sample.offline Sample.playlist
      "music" 20 30 1 0 Sample.quiet
    = (Raise Sample.boom, w').
Proof.
  assert (H1 : Reddit.subreddit Sample.offline "music" = Raise Sample.boom) by reflexivity.
  assert (H2 : top_tracks Sample.playlist 1 <> [] \/
               @all_artists last_seen_order Sample.playlist 0 <> [])
    by (left; discriminate).
  repeat (split; [assumption |]).
  exact (handle_failure_aborts_run ascii_only unit last_seen_order Sample.offline "music"
           20 30 Sample.playlist 1 0 Sample.boom Sample.quiet H1 H2).
Defined.

(** X24.  Nor does the function stop what the handlers of its callee let
    through.  With a subreddit handle, when an exception that is no
    [Exception] escapes from one of the queries, the function raises and
    returns nothing: what it raises is no [Exception], and it ended one
    of the queries. *)
Theorem interrupt_aborts_run
    (lw : Lowering) (L : Type) (so : SetOrder) (reddit : Reddit.t) (subreddit_name : string)
    (max_posts max_comments : Z) (tracks_data : list Track)
    (num_top_tracks num_top_artists : Z) (subreddit : Subreddit.t) (query : string)
    (w : World L) :
  Reddit.subreddit reddit subreddit_name = Ok subreddit ->
  In query (queries (top_tracks tracks_data num_top_tracks)
                    (all_artists tracks_data num_top_artists)) ->
  uncaught (search_end subreddit query max_posts max_comments) = true ->
  exists e q w',
    get_reddit_recommendations reddit tracks_data subreddit_name
      max_posts max_comments num_top_tracks num_top_artists w
    = (Raise e, w') /\
    is_Exception e = false /\
    In q (queries (top_tracks tracks_data num_top_tracks)
                  (all_artists tracks_data num_top_artists)) /\
    search_end subreddit q max_posts max_comments = Raise e.
Proof.
  intros Hs Hin U.
  exact (get_escapes so reddit subreddit_name max_posts max_comments tracks_data
           num_top_tracks num_top_artists subreddit query w Hs Hin U).
Qed.

Lemma interrupt_aborts_run_witness :
  Reddit.subreddit Sample.stopped "music" = Ok Sample.stopped_music /\
  In (track_query Sample.creep)
     (queries (top_tracks Sample.playlist 1)
              (@all_artists last_seen_order Sample.playlist 0)) /\
  uncaught (search_end Sample.stopped_music (track_query Sample.creep) 20 30) = true /\
  exists e q w',
    get_reddit_recommendations (H := last_seen_order) Sample.stopped Sample.playlist
      "music" 20 30 1 0 Sample.quiet
    = (Raise e, w') /\
    is_Exception e = false /\
    In q (queries (top_tracks Sample.playlist 1)
                  (@all_artists last_seen_order Sample.playlist 0)) /\
    search_end Sample.stopped_music q 20 30 = Raise e.
Proof.
  assert (H1 : Reddit.subreddit Sample.stopped "music" = Ok Sample.stopped_music)
    by reflexivity.
  assert (H2 : In (track_query Sample.creep)
                 (queries (top_tracks Sample.playlist 1)
                          (@all_artists last_seen_order Sample.playlist 0)))
    by (left; reflexivity).
  assert (H3 : uncaught (search_end Sample.stopped_music (track_query Sample.creep) 20 30)
               = true) by reflexivity.
  repeat (split; [assumption |]).
  exact (interrupt_aborts_run ascii_only unit last_seen_order Sample.stopped "music" 20 30
           Sample.playlist 1 0 Sample.stopped_music (track_query Sample.creep)
           Sample.quiet H1 H2 H3).
Defined.

(* ================================================================== *)
(** * More about [search_reddit_for_recommendations]                   *)
(* ================================================================== *)

Section EntryFacts.
Context {lw : Lowering}.

Lemma entries_map_filter (max_comments : Z) (posts : list Submission.t) :
  (forall post, In post posts -> post_end max_comments post = Ok tt) ->
  flat_map (post_entry max_comments) posts
  = map (entry_of max_comments) (filter (kept max_comments) posts).
Proof.
  induction posts as [|post posts IH]; intros Hcalm; [reflexivity |].
  simpl. rewrite post_entry_calm by (apply Hcalm; now left).
  rewrite IH by (intros p Hin; apply Hcalm; now right). unfold kept, entry_of.
  destruct (is_candidate post); simpl; trivial.
  now destruct (truthy _ || _)%bool.
Qed.

Lemma readable_length (cs : list (outcome Comment.t)) :
  (List.length (readable cs) <= List.length cs)%nat.
Proof.
  induction cs as [|[c | e] cs IH]; simpl; lia.
Qed.

Lemma retained_comments_qualify (max_comments : Z) (post : Submission.t)
    (c : CommentData.t) :
  In c (retained_comments max_comments post) ->
  exists kw, In kw comment_keywords /\ Substring kw (lower (CommentData.body c)).
Proof.
  rewrite retained_comments_eq. destruct (is_candidate post); [| contradiction].
  unfold qualifying_comments. rewrite in_map_iff.
  intros [comment [<- Hin]]. apply filter_In in Hin as [_ Hq].
  now apply any_keyword_in_spec.
Qed.

Lemma retained_comments_bounded (max_comments : Z) (post : Submission.t) :
  0 <= max_comments ->
  Z.of_nat (List.length (retained_comments max_comments post)) <= max_comments.
Proof.
  intros Hn. rewrite retained_comments_eq. destruct (is_candidate post); [| exact Hn].
  unfold qualifying_comments. rewrite length_map.
  pose proof (filter_length_le qualifies (readable (examined_comments max_comments post))).
  pose proof (readable_length (examined_comments max_comments post)).
  assert (Z.of_nat (List.length (examined_comments max_comments post)) <= max_comments).
  { unfold examined_comments. destruct (Submission.comments post); [| exact Hn].
    now apply slice_to_length. }
  lia.
Qed.

(** What holds of every entry of a query's result. *)
Lemma entry_invariants (max_comments : Z) (search_results : Listing) (entry : PostData.t) :
  In entry (flat_map (post_entry max_comments) (processed search_results)) ->
  (exists kw, In kw post_keywords /\ Substring kw (entry_text entry)) /\
  (PostData.comments entry <> [] \/
   exists kw, In kw standalone_keywords /\ Substring kw (entry_text entry)) /\
  (forall c, In c (PostData.comments entry) ->
     exists kw, In kw comment_keywords /\ Substring kw (lower (CommentData.body c))) /\
  (0 <= max_comments ->
   Z.of_nat (List.length (PostData.comments entry)) <= max_comments).
Proof.
  intros Hin. apply entry_origin in Hin as (post & _ & Hcand & Hkept & ->).
  change (entry_text (post_data post (retained_comments max_comments post)))
    with (post_text post).
  cbn [PostData.comments post_data]. repeat split.
  - now apply any_keyword_in_spec.
  - apply orb_true_iff in Hkept as [Hc | Hs].
    + left. now destruct (retained_comments max_comments post).
    + right. now apply any_keyword_in_spec.
  - apply retained_comments_qualify.
  - apply retained_comments_bounded.
Qed.

Lemma query_result_entries (reddit : Reddit.t) (subreddit_name : string)
    (max_posts max_comments : Z) (query : string) (entry : PostData.t) :
  In entry (query_result reddit subreddit_name max_posts max_comments query) ->
  exists search_results,
    In entry (flat_map (post_entry max_comments) (processed search_results)).
Proof.
  rewrite query_result_eq.
  destruct (Reddit.subreddit reddit subreddit_name) as [subreddit | e]; [| contradiction].
  destruct (Subreddit.search subreddit query max_posts) as [search_results | e];
    [| contradiction].
  destruct (uncaught (posts_end max_comments search_results)); [contradiction |].
  intros H. now exists search_results.
Qed.

(** When nothing escapes, a search ends with an exception only if it
    fails with it. *)
Lemma search_end_fails (subreddit : Subreddit.t) (query : string)
    (max_posts max_comments : Z) (e : exn) :
  search_end subreddit query max_posts max_comments = Raise e ->
  uncaught (search_end subreddit query max_posts max_comments) = false ->
  search_fails subreddit query max_posts e.
Proof.
  unfold search_end, search_fails.
  destruct (Subreddit.search subreddit query max_posts) as [search_results | e'].
  - intros Hend U. right. exists search_results. split; trivial.
    destruct (posts_end_calm _ _ U) as [<- _]. exact Hend.
  - intros Hend _. left. now injection Hend as ->.
Qed.

End EntryFacts.

(** X6.  The result of a query whose search call answers, in a run that
    no exception other than an [Exception] cuts short, is computed post
    by post: it is the list of the posts the listing yielded before it
    ended or broke, with the posts that fail the tests of lines 62 and 85
    removed and each remaining post replaced by its entry.  So the entries
    come in the order of the listing, a post yielded twice is returned
    twice, and there are never more entries than posts yielded. *)
Theorem search_is_filter_map
    (lw : Lowering) (L : Type) (reddit : Reddit.t) (query subreddit_name : string)
    (max_posts max_comments : Z) (subreddit : Subreddit.t)
    (search_results : Listing) (w : World L) :
  Reddit.subreddit reddit subreddit_name = Ok subreddit ->
  Subreddit.search subreddit query max_posts = Ok search_results ->
  uncaught (posts_end max_comments search_results) = false ->
  exists results w',
    search_reddit_for_recommendations reddit query subreddit_name max_posts max_comments w
    = (Ok results, w') /\
    results = map (entry_of max_comments)
                  (filter (kept max_comments) (processed search_results)) /\
    (List.length results <= List.length (processed search_results))%nat.
Proof.
  intros Hs Hq U. rewrite (search_call_answers _ _ _ _ _ _ _ w Hs Hq U).
  do 2 eexists. split; [reflexivity |].
  rewrite entries_map_filter by (now apply (posts_end_calm _ _ U)). split; trivial.
  rewrite length_map. apply filter_length_le.
Qed.

Lemma search_is_filter_map_witness :
  Reddit.subreddit Sample.reddit "music" = Ok Sample.music /\
  Subreddit.search Sample.music "q" 20 = Ok Sample.listing /\
  uncaught (posts_end 30 Sample.listing) = false /\
  exists results w',
    search_reddit_for_recommendations Sample.reddit "q" "music" 20 30 Sample.quiet
    = (Ok results, w') /\
    results = map (entry_of 30) (filter (kept 30) (processed Sample.listing)) /\
    (List.length results <= List.length (processed Sample.listing))%nat.
Proof.
  assert (H1 : Reddit.subreddit Sample.reddit "music" = Ok Sample.music) by reflexivity.
  assert (H2 : Subreddit.search Sample.music "q" 20 = Ok Sample.listing) by reflexivity.
  assert (H3 : uncaught (posts_end 30 Sample.listing) = false) by reflexivity.
  repeat (split; [assumption |]).
  exact (search_is_filter_map ascii_only unit Sample.reddit "q" "music" 20 30 Sample.music
           Sample.listing Sample.quiet H1 H2 H3).
Defined.

(** X7.  What is never returned.  Every post of a returned list names a
    term of the post lexicon in its own lower-cased title and body; it has
    a comment, or names "recommend" or "similar" there; each of its
    comments names a term of the comment lexicon in its lower-cased body;
    and for a bound [max_comments >= 0] it has at most that many comments. *)
Theorem returned_entries_invariants
    (lw : Lowering) (L : Type) (reddit : Reddit.t) (query subreddit_name : string)
    (max_posts max_comments : Z) (w w' : World L)
    (results : list PostData.t) (entry : PostData.t) :
  search_reddit_for_recommendations reddit query subreddit_name max_posts max_comments w
  = (Ok results, w') ->
  In entry results ->
  (exists kw, In kw post_keywords /\ Substring kw (entry_text entry)) /\
  (PostData.comments entry <> [] \/
   exists kw, In kw standalone_keywords /\ Substring kw (entry_text entry)) /\
  (forall c, In c (PostData.comments entry) ->
     exists kw, In kw comment_keywords /\ Substring kw (lower (CommentData.body c))) /\
  (0 <= max_comments ->
   Z.of_nat (List.length (PostData.comments entry)) <= max_comments).
Proof.
  intros Hrun Hentry.
  destruct (returned_entries _ _ _ _ _ _ _ _ _ _ Hrun Hentry)
    as (subreddit & search_results & _ & _ & Hflat).
  now apply (entry_invariants max_comments search_results).
Qed.

Lemma returned_entries_invariants_witness :
  search_reddit_for_recommendations Sample.reddit "q" "music" 20 30 Sample.quiet
  = (Ok [post_data Sample.check_out [comment_data Sample.try_this];
         post_data Sample.recommend_me []],
     Sample.quiet) /\
  In (post_data Sample.recommend_me [])
     [post_data Sample.check_out [comment_data Sample.try_this];
      post_data Sample.recommend_me []] /\
  (PostData.comments (post_data Sample.recommend_me []) <> [] \/
   exists kw, In kw standalone_keywords
              /\ Substring kw (entry_text (post_data Sample.recommend_me []))).
Proof.
  assert (H1 : search_reddit_for_recommendations Sample.reddit "q" "music" 20 30 Sample.quiet
               = (Ok [post_data Sample.check_out [comment_data Sample.try_this];
                      post_data Sample.recommend_me []],
                  Sample.quiet)) by reflexivity.
  assert (H2 : In (post_data Sample.recommend_me [])
                 [post_data Sample.check_out [comment_data Sample.try_this];
                  post_data Sample.recommend_me []]) by (right; left; reflexivity).
  repeat (split; [assumption |]).
  exact (proj1 (proj2 (returned_entries_invariants ascii_only unit Sample.reddit "q" "music"
                         20 30 Sample.quiet Sample.quiet _ _ H1 H2))).
Defined.

(** X8.  What reaches the caller of [get_reddit_recommendations].  Every
    entry of the returned [all_reddit_data] was returned for the query of
    a seed track or of a seed artist, names a term of the post lexicon in
    its lower-cased title and body, has a comment or names "recommend" or
    "similar" there, and holds only comments that name a term of the
    comment lexicon. *)
Theorem all_reddit_data_invariants
    (lw : Lowering) (L : Type) (so : SetOrder) (reddit : Reddit.t) (subreddit_name : string)
    (max_posts max_comments : Z) (tracks_data : list Track)
    (num_top_tracks num_top_artists : Z) (w w' : World L)
    (res : Result.t) (entry : PostData.t) :
  get_reddit_recommendations reddit tracks_data subreddit_name
    max_posts max_comments num_top_tracks num_top_artists w
  = (Ok res, w') ->
  In entry (Result.all_reddit_data res) ->
  (exists query,
     In query (queries (Result.top_tracks res) (Result.all_artists res)) /\
     In entry (query_result reddit subreddit_name max_posts max_comments query)) /\
  (exists kw, In kw post_keywords /\ Substring kw (entry_text entry)) /\
  (PostData.comments entry <> [] \/
   exists kw, In kw standalone_keywords /\ Substring kw (entry_text entry)) /\
  (forall c, In c (PostData.comments entry) ->
     exists kw, In kw comment_keywords /\ Substring kw (lower (CommentData.body c))).
Proof.
  intros Hrun Hentry. apply get_result in Hrun. subst res.
  cbn [Result.all_reddit_data Result.top_tracks Result.all_artists] in *.
  apply in_flat_map in Hentry as [query [Hq Hin]].
  split; [now exists query |].
  destruct (query_result_entries _ _ _ _ _ _ Hin) as [search_results Hflat].
  destruct (entry_invariants _ _ _ Hflat) as (H1 & H2 & H3 & _). now repeat split.
Qed.

Lemma all_reddit_data_invariants_witness :
  exists res entry,
    get_reddit_recommendations (H := last_seen_order) Sample.reddit Sample.playlist
      "music" 20 30 2 0 Sample.quiet
    = (Ok res, printed Sample.quiet
                 (stdout (snd (get_reddit_recommendations (H := last_seen_order)
                                 Sample.reddit Sample.playlist "music" 20 30 2 0
                                 Sample.quiet)))) /\
    In entry (Result.all_reddit_data res) /\
    exists query,
      In query (queries (Result.top_tracks res) (Result.all_artists res)) /\
      In entry (query_result Sample.reddit "music" 20 30 query).
Proof.
  eexists. exists (post_data Sample.recommend_me []).
  assert (H1 : get_reddit_recommendations (H := last_seen_order) Sample.reddit Sample.playlist
                 "music" 20 30 2 0 Sample.quiet
               = (Ok {| Result.all_reddit_data :=
                          [post_data Sample.check_out [comment_data Sample.try_this];
                           post_data Sample.recommend_me []];
                        Result.top_tracks := [Sample.creep; Sample.teardrop];
                        Result.all_artists := [] |},
                  printed Sample.quiet
                    (stdout (snd (get_reddit_recommendations (H := last_seen_order)
                                    Sample.reddit Sample.playlist "music" 20 30 2 0
                                    Sample.quiet))))) by reflexivity.
  assert (H2 : In (post_data Sample.recommend_me [])
                 [post_data Sample.check_out [comment_data Sample.try_this];
                  post_data Sample.recommend_me []]) by (right; left; reflexivity).
  split; [exact H1 |]. split; [exact H2 |].
  exact (proj1 (all_reddit_data_invariants ascii_only unit last_seen_order Sample.reddit
                  "music" 20 30 Sample.playlist 2 0 Sample.quiet _ _ _ H1 H2)).
Defined.

Section BoundFacts.
Context {lw : Lowering}.

Lemma firstn_Prefix {A : Type} (m m' : nat) (l : list A) :
  (m <= m')%nat -> Prefix (firstn m l) (firstn m' l).
Proof.
  intros Hle. exists (skipn m (firstn m' l)).
  rewrite <- (firstn_skipn m (firstn m' l)) at 1.
  rewrite firstn_firstn. now replace (Nat.min m m') with m by lia.
Qed.

Lemma readable_Prefix (cs more : list (outcome Comment.t)) :
  Prefix (readable cs) (readable (cs ++ more)).
Proof.
  induction cs as [|[c | e] cs [r IH]]; simpl.
  - now exists (readable more).
  - exists r. now rewrite IH.
  - now exists [].
Qed.

Lemma examined_comments_Prefix (m m' : Z) (post : Submission.t) :
  0 <= m <= m' ->
  Prefix (examined_comments m post) (examined_comments m' post).
Proof.
  intros H. unfold examined_comments.
  destruct (Submission.comments post) as [forest | e]; [| now exists []].
  rewrite !slice_to_nonneg by lia. apply firstn_Prefix. lia.
Qed.

Lemma retained_comments_Prefix (m m' : Z) (post : Submission.t) :
  0 <= m <= m' ->
  Prefix (retained_comments m post) (retained_comments m' post).
Proof.
  intros H. rewrite !retained_comments_eq.
  destruct (is_candidate post); [| now exists []].
  unfold qualifying_comments.
  destruct (examined_comments_Prefix m m' post H) as [more ->].
  destruct (readable_Prefix (examined_comments m post) more) as [r ->].
  exists (map comment_data (filter qualifies r)).
  now rewrite filter_app, map_app.
Qed.

Lemma kept_monotone (m m' : Z) (post : Submission.t) :
  0 <= m <= m' -> kept m post = true -> kept m' post = true.
Proof.
  intros H. unfold kept.
  destruct (retained_comments_Prefix m m' post H) as [more ->].
  destruct (is_candidate post); cbn [andb]; trivial.
  destruct (any_keyword_in standalone_keywords (post_text post));
    rewrite ?orb_true_r, ?orb_false_r; trivial.
  now destruct (retained_comments m post).
Qed.

Lemma filter_length_monotone {A : Type} (f g : A -> bool) (l : list A) :
  (forall x, f x = true -> g x = true) ->
  (List.length (filter f l) <= List.length (filter g l))%nat.
Proof.
  intros Hfg. induction l as [|x l IH]; simpl; trivial.
  destruct (f x) eqn:Ef.
  - rewrite (Hfg x Ef). simpl. lia.
  - destruct (g x); simpl; lia.
Qed.

(** A post that is appended passed the test of line 85. *)
Lemma post_entry_kept (m : Z) (post : Submission.t) :
  post_entry m post <> [] -> kept m post = true.
Proof.
  rewrite post_entry_eq. unfold kept.
  destruct (is_candidate post); cbn [andb]; [| congruence].
  destruct (uncaught (comments_end m post)); cbn [negb]; [congruence |].
  destruct (truthy _ || _)%bool; congruence.
Qed.

Lemma kept_post_entry (m : Z) (post : Submission.t) :
  uncaught (comments_end m post) = false -> kept m post = true -> post_entry m post <> [].
Proof.
  intros U. rewrite post_entry_eq, U. unfold kept.
  destruct (is_candidate post); cbn [andb negb]; [| discriminate].
  intros ->. discriminate.
Qed.

End BoundFacts.

(** X9.  Raising the comment bound loses nothing, unless an exception
    that is no [Exception] is met on the way.  For bounds [0 <= m <= m'],
    the comments retained for a post under [m] are the first of those
    retained under [m']; a post kept under [m] is kept under [m'] when no
    such exception leaves its comments under [m']; and a query returns at
    least as many posts under [m'] as under [m] when none cuts it short
    under [m']. *)
Theorem max_comments_monotone
    (lw : Lowering) (reddit : Reddit.t) (subreddit_name query : string) (max_posts m m' : Z) :
  0 <= m <= m' ->
  (forall post, Prefix (retained_comments m post) (retained_comments m' post)) /\
  (forall post,
     uncaught (comments_end m' post) = false ->
     post_entry m post <> [] -> post_entry m' post <> []) /\
  ((forall subreddit,
      Reddit.subreddit reddit subreddit_name = Ok subreddit ->
      uncaught (search_end subreddit query max_posts m') = false) ->
   (List.length (query_result reddit subreddit_name max_posts m query)
    <= List.length (query_result reddit subreddit_name max_posts m' query))%nat).
Proof.
  intros H. split; [| split].
  - intros post. now apply retained_comments_Prefix.
  - intros post U Hm. apply (kept_post_entry _ _ U).
    apply (kept_monotone m m' post H). now apply post_entry_kept.
  - intros Hcalm. rewrite !query_result_eq.
    destruct (Reddit.subreddit reddit subreddit_name) as [subreddit | e]; [| trivial].
    specialize (Hcalm subreddit eq_refl). unfold search_end in Hcalm.
    destruct (Subreddit.search subreddit query max_posts) as [search_results | e]; [| trivial].
    rewrite Hcalm.
    destruct (uncaught (posts_end m search_results)) eqn:U; [cbn; lia |].
    rewrite !entries_map_filter by (now apply posts_end_calm).
    rewrite !length_map.
    apply filter_length_monotone. intros post. now apply kept_monotone.
Qed.

Lemma max_comments_monotone_witness :
  0 <= 1 <= 30 /\
  Prefix (retained_comments 1 Sample.fans) (retained_comments 30 Sample.fans) /\
  uncaught (comments_end 30 Sample.fans) = false /\
  (post_entry 1 Sample.fans <> [] -> post_entry 30 Sample.fans <> []).
Proof.
  assert (H : 0 <= 1 <= 30) by lia.
  assert (U : uncaught (comments_end 30 Sample.fans) = false) by reflexivity.
  pose proof (max_comments_monotone ascii_only Sample.reddit "music" "q" 20 1 30 H)
    as (H1 & H2 & _).
  split; [exact H |]. split; [apply H1 |]. split; [exact U | now apply H2].
Defined.

Lemma retained_comments_zero {lw : Lowering} (post : Submission.t) :
  retained_comments 0 post = [].
Proof.
  pose proof (retained_comments_bounded 0 post (Z.le_refl 0)) as H.
  destruct (retained_comments 0 post); trivial. simpl in H. lia.
Qed.

(** X10.  The bound zero.  With [max_comments = 0] no comment is retained,
    and a query whose search call answers, in a run that no exception
    other than an [Exception] cuts short, returns exactly the posts of the
    listing whose lower-cased title and body contain "recommend" or
    "similar", each with an empty comment list. *)
Theorem max_comments_zero
    (lw : Lowering) (L : Type) (reddit : Reddit.t) (query subreddit_name : string)
    (max_posts : Z) (subreddit : Subreddit.t) (search_results : Listing) (w : World L) :
  Reddit.subreddit reddit subreddit_name = Ok subreddit ->
  Subreddit.search subreddit query max_posts = Ok search_results ->
  uncaught (posts_end 0 search_results) = false ->
  exists w',
    search_reddit_for_recommendations reddit query subreddit_name max_posts 0 w
    = (Ok (map (fun post => post_data post [])
               (filter (fun post => any_keyword_in standalone_keywords (post_text post))
                       (processed search_results))),
       w').
Proof.
  intros Hs Hq U. rewrite (search_call_answers _ _ _ _ _ _ _ w Hs Hq U).
  eexists. f_equal. f_equal. rewrite entries_map_filter by (now apply posts_end_calm).
  rewrite (filter_ext (kept 0)
             (fun post => any_keyword_in standalone_keywords (post_text post))).
  - apply map_ext. intros post. unfold entry_of. now rewrite retained_comments_zero.
  - intros post. unfold kept. rewrite retained_comments_zero. cbn [truthy orb].
    destruct (any_keyword_in standalone_keywords (post_text post)) eqn:E.
    + unfold is_candidate. now rewrite (standalone_is_candidate _ E).
    + apply andb_false_r.
Qed.

Lemma max_comments_zero_witness :
  Reddit.subreddit Sample.reddit "music" = Ok Sample.music /\
  Subreddit.search Sample.music "q" 20 = Ok Sample.listing /\
  uncaught (posts_end 0 Sample.listing) = false /\
  exists w',
    search_reddit_for_recommendations Sample.reddit "q" "music" 20 0 Sample.quiet
    = (Ok (map (fun post => post_data post [])
               (filter (fun post => any_keyword_in standalone_keywords (post_text post))
                       (processed Sample.listing))),
       w').
Proof.
  assert (H1 : Reddit.subreddit Sample.reddit "music" = Ok Sample.music) by reflexivity.
  assert (H2 : Subreddit.search Sample.music "q" 20 = Ok Sample.listing) by reflexivity.
  assert (H3 : uncaught (posts_end 0 Sample.listing) = false) by reflexivity.
  repeat (split; [assumption |]).
  exact (max_comments_zero ascii_only unit Sample.reddit "q" "music" 20 Sample.music
           Sample.listing Sample.quiet H1 H2 H3).
Defined.

(** X11.  What a query prints.  Once the subreddit handle is made, and
    when no exception other than an [Exception] is raised, the function
    changes nothing of its caller but the output, to which it adds one
    line, the error report, when the search fails, and nothing otherwise:
    a failure to fetch or to read comments leaves no trace in the
    output. *)
Theorem search_output
    (lw : Lowering) (L : Type) (reddit : Reddit.t) (query subreddit_name : string)
    (max_posts max_comments : Z) (subreddit : Subreddit.t) (w : World L) :
  Reddit.subreddit reddit subreddit_name = Ok subreddit ->
  uncaught (search_end subreddit query max_posts max_comments) = false ->
  exists results w',
    search_reddit_for_recommendations reddit query subreddit_name max_posts max_comments w
    = (Ok results, w') /\
    locals w' = locals w /\
    (forall e, search_fails subreddit query max_posts e ->
               stdout w' = (stdout w ++ [error_report e])%list) /\
    ((forall e, ~ search_fails subreddit query max_posts e) -> stdout w' = stdout w).
Proof.
  intros Hs U. rewrite (search_calm _ _ _ _ _ _ w Hs U).
  do 2 eexists. split; [reflexivity |]. split; [reflexivity |]. split.
  - intros e Hfail. destruct (search_fails_end _ _ _ _ _ Hfail U) as [-> _]. reflexivity.
  - intros Hno.
    destruct (search_end subreddit query max_posts max_comments) as [[] | e] eqn:Hend.
    + cbn. apply app_nil_r.
    + elim (Hno e). apply (search_end_fails _ _ _ max_comments); trivial. now rewrite Hend.
Qed.

Lemma search_output_witness :
  Reddit.subreddit Sample.reddit "music" = Ok Sample.music /\
  uncaught (search_end Sample.music "q" 20 30) = false /\
  exists results w',
    search_reddit_for_recommendations Sample.reddit "q" "music" 20 30 Sample.quiet
    = (Ok results, w') /\
    locals w' = locals Sample.quiet.
Proof.
  assert (H : Reddit.subreddit Sample.reddit "music" = Ok Sample.music) by reflexivity.
  assert (U : uncaught (search_end Sample.music "q" 20 30) = false) by reflexivity.
  split; [exact H |]. split; [exact U |].
  destruct (search_output ascii_only unit Sample.reddit "q" "music" 20 30 Sample.music
              Sample.quiet H U)
    as (results & w' & H1 & H2 & _).
  now exists results, w'.
Defined.

Section CaseFacts.
Context {lw : Lowering}.

Lemma string_app_assoc (s1 s2 s3 : string) : (s1 ++ s2) ++ s3 = s1 ++ s2 ++ s3.
Proof. induction s1 as [|c s1 IH]; simpl; [reflexivity | now rewrite IH]. Qed.


Lemma plain_app (s1 s2 : string) :
  plain s1 = true -> plain s2 = true -> plain (s1 ++ s2) = true.
Proof.
  intros H1 H2. induction s1 as [|c s1 IH]; simpl in *; trivial.
  apply andb_true_iff in H1 as [Hc H1]. now rewrite Hc, IH.
Qed.

(** On a post written in plain ASCII, every lowering gives the text that
    lowering letter by letter gives. *)
Lemma post_text_plain (post : Submission.t) :
  plain (Submission.title post) = true ->
  plain (Submission.selftext post) = true ->
  post_text post = ascii_lower (Submission.title post ++ " " ++ Submission.selftext post).
Proof.
  intros Ht Hb. unfold post_text. apply lower_plain.
  apply plain_app; [exact Ht | exact Hb].
Qed.

(** On plain ASCII text the two tests are those of the samples, whatever
    the lowering. *)
Lemma is_candidate_plain (post : Submission.t) :
  plain (Submission.title post) = true ->
  plain (Submission.selftext post) = true ->
  is_candidate post = @is_candidate ascii_only post.
Proof.
  intros Ht Hb. unfold is_candidate. now rewrite (post_text_plain post Ht Hb).
Qed.

Lemma qualifies_plain (comment : Comment.t) :
  plain (Comment.body comment) = true ->
  qualifies comment = @qualifies ascii_only comment.
Proof.
  intros Hb. unfold qualifies. now rewrite (lower_plain _ Hb).
Qed.




End CaseFacts.



(** X13.  A term may straddle title and body.  The text searched is the
    title, one space and the body: a post whose lower-cased title ends
    with the first part of a term of the post lexicon and whose lower-cased
    body begins with the part after the space is a mining candidate,
    though neither its title nor its body need contain the term. *)
Theorem keyword_across_title_and_body
    (lw : Lowering) (post : Submission.t) (first second before after : string) :
  In (first ++ " " ++ second) post_keywords ->
  lower (Submission.title post) = before ++ first ->
  lower (Submission.selftext post) = second ++ after ->
  is_candidate post = true.
Proof.
  intros Hin Ht Hb. apply any_keyword_in_spec. exists (first ++ " " ++ second).
  split; trivial. unfold post_text. rewrite lower_words, Ht, Hb.
  exists before, after. simpl. now rewrite !string_app_assoc.
Qed.

Lemma keyword_across_title_and_body_witness :
  In ("check" ++ " " ++ "out") post_keywords /\
  is_candidate {| Submission.title := "Sound check"; Submission.selftext := "Out now";
                  Submission.score := 1; Submission.permalink := "/r/music/comments/f6/";
                  Submission.comments := Ok [] |} = true.
Proof.
  assert (H : In ("check" ++ " " ++ "out") post_keywords)
    by (simpl; right; right; right; left; reflexivity).
  split; [exact H |].
  exact (keyword_across_title_and_body ascii_only
           {| Submission.title := "Sound check"; Submission.selftext := "Out now";
              Submission.score := 1; Submission.permalink := "/r/music/comments/f6/";
              Submission.comments := Ok [] |}
           "check" "out" "sound " " now" H eq_refl eq_refl).
Defined.


(* ================================================================== *)
(** * The endpoints                                                    *)
(* ================================================================== *)

Section CaptureFacts.

Lemma content_captured (p : Process) (lines : list string) (file : nat) :
  file <> next_file p -> content file (captured p lines) = content file p.
Proof.
  intros Hne. unfold content, captured. cbn [written].
  rewrite filter_app, map_app.
  replace (filter (fun entry => Nat.eqb (fst entry) file) (map (pair (next_file p)) lines))
    with (@nil (nat * string)); [now rewrite app_nil_r |].
  induction lines as [|line lines IH]; simpl; trivial.
  destruct (Nat.eqb_spec (next_file p) file); [congruence | exact IH].
Qed.

Lemma run_pipeline_quietly (get_recommendations : Pipeline) (args : Args.t) (p : Process) :
  Flask.quietly get_recommendations args p
  = (snd (get_recommendations args), captured p (fst (get_recommendations args))).
Proof.
  unfold Flask.quietly, try_finally, run_pipeline, bind, get_stdout, StringIO, set_stdout,
    print_lines, modify, call, captured.
  destruct (get_recommendations args) as [lines [result | e]]; reflexivity.
Qed.

End CaptureFacts.

Section FlaskFacts.
Context {I : Interpreter}.
Variable get_recommendations : Pipeline.

Lemma lookup_Some_truthy (key : string) (entries : list (string * val)) (v : val) :
  lookup key entries = Some v -> truthy entries = true.
Proof. destruct entries; [discriminate | reflexivity]. Qed.

Lemma read_args_object (entries : list (string * val)) (url : val) (p : Process) :
  lookup "playlist_url" entries = Some url ->
  Flask.read_args (PDict entries) p = (Ok (Flask.args_of url entries), p).
Proof.
  intros Hurl. unfold Flask.read_args, bind, call, subscript, dict_get, ret.
  now rewrite Hurl.
Qed.

(** The view on a body that is an object holding [playlist_url]. *)
Lemma flask_object_run (entries : list (string * val)) (url : val) (p : Process) :
  lookup "playlist_url" entries = Some url ->
  Flask.get_song_recommendations get_recommendations (Ok (PDict entries)) p
  = (match snd (get_recommendations (Flask.args_of url entries)) with
     | Ok result =>
         Ok match subscript (Recs.playlist_data result) "name" with
            | Ok name => Flask.success name result
            | Raise e => Flask.server_error e
            end
     | Raise e => if is_Exception e then Ok (Flask.server_error e) else Raise e
     end,
     captured p (fst (get_recommendations (Flask.args_of url entries)))).
Proof.
  intros Hurl. unfold Flask.get_song_recommendations, try_except.
  unfold bind at 1. unfold call at 1.
  unfold bind at 1. unfold Flask.url_missing. cbn [truth].
  rewrite (lookup_Some_truthy _ _ _ Hurl). cbn [negb].
  unfold bind at 1. unfold call at 1, contains. rewrite Hurl. cbn [ret negb].
  unfold bind at 1. rewrite (read_args_object _ _ _ Hurl).
  unfold bind at 1. rewrite run_pipeline_quietly.
  destruct (snd (get_recommendations (Flask.args_of url entries))) as [result | e].
  - unfold bind, call, ret, subscript.
    destruct (Recs.playlist_data result) as [| | | | | | info]; try reflexivity.
    now destruct (lookup "name" info).
  - now destruct (is_Exception e).
Qed.

(** The view on a body that lacks [playlist_url], or on no body. *)
Lemma flask_other_run (request_json : outcome val) (p : Process) :
  (forall entries url,
     request_json = Ok (PDict entries) -> lookup "playlist_url" entries <> Some url) ->
  (exists response,
     Flask.get_song_recommendations get_recommendations request_json p = (Ok response, p) /\
     (response = Flask.playlist_url_required \/ exists e, response = Flask.server_error e)) \/
  (exists e,
     request_json = Raise e /\ is_Exception e = false /\
     Flask.get_song_recommendations get_recommendations request_json p = (Raise e, p)).
Proof.
  intros Hno. unfold Flask.get_song_recommendations, try_except.
  destruct request_json as [data | e].
  - left. unfold bind at 1. unfold call at 1.
    unfold bind at 1. unfold Flask.url_missing.
    destruct (truth data) eqn:Htruth; cbn [negb].
    + unfold bind at 1. unfold call at 1.
      destruct data as [| b | z | f | s | items | entries]; cbn [contains].
      * discriminate Htruth.
      * eexists; split; [reflexivity | right; eauto].
      * eexists; split; [reflexivity | right; eauto].
      * eexists; split; [reflexivity | right; eauto].
      * destruct (str_in "playlist_url" s); cbn [ret negb].
        -- eexists; split; [reflexivity | right; eauto].
        -- eexists; split; [reflexivity | now left].
      * destruct (existsb (is_str "playlist_url") items); cbn [ret negb].
        -- eexists; split; [reflexivity | right; eauto].
        -- eexists; split; [reflexivity | now left].
      * destruct (lookup "playlist_url" entries) as [url |] eqn:Hurl.
        -- elim (Hno entries url eq_refl Hurl).
        -- eexists; split; [reflexivity | now left].
    + cbn [ret]. eexists; split; [reflexivity | now left].
  - unfold bind, call. destruct (is_Exception e) eqn:He.
    + left. eexists; split; [reflexivity | right; eauto].
    + right. exists e. now repeat split.
Qed.

(** A request holds an object with [playlist_url], or it does not. *)
Lemma request_cases (request_json : outcome val) :
  (exists entries url,
     request_json = Ok (PDict entries) /\ lookup "playlist_url" entries = Some url) \/
  (forall entries url,
     request_json = Ok (PDict entries) -> lookup "playlist_url" entries <> Some url).
Proof.
  destruct request_json as [[| | | | | |entries] | e];
    try (right; intros entries' url Heq; discriminate Heq).
  destruct (lookup "playlist_url" entries) as [url |] eqn:Hurl.
  - left. now exists entries, url.
  - right. intros entries' url Heq. injection Heq as <-. now rewrite Hurl.
Qed.

End FlaskFacts.

(** X14.  The Flask view raises no [Exception].  Whatever the request
    holds and whatever [get_recommendations] does, either the view
    returns a JSON object with the status 200, 400 or 500, whose [success]
    field is true exactly when the status is 200; or it lets through an
    exception that is no instance of [Exception], raised by
    [request.get_json] or by [get_recommendations]. *)
Theorem flask_responds_or_lets_through
    (I : Interpreter) (get_recommendations : Pipeline)
    (request_json : outcome val) (p : Process) :
  (exists entries status p',
     Flask.get_song_recommendations get_recommendations request_json p
     = (Ok (PDict entries, status), p') /\
     (status = 200 \/ status = 400 \/ status = 500)%nat /\
     lookup "success" entries = Some (PBool (Nat.eqb status 200))) \/
  (exists e p',
     Flask.get_song_recommendations get_recommendations request_json p = (Raise e, p') /\
     is_Exception e = false /\
     (request_json = Raise e \/ exists args, snd (get_recommendations args) = Raise e)).
Proof.
  destruct (request_cases request_json) as [(entries & url & -> & Hurl) | Hno].
  - rewrite (flask_object_run get_recommendations entries url p Hurl).
    destruct (snd (get_recommendations (Flask.args_of url entries))) as [result | e] eqn:Hr.
    + left. destruct (subscript (Recs.playlist_data result) "name") as [name | e];
        do 3 eexists; (split; [reflexivity |]); split; auto.
    + destruct (is_Exception e) eqn:He.
      * left. do 3 eexists; (split; [reflexivity |]); split; auto.
      * right. do 2 eexists. split; [reflexivity |]. split; [exact He |].
        right. now exists (Flask.args_of url entries).
  - destruct (flask_other_run get_recommendations request_json p Hno)
      as [(response & -> & [-> | [e ->]]) | (e & -> & He & ->)].
    + left. do 3 eexists; (split; [reflexivity |]); split; auto.
    + left. do 3 eexists; (split; [reflexivity |]); split; auto.
    + right. exists e, p. split; [reflexivity |]. split; [exact He | now left].
Qed.

Example flask_lets_interrupt_through :
  Flask.get_song_recommendations (H := Demo.cpython) Demo.stopped (Ok (PDict Demo.body))
    Demo.console
  = (Raise KeyboardInterrupt, captured Demo.console ["SONG RECOMMENDATION SYSTEM"]).
Proof. reflexivity. Qed.

(** X15.  [playlist_url is required].  When the body is null, false, zero,
    empty, or is an object, a list or a string in which [playlist_url]
    does not occur, the view answers 400 with the error
    "playlist_url is required"; [get_recommendations] is not called, and
    [sys.stdout] is not touched. *)
Theorem flask_playlist_url_required
    (I : Interpreter) (get_recommendations : Pipeline) (data : val) (p : Process) :
  truth data = false \/ contains "playlist_url" data = Ok false ->
  Flask.get_song_recommendations get_recommendations (Ok data) p
  = (Ok (PDict [("error", PStr "playlist_url is required"); ("success", PBool false)],
         400%nat),
     p).
Proof.
  intros Hmissing. unfold Flask.get_song_recommendations, try_except.
  unfold bind at 1. unfold call at 1. unfold bind at 1. unfold Flask.url_missing.
  destruct (truth data) eqn:Htruth; cbn [negb].
  - destruct Hmissing as [Hf | Hin]; [discriminate |].
    unfold bind, call. now rewrite Hin.
  - reflexivity.
Qed.

Lemma flask_playlist_url_required_witness :
  (truth (PDict [("subreddit_name", PStr "indieheads")]) = false \/
   @contains Demo.cpython "playlist_url" (PDict [("subreddit_name", PStr "indieheads")])
   = Ok false) /\
  Flask.get_song_recommendations (H := Demo.cpython) Demo.works
    (Ok (PDict [("subreddit_name", PStr "indieheads")])) Demo.console
  = (Ok (PDict [("error", PStr "playlist_url is required"); ("success", PBool false)],
         400%nat),
     Demo.console).
Proof.
  assert (H : truth (PDict [("subreddit_name", PStr "indieheads")]) = false \/
              @contains Demo.cpython "playlist_url"
                (PDict [("subreddit_name", PStr "indieheads")]) = Ok false)
    by (right; reflexivity).
  split; [exact H |].
  exact (flask_playlist_url_required Demo.cpython Demo.works _ Demo.console H).
Defined.

(** X16.  The call the Flask view makes.  For a body that is an object
    holding [playlist_url], [get_recommendations] is called once, with the
    value under each option's key when the key is there, a null or a
    negative number included, and the default of the view when it is not.
    When the call raises an [Exception], the view answers 500 with the
    text of the exception as its error; when it raises something else,
    that leaves the view; when it returns, the view answers 200 with the
    name of the playlist, the recommendations and the counts of tracks,
    Reddit posts and recommendations, or 500 with the text of the
    [KeyError] if the playlist data hold no name. *)
Theorem flask_calls_pipeline
    (I : Interpreter) (get_recommendations : Pipeline)
    (entries : list (string * val)) (url : val) (p : Process) :
  lookup "playlist_url" entries = Some url ->
  (forall e,
     snd (get_recommendations (Flask.args_of url entries)) = Raise e ->
     is_Exception e = true ->
     Flask.get_song_recommendations get_recommendations (Ok (PDict entries)) p
     = (Ok (PDict [("error", PStr (str_of_exn e)); ("success", PBool false)], 500%nat),
        captured p (fst (get_recommendations (Flask.args_of url entries))))) /\
  (forall e,
     snd (get_recommendations (Flask.args_of url entries)) = Raise e ->
     is_Exception e = false ->
     Flask.get_song_recommendations get_recommendations (Ok (PDict entries)) p
     = (Raise e, captured p (fst (get_recommendations (Flask.args_of url entries))))) /\
  (forall result name,
     snd (get_recommendations (Flask.args_of url entries)) = Ok result ->
     lookup "name" match Recs.playlist_data result with
                   | PDict info => info
                   | _ => []
                   end = Some name ->
     Flask.get_song_recommendations get_recommendations (Ok (PDict entries)) p
     = (Ok (PDict
              [("success", PBool true);
               ("playlist_name", name);
               ("recommendations", PList (Recs.final_recommendations result));
               ("metadata",
                PDict
                  [("total_tracks_analyzed",
                    PInt (Z.of_nat (List.length (Recs.tracks_data result))));
                   ("reddit_posts_found",
                    PInt (Z.of_nat (List.length (Recs.reddit_data result))));
                   ("recommendations_requested", Recs.num_requested result);
                   ("recommendations_found", PInt (Z.of_nat (Recs.num_found result)))])],
            200%nat),
        captured p (fst (get_recommendations (Flask.args_of url entries))))) /\
  (forall result info,
     snd (get_recommendations (Flask.args_of url entries)) = Ok result ->
     Recs.playlist_data result = PDict info ->
     lookup "name" info = None ->
     Flask.get_song_recommendations get_recommendations (Ok (PDict entries)) p
     = (Ok (PDict [("error", PStr "'name'"); ("success", PBool false)], 500%nat),
        captured p (fst (get_recommendations (Flask.args_of url entries))))).
Proof.
  intros Hurl. rewrite (flask_object_run get_recommendations entries url p Hurl).
  split; [| split; [| split]].
  - intros e He Hclass. now rewrite He, Hclass.
  - intros e He Hclass. now rewrite He, Hclass.
  - intros result name Hr Hname. rewrite Hr. unfold subscript.
    destruct (Recs.playlist_data result); try discriminate Hname.
    now rewrite Hname.
  - intros result info Hr Hinfo Hname. rewrite Hr, Hinfo. unfold subscript.
    now rewrite Hname.
Qed.

Lemma flask_calls_pipeline_witness :
  lookup "playlist_url" Demo.body = Some Demo.url /\
  Args.num_top_tracks (Flask.args_of Demo.url Demo.body) = PNone /\
  Args.num_top_artists (Flask.args_of Demo.url Demo.body) = PInt 3 /\
  snd (Demo.fails (Flask.args_of Demo.url Demo.body)) = Raise (Exception "Invalid playlist") /\
  is_Exception (Exception "Invalid playlist") = true /\
  Flask.get_song_recommendations (H := Demo.cpython) Demo.fails (Ok (PDict Demo.body))
    Demo.console
  = (Ok (PDict [("error", PStr "Invalid playlist"); ("success", PBool false)], 500%nat),
     captured Demo.console ["SONG RECOMMENDATION SYSTEM"]).
Proof.
  assert (H : lookup "playlist_url" Demo.body = Some Demo.url) by reflexivity.
  assert (He : snd (Demo.fails (Flask.args_of Demo.url Demo.body))
               = Raise (Exception "Invalid playlist")) by reflexivity.
  assert (Hclass : is_Exception (Exception "Invalid playlist") = true) by reflexivity.
  split; [exact H |]. split; [reflexivity |]. split; [reflexivity |]. split; [exact He |].
  split; [exact Hclass |].
  exact (proj1 (flask_calls_pipeline Demo.cpython Demo.fails Demo.body Demo.url
                  Demo.console H) _ He Hclass).
Defined.

(** X17.  The Flask view keeps the output to itself.  Whatever happens,
    an exception that leaves the view included, after the view
    [sys.stdout] is the file it was before, and no file that existed
    before holds a line more: what [get_recommendations] prints goes to a
    [StringIO] that nothing reads. *)
Theorem flask_output_is_discarded
    (I : Interpreter) (get_recommendations : Pipeline)
    (request_json : outcome val) (p : Process) (file : nat) :
  (file < next_file p)%nat ->
  sys_stdout (snd (Flask.get_song_recommendations get_recommendations request_json p))
  = sys_stdout p /\
  content file (snd (Flask.get_song_recommendations get_recommendations request_json p))
  = content file p.
Proof.
  intros Hfile.
  destruct (request_cases request_json) as [(entries & url & -> & Hurl) | Hno].
  - rewrite (flask_object_run get_recommendations entries url p Hurl). cbn [snd].
    split; [reflexivity |]. apply content_captured. lia.
  - destruct (flask_other_run get_recommendations request_json p Hno)
      as [(response & -> & _) | (e & _ & _ & ->)]; now split.
Qed.

Lemma flask_output_is_discarded_witness :
  (0 < next_file Demo.console)%nat /\
  sys_stdout (snd (Flask.get_song_recommendations (H := Demo.cpython) Demo.works
                     (Ok (PDict Demo.body)) Demo.console))
  = sys_stdout Demo.console /\
  content 0 (snd (Flask.get_song_recommendations (H := Demo.cpython) Demo.works
                    (Ok (PDict Demo.body)) Demo.console))
  = content 0 Demo.console.
Proof.
  assert (H : (0 < next_file Demo.console)%nat) by (simpl; lia).
  split; [exact H |].
  exact (flask_output_is_discarded Demo.cpython Demo.works (Ok (PDict Demo.body))
           Demo.console 0%nat H).
Defined.

(** X18.  The body must be an object.  When the body is not a JSON object,
    or cannot be read at all, the view does not call [get_recommendations]
    and does not answer 200: it answers 400 when the body is falsy or does
    not hold [playlist_url], and 500 otherwise, as for a list that holds
    the string [playlist_url] or for a number; or, when
    [request.get_json] raised an exception that is no [Exception], it
    lets that through. *)
Theorem flask_body_must_be_object
    (I : Interpreter) (get_recommendations : Pipeline)
    (request_json : outcome val) (p : Process) :
  (forall entries, request_json <> Ok (PDict entries)) ->
  (exists body status,
     Flask.get_song_recommendations get_recommendations request_json p
     = (Ok (body, status), p) /\
     (status = 400 \/ status = 500)%nat) \/
  (exists e,
     request_json = Raise e /\ is_Exception e = false /\
     Flask.get_song_recommendations get_recommendations request_json p = (Raise e, p)).
Proof.
  intros Hno.
  destruct (flask_other_run get_recommendations request_json p)
    as [(response & -> & [-> | [e ->]]) | Hraise].
  - intros entries url Heq. elim (Hno entries Heq).
  - left. do 2 eexists. split; [reflexivity | now left].
  - left. do 2 eexists. split; [reflexivity | now right].
  - now right.
Qed.

Lemma flask_body_must_be_object_witness :
  (forall entries, Ok (PList [PStr "playlist_url"]) <> Ok (PDict entries)) /\
  ((exists body status,
      Flask.get_song_recommendations (H := Demo.cpython) Demo.works
        (Ok (PList [PStr "playlist_url"])) Demo.console
      = (Ok (body, status), Demo.console) /\
      (status = 400 \/ status = 500)%nat) \/
   (exists e,
      Ok (PList [PStr "playlist_url"]) = Raise e /\ is_Exception e = false /\
      Flask.get_song_recommendations (H := Demo.cpython) Demo.works
        (Ok (PList [PStr "playlist_url"])) Demo.console
      = (Raise e, Demo.console))).
Proof.
  assert (H : forall entries, Ok (PList [PStr "playlist_url"]) <> Ok (PDict entries))
    by (intros entries; discriminate).
  split; [exact H |].
  exact (flask_body_must_be_object Demo.cpython Demo.works _ Demo.console H).
Defined.

(** X19.  The FastAPI path operation never succeeds.  It calls
    [get_recommendations] with the playlist URL and the defaults, and
    awaits what the call returns; the call returns a dictionary, which
    cannot be awaited.  So no request gets a response, and each one runs
    the whole of [get_recommendations] first: when that returns, the
    request ends in an [HTTPException] with the status 500 and the text
    of the [TypeError] of the [await]; when it raises an [Exception], in
    an [HTTPException] with the status 500 and the text of that
    exception; and when it raises something else, that leaves the path
    operation.  [sys.stdout] is set back, and what was printed is in a
    [StringIO] that nothing reads. *)
Theorem fastapi_never_succeeds
    (I : Interpreter) (get_recommendations : Pipeline)
    (validate : FastAPI.RecommendationResponse -> outcome FastAPI.RecommendationResponse)
    (playlist_url : string) (p : Process) :
  FastAPI.get_song_recommendations get_recommendations validate playlist_url p
  = (match snd (get_recommendations (FastAPI.default_args playlist_url)) with
     | Ok _ => FastAPI.HTTPException 500 not_awaitable
     | Raise e =>
         if is_Exception e then FastAPI.HTTPException 500 (str_of_exn e)
         else FastAPI.Propagates e
     end,
     captured p (fst (get_recommendations (FastAPI.default_args playlist_url)))).
Proof.
  unfold FastAPI.get_song_recommendations, FastAPI.quietly, FastAPI.await_dict,
    try_finally, run_pipeline, bind, get_stdout, StringIO, set_stdout, print_lines,
    modify, call, captured.
  destruct (get_recommendations (FastAPI.default_args playlist_url))
    as [lines [result | e]]; [reflexivity |].
  cbn. now destruct (is_Exception e).
Qed.

(* ================================================================== *)
(** * [get_recommendations] ([main.py])                                *)
(* ================================================================== *)

Section ReturnFacts.
Context {L : Type}.

Lemma Returns_ret {A : Type} (a : A) : Returns (L := L) (ret a) a.
Proof. intros w. now exists w. Qed.

Lemma Returns_print (line : string) : Returns (L := L) (print line) tt.
Proof. intros w. eexists. reflexivity. Qed.

Lemma Returns_ext {A : Type} (e : Ext A) (a : A) :
  snd e = Ok a -> Returns (L := L) (ext e) a.
Proof. intros He w. unfold ext. rewrite He. eexists. reflexivity. Qed.

Lemma Raises_ext {A : Type} (e : Ext A) (x : exn) :
  snd e = Raise x -> Raises (L := L) (ext e) x.
Proof. intros He w. unfold ext. rewrite He. eexists. reflexivity. Qed.

Lemma Returns_bind {A B : Type} (m : Py (World L) A) (k : A -> Py (World L) B)
    (a : A) (b : B) :
  Returns m a -> Returns (k a) b -> Returns (bind m k) b.
Proof.
  intros Hm Hk w. unfold bind. destruct (Hm w) as [w1 ->]. apply Hk.
Qed.

Lemma Raises_bind {A B : Type} (m : Py (World L) A) (k : A -> Py (World L) B)
    (a : A) (e : exn) :
  Returns m a -> Raises (k a) e -> Raises (bind m k) e.
Proof.
  intros Hm Hk w. unfold bind. destruct (Hm w) as [w1 ->]. apply Hk.
Qed.

Lemma Raises_now {A B : Type} (m : Py (World L) A) (k : A -> Py (World L) B) (e : exn) :
  Raises m e -> Raises (bind m k) e.
Proof.
  intros Hm w. unfold bind. destruct (Hm w) as [w1 ->]. now exists w1.
Qed.

Lemma Returns_initialize_reddit
    (praw_Reddit : option string -> option string -> option string -> option string ->
                   option string -> outcome Client.t)
    (client_id client_secret username password user_agent : option string)
    (client : Client.t) :
  praw_Reddit client_id client_secret username password user_agent = Ok client ->
  Returns (L := L)
    (initialize_reddit praw_Reddit client_id client_secret username password user_agent)
    client.
Proof.
  intros Hc w. unfold initialize_reddit, bind, call. rewrite Hc. eexists. reflexivity.
Qed.

End ReturnFacts.

Section MainFacts.
Context {L : Type} (so : SetOrder) (lw : Lowering).
Variable getenv : string -> option string.
Variable str_of_float : PyFloat.t -> string.
Variables Spotify OpenAI Info Gpt : Type.
Variable initialize_spotify : option string -> option string -> Ext Spotify.
Variable praw_Reddit :
  option string -> option string -> option string -> option string -> option string ->
  outcome Client.t.
Variable initialize_openai : option string -> Ext OpenAI.
Variable get_playlist_data : Spotify -> string -> Ext (Info * list Track).
Variable analyze_and_recommend :
  OpenAI -> Info -> list PostData.t -> list Track -> string -> Z ->
  string -> PyFloat.t -> Z -> Ext Gpt.
Variable search_spotify_recommendations : Spotify -> Gpt -> Ext (list FinalTrack.t).

Variable a : Main.Params.
Variables (sp : Spotify) (client : Client.t) (openai_client : OpenAI).

Abbreviation run :=
  (Main.get_recommendations (L := L) getenv str_of_float initialize_spotify praw_Reddit
     initialize_openai get_playlist_data analyze_and_recommend
     search_spotify_recommendations a).

(** The three clients are made, each from the credential given or, when
    none or an empty one is given, from the environment. *)
Hypothesis spotify_made :
  snd (initialize_spotify
         (py_or (Main.spotify_client_id a) (getenv "SPOTIFY_CLIENT_ID"))
         (py_or (Main.spotify_client_secret a) (getenv "SPOTIFY_CLIENT_SECRET")))
  = Ok sp.
Hypothesis reddit_made :
  praw_Reddit
    (py_or (Main.reddit_client_id a) (getenv "REDDIT_CLIENT_ID"))
    (py_or (Main.reddit_client_secret a) (getenv "REDDIT_CLIENT_SECRET"))
    (py_or (Main.reddit_username a) (getenv "REDDIT_USERNAME"))
    (py_or (Main.reddit_password a) (getenv "REDDIT_PASSWORD"))
    (py_or (Main.reddit_user_agent a) (getenv "REDDIT_USER_AGENT"))
  = Ok client.
Hypothesis openai_made :
  snd (initialize_openai (py_or (Main.openai_api_key a) (getenv "OPENAI_API_KEY")))
  = Ok openai_client.

Lemma Returns_for_final (idx : nat) (tracks : list FinalTrack.t) :
  Returns (L := L) (Main.for_final idx tracks) tt.
Proof.
  revert idx. induction tracks as [|track rest IH]; intros idx; simpl.
  - apply Returns_ret.
  - repeat (eapply Returns_bind; [apply Returns_print |]).
    eapply Returns_bind.
    { destruct (given (FinalTrack.album_art track));
        [apply Returns_print | apply Returns_ret]. }
    eapply Returns_bind.
    { destruct (given (FinalTrack.preview_url track));
        [apply Returns_print | apply Returns_ret]. }
    eapply Returns_bind; [apply Returns_print | apply IH].
Qed.

Ltac prints := repeat (eapply Returns_bind; [apply Returns_print |]).
Ltac prints_then_raises := repeat (eapply Raises_bind; [apply Returns_print |]).

(** The run up to the fetch of the playlist. *)
Lemma main_until_playlist (e : exn) :
  snd (get_playlist_data sp (Main.playlist_url a)) = Raise e ->
  Raises run e.
Proof.
  intros Hp. unfold Main.get_recommendations. cbv zeta.
  prints_then_raises.
  eapply Raises_bind; [apply Returns_ext, spotify_made |].
  eapply Raises_bind; [apply Returns_initialize_reddit, reddit_made |].
  eapply Raises_bind; [apply Returns_ext, openai_made |].
  prints_then_raises.
  apply Raises_now. now apply Raises_ext.
Qed.

Variables (info : Info) (tracks : list Track).
Hypothesis playlist_fetched :
  snd (get_playlist_data sp (Main.playlist_url a)) = Ok (info, tracks).

Abbreviation top := (top_tracks tracks (Main.num_top_tracks a)).
Abbreviation arts := (all_artists tracks (Main.num_top_artists a)).
Abbreviation mine :=
  (query_result (Client.api client) (Main.subreddit_name a)
     (Main.max_reddit_posts_per_query a) (Main.max_comments_per_post a)).
Abbreviation calm subreddit :=
  (forall query,
     In query (queries top arts) ->
     uncaught (search_end subreddit query (Main.max_reddit_posts_per_query a)
                 (Main.max_comments_per_post a)) = false).

Lemma main_until_reddit (e : exn) :
  Reddit.subreddit (Client.api client) (Main.subreddit_name a) = Raise e ->
  queries top arts <> [] ->
  Raises run e.
Proof.
  intros Hs Hq. unfold Main.get_recommendations. cbv zeta.
  prints_then_raises.
  eapply Raises_bind; [apply Returns_ext, spotify_made |].
  eapply Raises_bind; [apply Returns_initialize_reddit, reddit_made |].
  eapply Raises_bind; [apply Returns_ext, openai_made |].
  prints_then_raises.
  eapply Raises_bind; [apply Returns_ext, playlist_fetched |].
  prints_then_raises.
  apply Raises_now. intros w. cbn [fst snd]. now apply get_raises.
Qed.

Lemma main_returns (subreddit : Subreddit.t) (gpt : Gpt) (final : list FinalTrack.t) :
  Reddit.subreddit (Client.api client) (Main.subreddit_name a) = Ok subreddit ->
  calm subreddit ->
  snd (analyze_and_recommend openai_client info (flat_map mine (queries top arts)) top
         (Main.subreddit_name a) (Main.num_recommendations a) (Main.gpt_model a)
         (Main.gpt_temperature a) (Main.gpt_max_tokens a))
  = Ok gpt ->
  snd (search_spotify_recommendations sp gpt) = Ok final ->
  Returns run
    {| Main.playlist_data := info;
       Main.tracks_data := tracks;
       Main.reddit_data := flat_map mine (queries top arts);
       Main.top_tracks := top;
       Main.top_artists := arts;
       Main.gpt_recommendations := gpt;
       Main.final_recommendations := final;
       Main.subreddit := Main.subreddit_name a;
       Main.num_requested := Main.num_recommendations a;
       Main.num_found := List.length final |}.
Proof.
  intros Hs Hcalm Hg Hf. unfold Main.get_recommendations. cbv zeta.
  prints.
  eapply Returns_bind; [apply Returns_ext, spotify_made |].
  eapply Returns_bind; [apply Returns_initialize_reddit, reddit_made |].
  eapply Returns_bind; [apply Returns_ext, openai_made |].
  prints.
  eapply Returns_bind; [apply Returns_ext, playlist_fetched |].
  prints.
  eapply Returns_bind.
  { intros w. cbn [fst snd]. apply (get_returns so _ _ _ _ _ _ _ subreddit w Hs Hcalm). }
  cbn [fst snd Result.all_reddit_data Result.top_tracks Result.all_artists].
  unfold queries in Hg. rewrite flat_map_app in Hg.
  prints.
  eapply Returns_bind; [apply Returns_ext, Hg |].
  prints.
  eapply Returns_bind; [apply Returns_ext, Hf |].
  prints.
  eapply Returns_bind.
  { destruct (truthy final); [apply Returns_for_final | apply Returns_print]. }
  eapply Returns_bind; [apply Returns_print |].
  unfold queries. rewrite flat_map_app. apply Returns_ret.
Qed.

Lemma no_search_no_data (subreddit : Subreddit.t) (qs : list string) :
  Reddit.subreddit (Client.api client) (Main.subreddit_name a) = Ok subreddit ->
  (forall query, exists e,
     Subreddit.search subreddit query (Main.max_reddit_posts_per_query a) = Raise e /\
     is_Exception e = true) ->
  flat_map mine qs = [].
Proof.
  intros Hs Hdown. induction qs as [|q qs IH]; [reflexivity |].
  simpl. rewrite IH, app_nil_r. destruct (Hdown q) as (e & Hq & _).
  now rewrite query_result_eq, Hs, Hq.
Qed.

(** X20.  The stages of [get_recommendations] fit together.  When the
    clients are made, the playlist is fetched, the subreddit handle is
    made, no exception other than an [Exception] cuts a Reddit query
    short, and the model and the catalogue search answer, the function
    returns: the seed tracks are the top tracks of the fetched playlist
    and the seed artists its distinct artists, cut to the bounds given;
    the Reddit data are the results of their queries, in order; the model
    is asked about exactly these data and seed tracks; the final
    recommendations are what the catalogue search finds for the model's
    answer; and [num_found] is their number. *)
Theorem pipeline_composes
    (subreddit : Subreddit.t) (gpt : Gpt) (final : list FinalTrack.t) :
  Reddit.subreddit (Client.api client) (Main.subreddit_name a) = Ok subreddit ->
  (forall query,
     In query (queries top arts) ->
     uncaught (search_end subreddit query (Main.max_reddit_posts_per_query a)
                 (Main.max_comments_per_post a)) = false) ->
  snd (analyze_and_recommend openai_client info (flat_map mine (queries top arts)) top
         (Main.subreddit_name a) (Main.num_recommendations a) (Main.gpt_model a)
         (Main.gpt_temperature a) (Main.gpt_max_tokens a))
  = Ok gpt ->
  snd (search_spotify_recommendations sp gpt) = Ok final ->
  forall w : World L, exists w',
    run w =
    (Ok {| Main.playlist_data := info;
           Main.tracks_data := tracks;
           Main.reddit_data := flat_map mine (queries top arts);
           Main.top_tracks := top;
           Main.top_artists := arts;
           Main.gpt_recommendations := gpt;
           Main.final_recommendations := final;
           Main.subreddit := Main.subreddit_name a;
           Main.num_requested := Main.num_recommendations a;
           Main.num_found := List.length final |},
     w').
Proof. intros Hs Hcalm Hg Hf. exact (main_returns subreddit gpt final Hs Hcalm Hg Hf). Qed.

(** X21.  A Reddit outage does not stop the pipeline.  When the subreddit
    handle is made but every search raises an [Exception],
    [get_recommendations] still returns, provided the model and the
    catalogue search answer: the Reddit data are empty, and the model is
    asked with no Reddit data. *)
Theorem pipeline_survives_failed_searches
    (subreddit : Subreddit.t) (gpt : Gpt) (final : list FinalTrack.t) :
  Reddit.subreddit (Client.api client) (Main.subreddit_name a) = Ok subreddit ->
  (forall query, exists e,
     Subreddit.search subreddit query (Main.max_reddit_posts_per_query a) = Raise e /\
     is_Exception e = true) ->
  snd (analyze_and_recommend openai_client info [] top
         (Main.subreddit_name a) (Main.num_recommendations a) (Main.gpt_model a)
         (Main.gpt_temperature a) (Main.gpt_max_tokens a))
  = Ok gpt ->
  snd (search_spotify_recommendations sp gpt) = Ok final ->
  forall w : World L, exists w',
    run w =
    (Ok {| Main.playlist_data := info;
           Main.tracks_data := tracks;
           Main.reddit_data := [];
           Main.top_tracks := top;
           Main.top_artists := arts;
           Main.gpt_recommendations := gpt;
           Main.final_recommendations := final;
           Main.subreddit := Main.subreddit_name a;
           Main.num_requested := Main.num_recommendations a;
           Main.num_found := List.length final |},
     w').
Proof.
  intros Hs Hdown Hg Hf.
  pose proof (no_search_no_data subreddit (queries top arts) Hs Hdown) as Hnone.
  rewrite <- Hnone in Hg |- *. apply (main_returns subreddit gpt final Hs); trivial.
  intros query _. unfold search_end. destruct (Hdown query) as (e & -> & He).
  cbn. now rewrite He.
Qed.

(** X22.  A failed subreddit handle stops the pipeline.  No stage of
    [get_recommendations] is guarded: when the handle cannot be made and
    there is a seed track or a seed artist, the exception of the first
    query leaves [get_recommendations], whatever the model and the
    catalogue search would have answered. *)
Theorem pipeline_stops_without_handle (e : exn) :
  Reddit.subreddit (Client.api client) (Main.subreddit_name a) = Raise e ->
  top <> [] \/ arts <> [] ->
  forall w : World L, exists w', run w = (Raise e, w').
Proof.
  intros Hs Hseed. apply (main_until_reddit e Hs).
  unfold queries. intros Hq. apply app_eq_nil in Hq as [Ht Ha].
  apply map_eq_nil in Ht, Ha. tauto.
Qed.

(** X23.  A playlist that cannot be fetched stops the pipeline.  When
    [get_playlist_data] raises, its exception leaves
    [get_recommendations], whatever Reddit, the model and the catalogue
    search would have answered. *)
Theorem pipeline_stops_without_playlist (e : exn) :
  snd (get_playlist_data sp (Main.playlist_url a)) = Raise e ->
  forall w : World L, exists w', run w = (Raise e, w').
Proof. intros Hp. exact (main_until_playlist e Hp). Qed.

End MainFacts.

Lemma pipeline_composes_witness :
  exists w',
    Main.get_recommendations (H := last_seen_order) MainDemo.getenv MainDemo.str_of_float
      MainDemo.initialize_spotify (MainDemo.praw Sample.reddit) MainDemo.initialize_openai
      MainDemo.get_playlist_data MainDemo.analyze_and_recommend
      MainDemo.search_spotify_recommendations MainDemo.params Sample.quiet
    = (Ok {| Main.playlist_data := "Late night";
             Main.tracks_data := Sample.playlist;
             Main.reddit_data :=
               [post_data Sample.check_out [comment_data Sample.try_this];
                post_data Sample.recommend_me []];
             Main.top_tracks := [Sample.creep; Sample.teardrop];
             Main.top_artists := [];
             Main.gpt_recommendations := 2%nat;
             Main.final_recommendations := [];
             Main.subreddit := "music";
             Main.num_requested := 5;
             Main.num_found := 0 |},
       w').
Proof.
  exact (pipeline_composes (L := unit) last_seen_order ascii_only MainDemo.getenv
           MainDemo.str_of_float unit unit string nat
           MainDemo.initialize_spotify (MainDemo.praw Sample.reddit)
           MainDemo.initialize_openai MainDemo.get_playlist_data
           MainDemo.analyze_and_recommend MainDemo.search_spotify_recommendations
           MainDemo.params tt
           {| Client.read_only := false; Client.api := Sample.reddit |} tt
           eq_refl eq_refl eq_refl "Late night" Sample.playlist eq_refl
           Sample.music 2%nat [] eq_refl (fun query _ => sample_music_calm query 20)
           eq_refl eq_refl Sample.quiet).
Defined.

Lemma pipeline_survives_failed_searches_witness :
  exists w',
    Main.get_recommendations (H := last_seen_order) MainDemo.getenv MainDemo.str_of_float
      MainDemo.initialize_spotify (MainDemo.praw MainDemo.silent) MainDemo.initialize_openai
      MainDemo.get_playlist_data MainDemo.analyze_and_recommend
      MainDemo.search_spotify_recommendations MainDemo.params Sample.quiet
    = (Ok {| Main.playlist_data := "Late night";
             Main.tracks_data := Sample.playlist;
             Main.reddit_data := [];
             Main.top_tracks := [Sample.creep; Sample.teardrop];
             Main.top_artists := [];
             Main.gpt_recommendations := 0%nat;
             Main.final_recommendations := [];
             Main.subreddit := "music";
             Main.num_requested := 5;
             Main.num_found := 0 |},
       w').
Proof.
  exact (pipeline_survives_failed_searches (L := unit) last_seen_order ascii_only
           MainDemo.getenv MainDemo.str_of_float unit unit string nat
           MainDemo.initialize_spotify (MainDemo.praw MainDemo.silent)
           MainDemo.initialize_openai MainDemo.get_playlist_data
           MainDemo.analyze_and_recommend MainDemo.search_spotify_recommendations
           MainDemo.params tt
           {| Client.read_only := false; Client.api := MainDemo.silent |} tt
           eq_refl eq_refl eq_refl "Late night" Sample.playlist eq_refl
           {| Subreddit.search := fun _ _ => Raise Sample.boom |} 0%nat [] eq_refl
           (fun _ => ex_intro _ Sample.boom (conj eq_refl eq_refl)) eq_refl eq_refl
           Sample.quiet).
Defined.

Lemma pipeline_stops_without_handle_witness :
  exists w',
    Main.get_recommendations (H := last_seen_order) MainDemo.getenv MainDemo.str_of_float
      MainDemo.initialize_spotify (MainDemo.praw Sample.offline) MainDemo.initialize_openai
      MainDemo.get_playlist_data MainDemo.analyze_and_recommend
      MainDemo.search_spotify_recommendations MainDemo.params Sample.quiet
    = (Raise Sample.boom, w').
Proof.
  exact (pipeline_stops_without_handle (L := unit) last_seen_order ascii_only
           MainDemo.getenv MainDemo.str_of_float unit unit string nat
           MainDemo.initialize_spotify (MainDemo.praw Sample.offline)
           MainDemo.initialize_openai MainDemo.get_playlist_data
           MainDemo.analyze_and_recommend MainDemo.search_spotify_recommendations
           MainDemo.params tt
           {| Client.read_only := false; Client.api := Sample.offline |} tt
           eq_refl eq_refl eq_refl "Late night" Sample.playlist eq_refl
           Sample.boom eq_refl
           (or_introl (fun Heq : [Sample.creep; Sample.teardrop] = [] =>
                         @eq_ind (list Track) [Sample.creep; Sample.teardrop]
                           (fun l => match l with [] => False | _ :: _ => True end)
                           I [] Heq))
           Sample.quiet).
Defined.

Lemma pipeline_stops_without_playlist_witness :
  exists w',
    Main.get_recommendations (H := last_seen_order) MainDemo.getenv MainDemo.str_of_float
      MainDemo.initialize_spotify (MainDemo.praw Sample.reddit) MainDemo.initialize_openai
      MainDemo.playlist_not_found MainDemo.analyze_and_recommend
      MainDemo.search_spotify_recommendations MainDemo.params Sample.quiet
    = (Raise (Exception "Invalid playlist"), w').
Proof.
  exact (pipeline_stops_without_playlist (L := unit) last_seen_order ascii_only
           MainDemo.getenv MainDemo.str_of_float unit unit string nat
           MainDemo.initialize_spotify (MainDemo.praw Sample.reddit)
           MainDemo.initialize_openai MainDemo.playlist_not_found
           MainDemo.analyze_and_recommend MainDemo.search_spotify_recommendations
           MainDemo.params tt
           {| Client.read_only := false; Client.api := Sample.reddit |} tt
           eq_refl eq_refl eq_refl (Exception "Invalid playlist") eq_refl Sample.quiet).
Defined.
